(** * The vc executor runtime: a shallow embedding and its properties

    The development follows [internal/executor] (the [Executor] struct, [New],
    [Start], [Stop], the work loop, [executeIssue], [releaseIssueWithError],
    the janitor loops) and [internal/storage/beads] ([StoreAgentEvent] and the
    extension schema).

    Conventions.
    - A Go [error] is [option string]: [None] is [nil], [Some msg] is an error
      whose [Error()] text is [msg].
    - Go's [int] and [int64] are [Z] with the 64-bit wrap-around written out
      where the code does arithmetic; [time.Duration] is [Z] nanoseconds.
    - [float64] is Rocq's primitive binary64 [float].
    - The [storage.Storage] interface is a family of records of operations
      over an abstract store state [S]; every operation receives the state of
      the context it is called with ([true]: already cancelled).
    - Code that talks to the outside (the store, the oracle, the sandbox
      manager, the agent) runs in a state-and-trace monad [M]. *)

From Stdlib Require Import ZArith String List Bool Lia Floats Uint63 Ascii.
From stdpp Require Import base option gmap strings sorting.
Import ListNotations.

Local Open Scope string_scope.
Local Open Scope list_scope.
Local Open Scope Z_scope.

(** ** Go basics *)

Definition error : Type := option string.

Definition int64_min : Z := - 2 ^ 63.
Definition int64_max : Z := 2 ^ 63 - 1.

(** Two's-complement wrap-around of a 64-bit signed integer. *)
Definition wrap64 (z : Z) : Z := (z + 2 ^ 63) mod 2 ^ 64 - 2 ^ 63.

Definition add64 (a b : Z) : Z := wrap64 (a + b).

Definition in_int64 (z : Z) : Prop := int64_min <= z <= int64_max.

(** [strconv.Itoa] / the [%d] verb. *)
Fixpoint digits (fuel : nat) (n : Z) (acc : string) : string :=
  match fuel with
  | O => acc
  | S fuel' =>
      let d := String (ascii_of_nat (48 + Z.to_nat (n mod 10))%nat) acc in
      if n <? 10 then d else digits fuel' (n / 10) d
  end.

Definition itoa (z : Z) : string :=
  if z <? 0 then "-" +:+ digits 20 (- z) "" else digits 20 z "".

(** [float64(n)] for a 64-bit integer [n]. *)
Definition float64_of_int (n : Z) : float :=
  if n =? int64_min then (-0x1p63)%float
  else if n <? 0 then PrimFloat.opp (PrimFloat.of_uint63 (Uint63.of_Z (- n)))
  else PrimFloat.of_uint63 (Uint63.of_Z n).

(** [int(f)] for a finite [f] in range: truncation toward zero. *)
Definition int_of_float64 (f : float) : Z :=
  match Prim2SF f with
  | S754_finite s m e =>
      let mag := if 0 <=? e then Z.pos m * 2 ^ e else Z.pos m / 2 ^ (- e) in
      if s then - mag else mag
  | _ => 0
  end.

(** ** time *)

Module time.
Definition Duration : Type := Z.
Definition Nanosecond : Duration := 1.
Definition Second : Duration := 1000000000.
Definition Minute : Duration := 60 * Second.
Definition Hour : Duration := 60 * Minute.

(** [func (d Duration) Seconds() float64]:
    [sec := d / Second; nsec := d % Second;
     return float64(sec) + float64(nsec)/1e9]. *)
Definition Seconds (d : Duration) : float :=
  (float64_of_int (Z.quot d Second) + float64_of_int (Z.rem d Second) / 0x1.dcd65p+29)%float.

(** [func (d Duration) Milliseconds() int64]. *)
Definition Milliseconds (d : Duration) : Z := Z.quot d 1000000.
End time.


(** ** Domain types ([internal/types], [internal/events], [internal/ai]) *)

Inductive Status := StatusOpen | StatusInProgress | StatusBlocked | StatusClosed.

Inductive ExecutionState :=
| ExecutionStatePending | ExecutionStateClaimed | ExecutionStateAssessing
| ExecutionStateExecuting | ExecutionStateAnalyzing | ExecutionStateGates
| ExecutionStateCommitting | ExecutionStateCompleted | ExecutionStateFailed.

Inductive ExecutorStatus :=
| ExecutorStatusRunning | ExecutorStatusStopped | ExecutorStatusCrashed.

Inductive EventSeverity := SeverityInfo | SeverityWarning | SeverityError.

Inductive EventType :=
| EventTypeIssueClaimed | EventTypeAssessmentStarted | EventTypeAssessmentCompleted
| EventTypeAgentSpawned | EventTypeAgentCompleted
| EventTypeResultsProcessingStarted | EventTypeResultsProcessingCompleted
| EventTypeError | EventTypeEventCleanupCompleted.

Inductive AgentType := AgentTypeAmp.

(** A value of Go's [interface{}] as the executor puts it in an event's
    [Data] map or in an [UpdateIssue] field map. *)
Inductive Value :=
| VInt (z : Z) | VBool (b : bool) | VStr (s : string) | VFloat (f : float)
| VStatus (s : Status) | VAgentType (a : AgentType).

Global Instance Status_eq_dec : EqDecision Status.
Proof. solve_decision. Defined.

Global Instance ExecutionState_eq_dec : EqDecision ExecutionState.
Proof. solve_decision. Defined.

Global Instance EventSeverity_eq_dec : EqDecision EventSeverity.
Proof. solve_decision. Defined.

Global Instance EventType_eq_dec : EqDecision EventType.
Proof. solve_decision. Defined.

Module Issue.
Record t := { ID : string; Title : string }.
End Issue.

Module WorkFilter.
Record t := { Status : Status; Limit : Z }.
End WorkFilter.

Module ExecutorInstance.
Record t := {
  InstanceID : string; Hostname : string; PID : Z; Status : ExecutorStatus;
  StartedAt : Z; LastHeartbeat : Z; Version : string; Metadata : string }.
End ExecutorInstance.

(** [Success] is a [*bool]: [None] is the nil pointer (attempt not completed). *)
Module ExecutionAttempt.
Record t := { Success : option bool }.
End ExecutionAttempt.

Module EventCounts.
Record t := { TotalEvents : Z }.
End EventCounts.

(** [Data] is a Go map, [None] being the nil map. *)
Module AgentEvent.
Record t := {
  ID : string; Type_ : EventType; Timestamp : Z; IssueID : string;
  ExecutorID : string; AgentID : string; Severity : EventSeverity;
  Message : string; Data : option (gmap string Value); SourceLine : Z }.
End AgentEvent.

Module Assessment.
Record t := {
  Strategy : string; Confidence : float; EstimatedEffort : string;
  Steps : list string; Risks : list string }.
End Assessment.

Module Sandbox.
Record t := { ID : string; Path : string; GitBranch : string }.
End Sandbox.

Module SandboxConfig.
Record t := { MissionID : string; ParentRepo : string; BaseBranch : string }.
End SandboxConfig.

Module AgentResult.
Record t := { Success : bool; ExitCode : Z; Duration : time.Duration; Output : list string }.
End AgentResult.

Module ProcResult.
Record t := {
  Completed : bool; GatesPassed : bool; DiscoveredIssues : list string;
  CommitHash : string; Summary : string }.
End ProcResult.

Module WatchdogConfig.
Record t := {
  Enabled : bool; CheckInterval : time.Duration; MaxHistorySize : Z;
  MinConfidenceThreshold : float; MinSeverityLevel : string;
  EnableAnomalyLogging : bool }.
Definition IsEnabled (c : t) : bool := Enabled c.
Definition GetCheckInterval (c : t) : time.Duration := CheckInterval c.
End WatchdogConfig.

Module EventRetentionConfig.
Record t := {
  RetentionDays : Z; RetentionCriticalDays : Z; PerIssueLimitEvents : Z;
  GlobalLimitEvents : Z; CleanupIntervalHours : Z; CleanupBatchSize : Z;
  CleanupEnabled : bool; CleanupVacuum : bool }.
End EventRetentionConfig.

(** A non-nil [storage.Storage] interface value. *)
Inductive StoreRef := TheStore.

Module Config.
Record t := {
  Store : option StoreRef;
  Version : string;
  PollInterval : time.Duration;
  HeartbeatPeriod : time.Duration;
  CleanupInterval : time.Duration;
  StaleThreshold : time.Duration;
  EnableAISupervision : bool;
  EnableQualityGates : bool;
  EnableSandboxes : bool;
  KeepSandboxOnFailure : bool;
  KeepBranches : bool;
  SandboxRetentionCount : Z;
  EnableHealthMonitoring : bool;
  HealthConfigPath : string;
  HealthStatePath : string;
  WorkingDir : string;
  SandboxRoot : string;
  ParentRepo : string;
  DefaultBranch : string;
  WatchdogConfig : option WatchdogConfig.t;
  DeduplicationConfigSet : bool;
  EventRetentionConfig : option EventRetentionConfig.t;
  InstanceCleanupAge : time.Duration;
  InstanceCleanupKeep : Z }.
End Config.

(** [DefaultConfig]; the fields it leaves out take Go's zero value. *)
Definition DefaultConfig : Config.t := {|
  Config.Store := None;
  Config.Version := "0.1.0";
  Config.PollInterval := 5 * time.Second;
  Config.HeartbeatPeriod := 30 * time.Second;
  Config.CleanupInterval := 5 * time.Minute;
  Config.StaleThreshold := 5 * time.Minute;
  Config.InstanceCleanupAge := 24 * time.Hour;
  Config.InstanceCleanupKeep := 10;
  Config.EnableAISupervision := true;
  Config.EnableQualityGates := true;
  Config.EnableSandboxes := true;
  Config.KeepSandboxOnFailure := false;
  Config.KeepBranches := false;
  Config.SandboxRetentionCount := 3;
  Config.EnableHealthMonitoring := false;
  Config.HealthConfigPath := ".beads/health_monitors.yaml";
  Config.HealthStatePath := ".beads/health_state.json";
  Config.WorkingDir := ".";
  Config.SandboxRoot := ".sandboxes";
  Config.ParentRepo := ".";
  Config.DefaultBranch := "main";
  Config.WatchdogConfig := None;
  Config.DeduplicationConfigSet := false;
  Config.EventRetentionConfig := None |}.

(** The [Executor] struct. A component pointer ([supervisor], [sandboxMgr],
    [analyzer], [intervention], [healthRegistry]) is kept as the boolean
    "is not nil"; [config] is the pointer [New] stores, which is never nil, so
    the [e.config != nil] tests of the methods are true and left out; the
    channels live in the scheduler model of the loops, and the mutable
    [running] flag lives in the world. *)
Module Executor.
Record t := {
  supervisor : bool;
  analyzer : bool;
  intervention : bool;
  watchdogConfig : WatchdogConfig.t;
  sandboxMgr : bool;
  healthRegistry : bool;
  config : Config.t;
  instanceID : string;
  hostname : string;
  pid : Z;
  version : string;
  pollInterval : time.Duration;
  cleanupInterval : time.Duration;
  staleThreshold : time.Duration;
  instanceCleanupAge : time.Duration;
  instanceCleanupKeep : Z;
  enableAISupervision : bool;
  enableQualityGates : bool;
  enableSandboxes : bool;
  enableHealthMonitoring : bool;
  workingDir : string }.
End Executor.

(** ** Output streams *)

Inductive Output := Stdout (s : string) | Stderr (s : string).

Definition isNil {A} (e : option A) : bool := match e with None => true | Some _ => false end.

Definition errText (e : error) : string := match e with Some m => m | None => "<nil>" end.

(** ** [New] *)

(** What the process environment and the constructors of the collaborating
    packages answer while [New] runs ([None]: the constructor succeeded). *)
Module NewEnv.
Record t := {
  os_Hostname : string * error;
  os_Getpid : Z;
  uuid_New : string;
  ai_NewSupervisor : error;
  deduplication_NewAIDeduplicator : error;
  sandbox_NewManager : error;
  watchdog_DefaultWatchdogConfig : WatchdogConfig.t;
  watchdog_NewAnalyzer : error;
  watchdog_NewInterventionController : error;
  health_NewMonitorRegistry : error;
  getProjectRootFromStore : error;
  health_NewFileSizeMonitor : error;
  registry_Register_fileSize : error;
  health_NewCruftDetector : error;
  registry_Register_cruft : error }.
End NewEnv.

Definition warnIf (e : error) (pre post : string) : list Output :=
  match e with Some m => [Stderr (pre +:+ m +:+ post)] | None => [] end.

Definition New_health (env : NewEnv.t) (cfg : Config.t) (supervisor : bool)
  : bool * bool * list Output :=
  (* (healthRegistry, enableHealthMonitoring, output); the struct literal
     leaves enableHealthMonitoring at its zero value *)
  let enableHealthMonitoring := false in
  if Config.EnableHealthMonitoring cfg then
    match NewEnv.health_NewMonitorRegistry env with
    | Some err =>
        (false, false,
         [Stderr ("Warning: failed to initialize health registry: " +:+ err +:+ " (health monitoring disabled)")])
    | None =>
        if supervisor then
          match NewEnv.getProjectRootFromStore env with
          | Some err =>
              (true, false,
               [Stderr ("Warning: failed to get project root: " +:+ err +:+ " (health monitoring disabled)")])
          | None =>
              let o1 :=
                match NewEnv.health_NewFileSizeMonitor env with
                | Some err => [Stderr ("Warning: failed to create file size monitor: " +:+ err)]
                | None => warnIf (NewEnv.registry_Register_fileSize env)
                            "Warning: failed to register file size monitor: " ""
                end in
              let o2 :=
                match NewEnv.health_NewCruftDetector env with
                | Some err => [Stderr ("Warning: failed to create cruft detector: " +:+ err)]
                | None => warnIf (NewEnv.registry_Register_cruft env)
                            "Warning: failed to register cruft detector: " ""
                end in
              (true, enableHealthMonitoring, o1 ++ o2)
          end
        else
          (true, false,
           [Stderr "Warning: health monitoring requires AI supervision (health monitoring disabled)"])
    end
  else (false, enableHealthMonitoring, []).

Definition New (env : NewEnv.t) (cfg : Config.t) : option Executor.t * error * list Output :=
  match Config.Store cfg with
  | None => (None, Some "storage is required", [])
  | Some _ =>
  let '(hostname, err) := NewEnv.os_Hostname env in
  match err with
  | Some m => (None, Some ("failed to get hostname: " +:+ m), [])
  | None =>
  let workingDir := if decide (Config.WorkingDir cfg = "") then "." else Config.WorkingDir cfg in
  let sandboxRoot := if decide (Config.SandboxRoot cfg = "") then ".sandboxes" else Config.SandboxRoot cfg in
  let parentRepo := if decide (Config.ParentRepo cfg = "") then "." else Config.ParentRepo cfg in
  let cleanupInterval :=
    if Config.CleanupInterval cfg =? 0 then 5 * time.Minute else Config.CleanupInterval cfg in
  let staleThreshold :=
    if Config.StaleThreshold cfg =? 0 then 5 * time.Minute else Config.StaleThreshold cfg in
  let instanceCleanupAge :=
    if Config.InstanceCleanupAge cfg =? 0 then 24 * time.Hour else Config.InstanceCleanupAge cfg in
  let instanceCleanupKeep :=
    if Config.InstanceCleanupKeep cfg =? 0 then 10 else Config.InstanceCleanupKeep cfg in
  let instanceID := NewEnv.uuid_New env in
  (* AI supervisor *)
  let '(supervisor, enableAISupervision, out1) :=
    if Config.EnableAISupervision cfg then
      match NewEnv.ai_NewSupervisor env with
      | Some m =>
          (false, false,
           [Stderr ("Warning: failed to initialize AI supervisor: " +:+ m +:+ " (continuing without AI supervision)")])
      | None => (true, Config.EnableAISupervision cfg, [])
      end
    else (false, Config.EnableAISupervision cfg, []) in
  (* sandbox manager *)
  let '(sandboxMgr, enableSandboxes, out2) :=
    if Config.EnableSandboxes cfg then
      let o_dedup :=
        if supervisor then
          warnIf (NewEnv.deduplication_NewAIDeduplicator env)
            "Warning: failed to create deduplicator: " " (continuing without deduplication)"
        else [] in
      match NewEnv.sandbox_NewManager env with
      | Some m =>
          (false, false,
           o_dedup ++ [Stderr ("Warning: failed to initialize sandbox manager: " +:+ m +:+ " (continuing without sandboxes)")])
      | None => (true, Config.EnableSandboxes cfg, o_dedup)
      end
    else (false, Config.EnableSandboxes cfg, []) in
  (* watchdog *)
  let watchdogConfig :=
    match Config.WatchdogConfig cfg with
    | None => NewEnv.watchdog_DefaultWatchdogConfig env
    | Some c => c
    end in
  let '(analyzer, out3) :=
    if enableAISupervision && supervisor then
      match NewEnv.watchdog_NewAnalyzer env with
      | Some m =>
          (false, [Stderr ("Warning: failed to initialize watchdog analyzer: " +:+ m +:+ " (watchdog disabled)")])
      | None => (true, [])
      end
    else (false, []) in
  let '(intervention, out4) :=
    match NewEnv.watchdog_NewInterventionController env with
    | Some m =>
        (false, [Stderr ("Warning: failed to initialize intervention controller: " +:+ m +:+ " (watchdog disabled)")])
    | None => (true, [])
    end in
  let '(healthRegistry, enableHealthMonitoring, out5) := New_health env cfg supervisor in
  (Some {|
     Executor.supervisor := supervisor;
     Executor.analyzer := analyzer;
     Executor.intervention := intervention;
     Executor.watchdogConfig := watchdogConfig;
     Executor.sandboxMgr := sandboxMgr;
     Executor.healthRegistry := healthRegistry;
     Executor.config := cfg;
     Executor.instanceID := instanceID;
     Executor.hostname := hostname;
     Executor.pid := NewEnv.os_Getpid env;
     Executor.version := Config.Version cfg;
     Executor.pollInterval := Config.PollInterval cfg;
     Executor.cleanupInterval := cleanupInterval;
     Executor.staleThreshold := staleThreshold;
     Executor.instanceCleanupAge := instanceCleanupAge;
     Executor.instanceCleanupKeep := instanceCleanupKeep;
     Executor.enableAISupervision := enableAISupervision;
     Executor.enableQualityGates := Config.EnableQualityGates cfg;
     Executor.enableSandboxes := enableSandboxes;
     Executor.enableHealthMonitoring := enableHealthMonitoring;
     Executor.workingDir := workingDir |},
   None, out1 ++ out2 ++ out3 ++ out4 ++ out5)
  end
  end.

(** ** Contexts, store calls and the trace *)

(** The contexts the executor passes around: the ambient context handed to
    [Start] and threaded through the loops, [context.Background()], and the
    agent context derived from the ambient one. *)
Inductive Context := CtxAmbient | CtxBackground | CtxAgent.

Global Instance Context_eq_dec : EqDecision Context.
Proof. solve_decision. Defined.

Definition context_Canceled : string := "context canceled".

(** One call through the [storage.Storage] interface, with its arguments. *)
Inductive StoreCall :=
| CallStoreAgentEvent (event : AgentEvent.t)
| CallCleanupEventsByAge (retentionDays criticalRetentionDays batchSize : Z)
| CallCleanupEventsByIssueLimit (perIssueLimit batchSize : Z)
| CallCleanupEventsByGlobalLimit (globalLimit batchSize : Z)
| CallGetEventCounts
| CallVacuumDatabase
| CallUpdateIssue (id : string) (updates : gmap string Value) (actor : string)
| CallGetReadyWork (filter : WorkFilter.t)
| CallAddComment (issueID actor comment : string)
| CallRegisterInstance (instance : ExecutorInstance.t)
| CallMarkInstanceStopped (instanceID : string)
| CallUpdateHeartbeat (instanceID : string)
| CallCleanupStaleInstances (staleThreshold : Z)
| CallDeleteOldStoppedInstances (olderThanSeconds maxToKeep : Z)
| CallClaimIssue (issueID executorInstanceID : string)
| CallUpdateExecutionState (issueID : string) (state : ExecutionState)
| CallReleaseIssue (issueID : string)
| CallReleaseIssueAndReopen (issueID actor errorComment : string)
| CallGetExecutionHistory (issueID : string).

Inductive MonitorCall :=
| StartExecution (issueID instanceID : string)
| RecordEvent (t : EventType)
| RecordStateTransition (from to : ExecutionState)
| EndExecution (success gatesPassed : bool).

(** Calls to the collaborators other than the store. *)
Inductive ExtCall :=
| ExtAssessIssueState (issueID : string)
| ExtSandboxCreate (cfg : SandboxConfig.t)
| ExtSandboxCleanup (sb : Sandbox.t)
| ExtCleanupStaleFailedSandboxes (retention : Z)
| ExtSetAgentContext (issueID : string)
| ExtClearAgentContext
| ExtAgentCancel
| ExtGatherContext (issueID : string)
| ExtNewPromptBuilder
| ExtBuildPrompt
| ExtSpawnAgent (workingDir : string) (agentID : string)
| ExtAgentWait
| ExtNewAIDeduplicator
| ExtNewResultsProcessor (workingDir : string)
| ExtProcessAgentResult (issueID : string)
| ExtNewGit
| ExtCleanupOrphanedBranches (repoPath : string) (retentionDays : Z)
| ExtCheckHealthMonitors
| ExtValidateRetention.

Inductive Goroutine := GoEventLoop | GoWatchdogLoop | GoCleanupLoop | GoEventCleanupLoop.

Inductive Chan :=
| stopCh | doneCh | watchdogStopCh | watchdogDoneCh
| cleanupStopCh | cleanupDoneCh | eventCleanupStopCh | eventCleanupDoneCh.

(** What an execution leaves behind, in program order. [EvStore c d call err]:
    the store was called with context [c], which was already cancelled iff
    [d], and answered [err]. *)
Inductive Event :=
| EvStore (c : Context) (cancelled : bool) (call : StoreCall) (err : error)
| EvExt (c : option Context) (call : ExtCall) (err : error)
| EvMonitor (m : MonitorCall)
| EvPrint (o : Output)
| EvGo (g : Goroutine) (c : Context)
| EvClose (ch : Chan).

(** ** The [storage.Storage] interface

    The interface is split along its own headings; each group lists the
    methods the executor calls. The first argument of a method is the state
    of its [ctx] when the call is made. *)

Record AgentEventStore (S : Type) := {
  StoreAgentEvent : bool -> AgentEvent.t -> S -> error * S }.

Record EventCleanupStore (S : Type) := {
  CleanupEventsByAge : bool -> Z -> Z -> Z -> S -> (Z * error) * S;
  CleanupEventsByIssueLimit : bool -> Z -> Z -> S -> (Z * error) * S;
  CleanupEventsByGlobalLimit : bool -> Z -> Z -> S -> (Z * error) * S;
  GetEventCounts : bool -> S -> (option EventCounts.t * error) * S;
  VacuumDatabase : bool -> S -> error * S }.

Record IssueStore (S : Type) := {
  UpdateIssue : bool -> string -> gmap string Value -> string -> S -> error * S;
  AddComment : bool -> string -> string -> string -> S -> error * S }.

Record ReadyWorkStore (S : Type) := {
  GetReadyWork : bool -> WorkFilter.t -> S -> (list Issue.t * error) * S }.

Record InstanceStore (S : Type) := {
  RegisterInstance : bool -> ExecutorInstance.t -> S -> error * S;
  MarkInstanceStopped : bool -> string -> S -> error * S;
  UpdateHeartbeat : bool -> string -> S -> error * S;
  CleanupStaleInstances : bool -> Z -> S -> (Z * error) * S;
  DeleteOldStoppedInstances : bool -> Z -> Z -> S -> (Z * error) * S }.

Record ExecutionStore (S : Type) := {
  ClaimIssue : bool -> string -> string -> S -> error * S;
  UpdateExecutionState : bool -> string -> ExecutionState -> S -> error * S;
  ReleaseIssue : bool -> string -> S -> error * S;
  ReleaseIssueAndReopen : bool -> string -> string -> string -> S -> error * S;
  GetExecutionHistory : bool -> string -> S -> (list ExecutionAttempt.t * error) * S }.

Arguments StoreAgentEvent {S}.
Arguments CleanupEventsByAge {S}.
Arguments CleanupEventsByIssueLimit {S}.
Arguments CleanupEventsByGlobalLimit {S}.
Arguments GetEventCounts {S}.
Arguments VacuumDatabase {S}.
Arguments UpdateIssue {S}.
Arguments GetReadyWork {S}.
Arguments AddComment {S}.
Arguments RegisterInstance {S}.
Arguments MarkInstanceStopped {S}.
Arguments UpdateHeartbeat {S}.
Arguments CleanupStaleInstances {S}.
Arguments DeleteOldStoppedInstances {S}.
Arguments ClaimIssue {S}.
Arguments UpdateExecutionState {S}.
Arguments ReleaseIssue {S}.
Arguments ReleaseIssueAndReopen {S}.
Arguments GetExecutionHistory {S}.

(** ** The collaborators

    The oracle, the sandbox manager, git, the prompt machinery, the agent and
    the results processor are outside the executor. Each answers as a function
    of its arguments, of the state of the context it is called with, and of
    the store (which most of them hold a handle to). A constructor or a call
    that yields a value answers [inl v], or [inr msg] for a non-nil error.
    [fmt_f0], [fmt_f2] and [fmt_Duration] are the verbs [%.0f], [%.2f] and
    [%v] of a duration. Every printed line is kept without its final
    newline. *)

Module AgentConfig.
Record t := {
  Type_ : AgentType; WorkingDir : string; Issue : Issue.t; StreamJSON : bool;
  Timeout : time.Duration; ExecutorID : string; AgentID : string;
  Sandbox : option Sandbox.t }.
End AgentConfig.

Record Collaborators (S : Type) := {
  time_Now : nat -> Z;
  uuid_New : nat -> string;
  os_Getenv_VC_DEBUG_PROMPTS : string;
  fmt_f0 : float -> string;
  fmt_f2 : float -> string;
  fmt_Duration : time.Duration -> string;
  supervisor_AssessIssueState : bool -> Issue.t -> S -> (Assessment.t + string) * S;
  sandboxMgr_Create : bool -> SandboxConfig.t -> S -> (Sandbox.t + string) * S;
  sandboxMgr_Cleanup : bool -> Sandbox.t -> S -> error * S;
  sandboxMgr_CleanupStaleFailedSandboxes : bool -> Z -> S -> error * S;
  gatherer_GatherContext : bool -> Issue.t -> S -> (string + string) * S;
  NewPromptBuilder : error;
  builder_BuildPrompt : string -> string + string;
  SpawnAgent : bool -> AgentConfig.t -> string -> S -> error * S;
  agent_Wait : bool -> S -> (AgentResult.t + string) * S;
  deduplication_NewAIDeduplicator : error;
  NewResultsProcessor : error;
  processor_ProcessAgentResult : bool -> Issue.t -> AgentResult.t -> S -> (ProcResult.t + string) * S;
  git_NewGit : bool -> error;
  gitOps_CleanupOrphanedBranches : bool -> string -> Z -> S -> (Z * error) * S;
  checkHealthMonitors : bool -> S -> error * S;
  config_DefaultEventRetentionConfig : EventRetentionConfig.t;
  retentionCfg_Validate : EventRetentionConfig.t -> error }.

Arguments time_Now {S}.
Arguments uuid_New {S}.
Arguments os_Getenv_VC_DEBUG_PROMPTS {S}.
Arguments fmt_f0 {S}.
Arguments fmt_f2 {S}.
Arguments fmt_Duration {S}.
Arguments supervisor_AssessIssueState {S}.
Arguments sandboxMgr_Create {S}.
Arguments sandboxMgr_Cleanup {S}.
Arguments sandboxMgr_CleanupStaleFailedSandboxes {S}.
Arguments gatherer_GatherContext {S}.
Arguments NewPromptBuilder {S}.
Arguments builder_BuildPrompt {S}.
Arguments SpawnAgent {S}.
Arguments agent_Wait {S}.
Arguments deduplication_NewAIDeduplicator {S}.
Arguments NewResultsProcessor {S}.
Arguments processor_ProcessAgentResult {S}.
Arguments git_NewGit {S}.
Arguments gitOps_CleanupOrphanedBranches {S}.
Arguments checkHealthMonitors {S}.
Arguments config_DefaultEventRetentionConfig {S}.
Arguments retentionCfg_Validate {S}.

(** ** The world and the monad *)

(** [clock] counts the calls to the outside made so far; the ambient context
    is cancelled from step [cancelAt] on (never, when [None]); [running] is
    the executor's flag (the mutex around it has no sequential content);
    [fresh] numbers the identifiers drawn. *)
Module World.
Record t (S : Type) := {
  store : S; clock : nat; cancelAt : option nat; running : bool; fresh : nat }.
Arguments store {S}.
Arguments clock {S}.
Arguments cancelAt {S}.
Arguments running {S}.
Arguments fresh {S}.
Definition init {S} (s : S) (cancel : option nat) : t S :=
  {| store := s; clock := 0; cancelAt := cancel; running := false; fresh := 0 |}.
Definition started {S} (s : S) (cancel : option nat) : t S :=
  {| store := s; clock := 0; cancelAt := cancel; running := true; fresh := 0 |}.
End World.

Definition M (S A : Type) : Type := World.t S -> A * World.t S * list Event.

Definition ret {S A} (a : A) : M S A := fun w => (a, w, []).

Definition bind {S A B} (m : M S A) (k : A -> M S B) : M S B :=
  fun w =>
    let '(a, w1, t1) := m w in
    let '(b, w2, t2) := k a w1 in
    (b, w2, t1 ++ t2).

Declare Scope go_scope.
Delimit Scope go_scope with go.
Notation "x <- m ;; k" := (bind m (fun x => k))
  (at level 100, m at next level, right associativity) : go_scope.
Notation "m ;; k" := (bind m (fun _ => k))
  (at level 100, right associativity) : go_scope.
Local Open Scope go_scope.

(** [stmt] is a statement that may execute a [return v]: [Some v] leaves the
    enclosing function with [v], [None] falls through to [k]. *)
Definition orReturn {S A} (stmt : M S (option A)) (k : M S A) : M S A :=
  r <- stmt ;; match r with Some v => ret v | None => k end.

Definition emit {S} (ev : Event) : M S unit := fun w => (tt, w, [ev]).

Definition print {S} (o : Output) : M S unit := emit (EvPrint o).

Definition monitor {S} (m : MonitorCall) : M S unit := emit (EvMonitor m).

Definition ctxDone {S} (c : Context) (w : World.t S) : bool :=
  match c with
  | CtxBackground => false
  | CtxAmbient | CtxAgent =>
      match World.cancelAt w with
      | Some d => (d <=? World.clock w)%nat
      | None => false
      end
  end.

(** [ctx.Err()]. *)
Definition ctx_Err {S} (c : Context) : M S error :=
  fun w => (if ctxDone c w then Some context_Canceled else None, w, []).

Definition step {S} (w : World.t S) (s : S) : World.t S :=
  {| World.store := s; World.clock := Datatypes.S (World.clock w);
     World.cancelAt := World.cancelAt w; World.running := World.running w;
     World.fresh := World.fresh w |}.

Definition get_running {S} : M S bool := fun w => (World.running w, w, []).

Definition set_running {S} (b : bool) : M S unit :=
  fun w => (tt, {| World.store := World.store w; World.clock := World.clock w;
                   World.cancelAt := World.cancelAt w; World.running := b;
                   World.fresh := World.fresh w |}, []).

(** A store method returning only an error. *)
Definition storeErr {S} (c : Context) (call : StoreCall) (op : bool -> S -> error * S) : M S error :=
  fun w =>
    let d := ctxDone c w in
    let '(err, s) := op d (World.store w) in
    (err, step w s, [EvStore c d call err]).

(** A store method returning a value and an error. *)
Definition storeVal {S A} (c : Context) (call : StoreCall) (op : bool -> S -> (A * error) * S)
  : M S (A * error) :=
  fun w =>
    let d := ctxDone c w in
    let '(r, s) := op d (World.store w) in
    (r, step w s, [EvStore c d call (snd r)]).

Definition resErr {A} (r : A + string) : error :=
  match r with inl _ => None | inr m => Some m end.

(** A collaborator that reads or writes through the store. *)
Definition extErr {S} (c : Context) (call : ExtCall) (op : bool -> S -> error * S) : M S error :=
  fun w =>
    let d := ctxDone c w in
    let '(err, s) := op d (World.store w) in
    (err, step w s, [EvExt (Some c) call err]).

Definition extVal {S A} (c : Context) (call : ExtCall) (op : bool -> S -> (A + string) * S)
  : M S (A + string) :=
  fun w =>
    let d := ctxDone c w in
    let '(r, s) := op d (World.store w) in
    (r, step w s, [EvExt (Some c) call (resErr r)]).

(** A collaborator that takes no context and leaves the store alone. *)
Definition extPure {S} (call : ExtCall) (err : error) : M S unit :=
  emit (EvExt None call err).

(** ** The executor's methods *)

Definition nl : string := String (ascii_of_nat 10) "".

Definition mkData (l : list (string * Value)) : option (gmap string Value) :=
  Some (list_to_map l).

Definition maxConsecutiveFailures : Z := 3.

(** The counting loop of [releaseIssueWithError], which walks the history
    from its last attempt backwards; [attempts] is the history reversed. *)
Fixpoint countFailures (attempts : list ExecutionAttempt.t) (consecutiveFailures : Z) : Z :=
  match attempts with
  | [] => consecutiveFailures
  | attempt :: rest =>
      match ExecutionAttempt.Success attempt with
      | None => countFailures rest consecutiveFailures
      | Some false => countFailures rest (consecutiveFailures + 1)
      | Some true => consecutiveFailures
      end
  end.

Definition consecutiveFailuresOf (history : list ExecutionAttempt.t) : Z :=
  countFailures (rev history) 0.

Fixpoint formatSteps (i : Z) (steps : list string) : string :=
  match steps with
  | [] => ""
  | step :: rest => itoa (i + 1) +:+ ". " +:+ step +:+ nl +:+ formatSteps (i + 1) rest
  end.

Fixpoint formatRisks (risks : list string) : string :=
  match risks with
  | [] => ""
  | risk :: rest => "- " +:+ risk +:+ nl +:+ formatRisks rest
  end.

(** The map literal of [logCleanupEvent]. *)
Definition summaryData (totalDeleted timeBasedDeleted perIssueDeleted globalLimitDeleted : Z)
  (processingTimeMs : Z) (vacuumRan : bool) (eventsRemaining : Z) (success : bool)
  : gmap string Value :=
  list_to_map [("events_deleted", VInt totalDeleted);
               ("time_based_deleted", VInt timeBasedDeleted);
               ("per_issue_deleted", VInt perIssueDeleted);
               ("global_limit_deleted", VInt globalLimitDeleted);
               ("processing_time_ms", VInt processingTimeMs);
               ("vacuum_ran", VBool vacuumRan);
               ("events_remaining", VInt eventsRemaining);
               ("success", VBool success)].

Section Runtime.

Context {S : Type}.
Variable agentEvents : AgentEventStore S.
Variable eventCleanup : EventCleanupStore S.
Variable issues : IssueStore S.
Variable readyWork : ReadyWorkStore S.
Variable instances : InstanceStore S.
Variable executions : ExecutionStore S.
Variable env : Collaborators S.
Variable e : Executor.t.

Definition now : M S Z := fun w => (time_Now env (World.clock w), w, []).

Definition newUUID : M S string :=
  fun w =>
    (uuid_New env (World.fresh w),
     {| World.store := World.store w; World.clock := World.clock w;
        World.cancelAt := World.cancelAt w; World.running := World.running w;
        World.fresh := Datatypes.S (World.fresh w) |}, []).

(** [logEvent]. *)
Definition logEvent (ctx : Context) (eventType : EventType) (severity : EventSeverity)
  (issueID message : string) (data : option (gmap string Value)) : M S unit :=
  cerr <- ctx_Err ctx ;;
  match cerr with
  | Some _ => ret tt
  | None =>
      id <- newUUID ;;
      ts <- now ;;
      let event := {|
        AgentEvent.ID := id;
        AgentEvent.Type_ := eventType;
        AgentEvent.Timestamp := ts;
        AgentEvent.IssueID := issueID;
        AgentEvent.ExecutorID := Executor.instanceID e;
        AgentEvent.AgentID := "";
        AgentEvent.Severity := severity;
        AgentEvent.Message := message;
        AgentEvent.Data := data;
        AgentEvent.SourceLine := 0 |} in
      err <- storeErr ctx (CallStoreAgentEvent event)
               (fun d => StoreAgentEvent agentEvents d event) ;;
      match err with
      | Some m => print (Stderr ("warning: failed to store agent event: " +:+ m))
      | None => ret tt
      end
  end.

(** [releaseIssueWithError]. *)
Definition releaseIssueWithError (ctx : Context) (issueID errMsg : string) : M S unit :=
  r <- storeVal ctx (CallGetExecutionHistory issueID)
         (fun d => GetExecutionHistory executions d issueID) ;;
  let '(history, err) := r in
  match err with
  | Some m =>
      print (Stderr ("warning: failed to get execution history for " +:+ issueID +:+ ": " +:+ m))
  | None => ret tt
  end ;;
  let consecutiveFailures := consecutiveFailuresOf history in
  if consecutiveFailures >=? maxConsecutiveFailures then
    print (Stderr ("Issue " +:+ issueID +:+ " has " +:+ itoa consecutiveFailures
                   +:+ " consecutive failures, marking as blocked")) ;;
    let blockReason :=
      "Blocked after " +:+ itoa consecutiveFailures
      +:+ " consecutive execution failures. Last error: " +:+ errMsg in
    err <- storeErr ctx (CallReleaseIssue issueID)
             (fun d => ReleaseIssue executions d issueID) ;;
    match err with
    | Some m => print (Stderr ("warning: failed to release issue " +:+ issueID +:+ ": " +:+ m))
    | None => ret tt
    end ;;
    let updates : gmap string Value := {[ "status" := VStatus StatusBlocked ]} in
    err <- storeErr ctx (CallUpdateIssue issueID updates "executor")
             (fun d => UpdateIssue issues d issueID updates "executor") ;;
    match err with
    | Some m => print (Stderr ("warning: failed to mark issue " +:+ issueID +:+ " as blocked: " +:+ m))
    | None => ret tt
    end ;;
    err <- storeErr ctx (CallAddComment issueID "executor" blockReason)
             (fun d => AddComment issues d issueID "executor" blockReason) ;;
    match err with
    | Some m => print (Stderr ("warning: failed to add comment to " +:+ issueID +:+ ": " +:+ m))
    | None => ret tt
    end
  else
    (if consecutiveFailures >? 0 then
       print (Stderr ("Issue " +:+ issueID +:+ " has " +:+ itoa consecutiveFailures
                      +:+ " consecutive failures, reopening for retry"))
     else ret tt) ;;
    err <- storeErr ctx (CallReleaseIssueAndReopen issueID (Executor.instanceID e) errMsg)
             (fun d => ReleaseIssueAndReopen executions d issueID (Executor.instanceID e) errMsg) ;;
    match err with
    | Some m => print (Stderr ("warning: failed to release and reopen issue: " +:+ m))
    | None => ret tt
    end.

(** The cancellation exit shared by four places of [executeIssue]: release
    with [context.Background()], end the telemetry, return [ctx.Err()]. *)
Definition cancelExit (ctx : Context) (issueID errMsg : string) : M S error :=
  let cleanupCtx := CtxBackground in
  releaseIssueWithError cleanupCtx issueID errMsg ;;
  monitor (EndExecution false false) ;;
  ctx_Err ctx.

(** The failure exit of the later phases: log the event, release with the
    ambient [ctx], end the telemetry, return the wrapped error. *)
Definition failExit (ctx : Context) (issueID : string) (eventType : EventType)
  (logMsg : string) (data : list (string * Value)) (releaseMsg retMsg : string) : M S error :=
  logEvent ctx eventType SeverityError issueID logMsg (mkData data) ;;
  releaseIssueWithError ctx issueID releaseMsg ;;
  monitor (EndExecution false false) ;;
  ret (Some retMsg).

(** Phase 1 of [executeIssue]: the transition to [assessing] and the
    assessment. [Some err] is a [return err]. *)
Definition assessPhase (ctx : Context) (issue : Issue.t) : M S (option error) :=
  let issueID := Issue.ID issue in
  err <- storeErr ctx (CallUpdateExecutionState issueID ExecutionStateAssessing)
           (fun d => UpdateExecutionState executions d issueID ExecutionStateAssessing) ;;
  orReturn
    match err with
    | Some m =>
        cerr <- ctx_Err ctx ;;
        match cerr with
        | Some c =>
            r <- cancelExit ctx issueID ("Execution canceled during state transition: " +:+ c) ;;
            ret (Some (Some r))
        | None =>
            print (Stderr ("warning: failed to update execution state: " +:+ m)) ;;
            ret None
        end
    | None => ret None
    end
  (monitor (RecordStateTransition ExecutionStateClaimed ExecutionStateAssessing) ;;
   if Executor.enableAISupervision e && Executor.supervisor e then
     logEvent ctx EventTypeAssessmentStarted SeverityInfo issueID
       ("Starting AI assessment for issue " +:+ issueID) (mkData []) ;;
     r <- extVal ctx (ExtAssessIssueState issueID)
            (fun d => supervisor_AssessIssueState env d issue) ;;
     match r with
     | inr m =>
         cerr <- ctx_Err ctx ;;
         match cerr with
         | Some _ =>
             print (Stderr "Assessment canceled due to executor shutdown") ;;
             r <- cancelExit ctx issueID "Execution canceled during assessment" ;;
             ret (Some r)
         | None =>
             print (Stderr ("Warning: AI assessment failed: " +:+ m
                            +:+ " (continuing without assessment)")) ;;
             logEvent ctx EventTypeAssessmentCompleted SeverityError issueID
               ("AI assessment failed: " +:+ m)
               (mkData [("success", VBool false); ("error", VStr m)]) ;;
             ret None
         end
     | inl assessment =>
         let assessmentComment :=
           "**AI Assessment**" +:+ nl +:+ nl +:+ "Strategy: " +:+ Assessment.Strategy assessment
           +:+ nl +:+ nl +:+ "Confidence: "
           +:+ fmt_f0 env (Assessment.Confidence assessment * 0x1.9p+6)%float +:+ "%"
           +:+ nl +:+ nl +:+ "Estimated Effort: " +:+ Assessment.EstimatedEffort assessment
           +:+ nl +:+ nl +:+ "Steps:" +:+ nl
           +:+ formatSteps 0 (Assessment.Steps assessment)
           +:+ (if (0 <? Z.of_nat (length (Assessment.Risks assessment)))
                then nl +:+ "Risks:" +:+ nl +:+ formatRisks (Assessment.Risks assessment)
                else "") in
         err <- storeErr ctx (CallAddComment issueID "ai-supervisor" assessmentComment)
                  (fun d => AddComment issues d issueID "ai-supervisor" assessmentComment) ;;
         match err with
         | Some m => print (Stderr ("warning: failed to add assessment comment: " +:+ m))
         | None => ret tt
         end ;;
         logEvent ctx EventTypeAssessmentCompleted SeverityInfo issueID
           ("AI assessment completed for issue " +:+ issueID)
           (mkData [("success", VBool true);
                    ("strategy", VStr (Assessment.Strategy assessment));
                    ("confidence", VFloat (Assessment.Confidence assessment));
                    ("estimated_effort", VStr (Assessment.EstimatedEffort assessment));
                    ("steps_count", VInt (Z.of_nat (length (Assessment.Steps assessment))));
                    ("risks_count", VInt (Z.of_nat (length (Assessment.Risks assessment))))]) ;;
         ret None
     end
   else
     print (Stdout "Skipping AI assessment (supervision disabled)") ;;
     ret None).

(** Phase 2: the sandbox. Returns the sandbox, if one was created (its
    cleanup is then deferred), and the working directory. *)
Definition sandboxPhase (ctx : Context) (issue : Issue.t) : M S (option Sandbox.t * string) :=
  let workingDir := Executor.workingDir e in
  if Executor.enableSandboxes e && Executor.sandboxMgr e then
    print (Stdout ("Creating sandbox for issue " +:+ Issue.ID issue +:+ "...")) ;;
    let parentRepo :=
      if decide (Config.ParentRepo (Executor.config e) = "") then "."
      else Config.ParentRepo (Executor.config e) in
    let baseBranch :=
      if decide (Config.DefaultBranch (Executor.config e) = "") then "main"
      else Config.DefaultBranch (Executor.config e) in
    let sandboxCfg := {|
      SandboxConfig.MissionID := Issue.ID issue;
      SandboxConfig.ParentRepo := parentRepo;
      SandboxConfig.BaseBranch := baseBranch |} in
    r <- extVal ctx (ExtSandboxCreate sandboxCfg) (fun d => sandboxMgr_Create env d sandboxCfg) ;;
    match r with
    | inr m =>
        print (Stderr ("Warning: failed to create sandbox: " +:+ m
                       +:+ " (continuing in main workspace)")) ;;
        ret (None, workingDir)
    | inl sb =>
        print (Stdout ("Sandbox created: " +:+ Sandbox.Path sb +:+ " (branch: "
                       +:+ Sandbox.GitBranch sb +:+ ")")) ;;
        ret (Some sb, Sandbox.Path sb)
    end
  else ret (None, workingDir).

(** The deferred sandbox cleanup. *)
Definition deferredSandboxCleanup (ctx : Context) (sb : option Sandbox.t) : M S unit :=
  match sb with
  | Some sb =>
      print (Stdout ("Cleaning up sandbox " +:+ Sandbox.ID sb +:+ "...")) ;;
      err <- extErr ctx (ExtSandboxCleanup sb) (fun d => sandboxMgr_Cleanup env d sb) ;;
      match err with
      | Some m => print (Stderr ("warning: failed to cleanup sandbox: " +:+ m))
      | None => ret tt
      end
  | None => ret tt
  end.

(** From the prompt to the processed result: the part of [executeIssue] that
    runs with the agent context registered. *)
Definition agentPhase (ctx : Context) (issue : Issue.t) (sb : option Sandbox.t)
  (workingDir : string) : M S error :=
  let issueID := Issue.ID issue in
  let agentCtx := CtxAgent in
  r <- extVal ctx (ExtGatherContext issueID) (fun d => gatherer_GatherContext env d issue) ;;
  match r with
  | inr m =>
      failExit ctx issueID EventTypeAgentSpawned ("Failed to gather context: " +:+ m)
        [("success", VBool false); ("error", VStr m)]
        ("Failed to gather context: " +:+ m) ("failed to gather context: " +:+ m)
  | inl promptCtx =>
  extPure ExtNewPromptBuilder (NewPromptBuilder env) ;;
  match NewPromptBuilder env with
  | Some m =>
      failExit ctx issueID EventTypeAgentSpawned ("Failed to create prompt builder: " +:+ m)
        [("success", VBool false); ("error", VStr m)]
        ("Failed to create prompt builder: " +:+ m) ("failed to create prompt builder: " +:+ m)
  | None =>
  extPure ExtBuildPrompt (resErr (builder_BuildPrompt env promptCtx)) ;;
  match builder_BuildPrompt env promptCtx with
  | inr m =>
      failExit ctx issueID EventTypeAgentSpawned ("Failed to build prompt: " +:+ m)
        [("success", VBool false); ("error", VStr m)]
        ("Failed to build prompt: " +:+ m) ("failed to build prompt: " +:+ m)
  | inl prompt =>
  (if decide (os_Getenv_VC_DEBUG_PROMPTS env = "") then ret tt
   else print (Stderr (nl +:+ "=== AGENT PROMPT ===" +:+ nl +:+ prompt +:+ nl
                       +:+ "=== END PROMPT ===" +:+ nl))) ;;
  agentID <- newUUID ;;
  let agentCfg := {|
    AgentConfig.Type_ := AgentTypeAmp;
    AgentConfig.WorkingDir := workingDir;
    AgentConfig.Issue := issue;
    AgentConfig.StreamJSON := true;
    AgentConfig.Timeout := 30 * time.Minute;
    AgentConfig.ExecutorID := Executor.instanceID e;
    AgentConfig.AgentID := agentID;
    AgentConfig.Sandbox := sb |} in
  err <- extErr agentCtx (ExtSpawnAgent workingDir agentID)
           (fun d => SpawnAgent env d agentCfg prompt) ;;
  match err with
  | Some m =>
      failExit ctx issueID EventTypeAgentSpawned ("Failed to spawn agent: " +:+ m)
        [("success", VBool false); ("agent_type", VAgentType (AgentConfig.Type_ agentCfg));
         ("error", VStr m)]
        ("Failed to spawn agent: " +:+ m) ("failed to spawn agent: " +:+ m)
  | None =>
  logEvent ctx EventTypeAgentSpawned SeverityInfo issueID
    ("Agent spawned for issue " +:+ issueID)
    (mkData [("success", VBool true); ("agent_type", VAgentType (AgentConfig.Type_ agentCfg))]) ;;
  r <- extVal agentCtx ExtAgentWait (fun d => agent_Wait env d) ;;
  match r with
  | inr m =>
      failExit ctx issueID EventTypeAgentCompleted ("Agent execution failed: " +:+ m)
        [("success", VBool false); ("error", VStr m)]
        ("Agent execution failed: " +:+ m) ("agent execution failed: " +:+ m)
  | inl result =>
  logEvent ctx EventTypeAgentCompleted SeverityInfo issueID
    ("Agent completed execution for issue " +:+ issueID)
    (mkData [("success", VBool true);
             ("exit_code", VInt (AgentResult.ExitCode result));
             ("duration_ms", VInt (time.Milliseconds (AgentResult.Duration result)));
             ("output_lines", VInt (Z.of_nat (length (AgentResult.Output result))))]) ;;
  logEvent ctx EventTypeResultsProcessingStarted SeverityInfo issueID
    ("Starting results processing for issue " +:+ issueID) (mkData []) ;;
  (if Executor.supervisor e then
     extPure ExtNewAIDeduplicator (deduplication_NewAIDeduplicator env) ;;
     match deduplication_NewAIDeduplicator env with
     | Some m =>
         logEvent ctx EventTypeError SeverityWarning issueID
           ("Failed to create deduplicator: " +:+ m +:+ " (continuing without deduplication)")
           (mkData [("error", VStr m)])
     | None => ret tt
     end
   else ret tt) ;;
  extPure (ExtNewResultsProcessor workingDir) (NewResultsProcessor env) ;;
  match NewResultsProcessor env with
  | Some m =>
      failExit ctx issueID EventTypeResultsProcessingCompleted
        ("Results processor creation failed: " +:+ m)
        [("success", VBool false); ("error", VStr m)]
        ("Failed to create results processor: " +:+ m)
        ("failed to create results processor: " +:+ m)
  | None =>
  r <- extVal ctx (ExtProcessAgentResult issueID)
         (fun d => processor_ProcessAgentResult env d issue result) ;;
  match r with
  | inr m =>
      failExit ctx issueID EventTypeResultsProcessingCompleted
        ("Results processing failed: " +:+ m)
        [("success", VBool false); ("error", VStr m)]
        ("Failed to process results: " +:+ m) ("failed to process agent result: " +:+ m)
  | inl procResult =>
  logEvent ctx EventTypeResultsProcessingCompleted SeverityInfo issueID
    ("Results processing completed for issue " +:+ issueID)
    (mkData [("success", VBool true);
             ("completed", VBool (ProcResult.Completed procResult));
             ("gates_passed", VBool (ProcResult.GatesPassed procResult));
             ("discovered_issues", VInt (Z.of_nat (length (ProcResult.DiscoveredIssues procResult))));
             ("commit_hash", VStr (ProcResult.CommitHash procResult))]) ;;
  print (Stdout (ProcResult.Summary procResult)) ;;
  monitor (EndExecution (ProcResult.Completed procResult && AgentResult.Success result)
             (ProcResult.GatesPassed procResult)) ;;
  ret None
  end end end end end end end.

(** Phase 3: the cancellation check, the transition to [executing], the
    registration of the agent context and its two deferred calls. *)
Definition spawnPhase (ctx : Context) (issue : Issue.t) (sb : option Sandbox.t)
  (workingDir : string) : M S error :=
  let issueID := Issue.ID issue in
  cerr <- ctx_Err ctx ;;
  match cerr with
  | Some _ =>
      print (Stderr "Execution canceled before spawning agent") ;;
      cancelExit ctx issueID "Execution canceled before spawning agent"
  | None =>
  err <- storeErr ctx (CallUpdateExecutionState issueID ExecutionStateExecuting)
           (fun d => UpdateExecutionState executions d issueID ExecutionStateExecuting) ;;
  orReturn
    match err with
    | Some m =>
        cerr <- ctx_Err ctx ;;
        match cerr with
        | Some c =>
            r <- cancelExit ctx issueID ("Execution canceled during state transition: " +:+ c) ;;
            ret (Some r)
        | None =>
            print (Stderr ("warning: failed to update execution state: " +:+ m)) ;;
            ret None
        end
    | None => ret None
    end
  (monitor (RecordStateTransition ExecutionStateAssessing ExecutionStateExecuting) ;;
   (if Executor.intervention e
    then extPure (ExtSetAgentContext issueID) None else ret tt) ;;
   r <- agentPhase ctx issue sb workingDir ;;
   (* deferred, last registered first *)
   (if Executor.intervention e then extPure ExtClearAgentContext None else ret tt) ;;
   print (Stdout ("[DEBUG vc-177] agentCancel called for issue " +:+ issueID)) ;;
   extPure ExtAgentCancel None ;;
   ret r)
  end.

(** [executeIssue]. *)
Definition executeIssue (ctx : Context) (issue : Issue.t) : M S error :=
  let issueID := Issue.ID issue in
  print (Stdout ("Executing issue " +:+ issueID +:+ ": " +:+ Issue.Title issue)) ;;
  monitor (StartExecution issueID (Executor.instanceID e)) ;;
  logEvent ctx EventTypeIssueClaimed SeverityInfo issueID
    ("Issue " +:+ issueID +:+ " claimed by executor " +:+ Executor.instanceID e)
    (mkData [("issue_title", VStr (Issue.Title issue))]) ;;
  monitor (RecordEvent EventTypeIssueClaimed) ;;
  orReturn (assessPhase ctx issue)
  (p <- sandboxPhase ctx issue ;;
   let '(sb, workingDir) := p in
   r <- spawnPhase ctx issue sb workingDir ;;
   deferredSandboxCleanup ctx sb ;;
   ret r).

(** [processNextIssue]. *)
Definition processNextIssue (ctx : Context) : M S error :=
  let filter := {| WorkFilter.Status := StatusOpen; WorkFilter.Limit := 1 |} in
  r <- storeVal ctx (CallGetReadyWork filter) (fun d => GetReadyWork readyWork d filter) ;;
  let '(ready, err) := r in
  match err with
  | Some m => ret (Some ("failed to get ready work: " +:+ m))
  | None =>
      match ready with
      | [] => ret None
      | issue :: _ =>
          err <- storeErr ctx (CallClaimIssue (Issue.ID issue) (Executor.instanceID e))
                   (fun d => ClaimIssue executions d (Issue.ID issue) (Executor.instanceID e)) ;;
          match err with
          | Some _ => ret None
          | None => executeIssue ctx issue
          end
      end
  end.

(** Which case a [select] of a loop takes. *)
Inductive Select := OnCtxDone | OnStop | OnTick.

(** One tick of [eventLoop]. *)
Definition eventLoopTick (ctx : Context) : M S unit :=
  err <- storeErr ctx (CallUpdateHeartbeat (Executor.instanceID e))
           (fun d => UpdateHeartbeat instances d (Executor.instanceID e)) ;;
  match err with
  | Some m => print (Stderr ("failed to update heartbeat: " +:+ m))
  | None => ret tt
  end ;;
  err <- processNextIssue ctx ;;
  match err with
  | Some m => print (Stderr ("error processing issue: " +:+ m))
  | None => ret tt
  end ;;
  if Executor.enableHealthMonitoring e && Executor.healthRegistry e then
    err <- extErr ctx ExtCheckHealthMonitors (fun d => checkHealthMonitors env d) ;;
    match err with
    | Some m => print (Stderr ("error running health monitors: " +:+ m))
    | None => ret tt
    end
  else ret tt.

(** [eventLoop], driven by the cases its [select] takes; the result is
    [true] when the loop has returned (closing [doneCh]) and [false] when it
    is back in its [select] at the end of the schedule. *)
Fixpoint eventLoop (ctx : Context) (sched : list Select) : M S bool :=
  match sched with
  | [] => ret false
  | OnCtxDone :: _ | OnStop :: _ => emit (EvClose doneCh) ;; ret true
  | OnTick :: rest => eventLoopTick ctx ;; eventLoop ctx rest
  end.

(** [cleanupOrphanedBranches]. *)
Definition cleanupOrphanedBranches (ctx : Context) : M S error :=
  cd <- (fun w => (ctxDone ctx w, w, [])) ;;
  extPure ExtNewGit (git_NewGit env cd) ;;
  match git_NewGit env cd with
  | Some m => ret (Some ("failed to initialize git: " +:+ m))
  | None =>
      let repoPath :=
        if decide (Config.ParentRepo (Executor.config e) = "") then "."
        else Config.ParentRepo (Executor.config e) in
      let retentionDays := 7 in
      r <- (fun w =>
              let d := ctxDone ctx w in
              let '(r, s) := gitOps_CleanupOrphanedBranches env d repoPath retentionDays (World.store w) in
              (r, step w s, [EvExt (Some ctx) (ExtCleanupOrphanedBranches repoPath retentionDays) (snd r)])) ;;
      let '(deletedCount, err) := r in
      match err with
      | Some m => ret (Some ("failed to cleanup orphaned branches: " +:+ m))
      | None =>
          (if deletedCount >? 0 then
             print (Stdout ("Cleanup: Deleted " +:+ itoa deletedCount
                            +:+ " orphaned mission branch(es) (older than "
                            +:+ itoa retentionDays +:+ " days)"))
           else ret tt) ;;
          ret None
      end
  end.

Definition go (g : Goroutine) (ctx : Context) : M S unit := emit (EvGo g ctx).

(** The instance row [Start] registers. *)
Definition instanceRow (startedAt lastHeartbeat : Z) : ExecutorInstance.t := {|
  ExecutorInstance.InstanceID := Executor.instanceID e;
  ExecutorInstance.Hostname := Executor.hostname e;
  ExecutorInstance.PID := Executor.pid e;
  ExecutorInstance.Status := ExecutorStatusRunning;
  ExecutorInstance.StartedAt := startedAt;
  ExecutorInstance.LastHeartbeat := lastHeartbeat;
  ExecutorInstance.Version := Executor.version e;
  ExecutorInstance.Metadata := "{}" |}.

(** [Start]. Starting a goroutine leaves [EvGo] in the trace; the loop it
    runs is a separate definition. *)
Definition Start (ctx : Context) : M S error :=
  r <- get_running ;;
  if r then ret (Some "executor is already running")
  else
    set_running true ;;
    startedAt <- now ;;
    lastHeartbeat <- now ;;
    let instance := instanceRow startedAt lastHeartbeat in
    err <- storeErr ctx (CallRegisterInstance instance)
             (fun d => RegisterInstance instances d instance) ;;
    match err with
    | Some m =>
        set_running false ;;
        ret (Some ("failed to register executor instance: " +:+ m))
    | None =>
        let staleThresholdSecs := int_of_float64 (time.Seconds (Executor.staleThreshold e)) in
        r <- storeVal ctx (CallCleanupStaleInstances staleThresholdSecs)
               (fun d => CleanupStaleInstances instances d staleThresholdSecs) ;;
        let '(cleaned, err) := r in
        match err with
        | Some m =>
            print (Stderr ("Warning: failed to cleanup stale instances on startup: " +:+ m))
        | None =>
            if cleaned >? 0 then
              print (Stdout ("Cleanup: Cleaned up " +:+ itoa cleaned
                             +:+ " stale/orphaned instance(s) on startup"))
            else ret tt
        end ;;
        (if Executor.enableSandboxes e && negb (Config.KeepBranches (Executor.config e)) then
           err <- cleanupOrphanedBranches ctx ;;
           match err with
           | Some m => print (Stderr ("Warning: failed to cleanup orphaned branches: " +:+ m))
           | None => ret tt
           end
         else ret tt) ;;
        go GoEventLoop ctx ;;
        (if WatchdogConfig.IsEnabled (Executor.watchdogConfig e)
            && Executor.analyzer e && Executor.intervention e then
           go GoWatchdogLoop ctx ;;
           print (Stdout ("Watchdog: Started monitoring (check_interval="
                          +:+ fmt_Duration env (WatchdogConfig.GetCheckInterval (Executor.watchdogConfig e))
                          +:+ ", min_confidence="
                          +:+ fmt_f2 env (WatchdogConfig.MinConfidenceThreshold (Executor.watchdogConfig e))
                          +:+ ", min_severity="
                          +:+ WatchdogConfig.MinSeverityLevel (Executor.watchdogConfig e) +:+ ")"))
         else ret tt) ;;
        go GoCleanupLoop ctx ;;
        print (Stdout ("Cleanup: Started stale instance cleanup (check_interval="
                       +:+ fmt_Duration env (Executor.cleanupInterval e) +:+ ", stale_threshold="
                       +:+ fmt_Duration env (Executor.staleThreshold e) +:+ ")")) ;;
        go GoEventCleanupLoop ctx ;;
        ret None
    end.

(** [IsRunning]. *)
Definition IsRunning : M S bool := get_running.

(** Which case the [select] of [Stop]'s wait loop takes; [OnStopCtxDone err]
    is [<-ctx.Done()], [err] being what [ctx.Err()] then answers. *)
Inductive StopSelect :=
| OnDoneCh | OnWatchdogDoneCh | OnCleanupDoneCh | OnEventCleanupDoneCh
| OnStopCtxDone (err : string).

Inductive WaitResult := WaitAll | WaitCtx (err : string) | WaitBlocked.

(** The wait loop of [Stop]:
    [for !eventDone || !watchdogDone || !cleanupDone || !eventCleanupDone { select ... }].
    [WaitBlocked]: the schedule ended with the loop still in its [select]. *)
Fixpoint stopWait (eventDone watchdogDone cleanupDone eventCleanupDone : bool)
  (sched : list StopSelect) : WaitResult :=
  if negb eventDone || negb watchdogDone || negb cleanupDone || negb eventCleanupDone then
    match sched with
    | [] => WaitBlocked
    | OnDoneCh :: rest => stopWait true watchdogDone cleanupDone eventCleanupDone rest
    | OnWatchdogDoneCh :: rest => stopWait eventDone true cleanupDone eventCleanupDone rest
    | OnCleanupDoneCh :: rest => stopWait eventDone watchdogDone true eventCleanupDone rest
    | OnEventCleanupDoneCh :: rest => stopWait eventDone watchdogDone cleanupDone true rest
    | OnStopCtxDone err :: _ => WaitCtx err
    end
  else WaitAll.

Inductive Outcome (A : Type) := Returned (a : A) | Blocked.
Arguments Returned {A}.
Arguments Blocked {A}.

(** [Stop], called on an executor whose stop channels are open. Closing a
    channel that is already closed panics in Go; the world keeps no record
    of the channels closed, so a [Stop] that follows one cut short by its
    context is outside the model. *)
Definition Stop (ctx : Context) (sched : list StopSelect) : M S (Outcome error) :=
  r <- get_running ;;
  if negb r then ret (Returned (Some "executor is not running"))
  else
    emit (EvClose stopCh) ;;
    (if WatchdogConfig.IsEnabled (Executor.watchdogConfig e) && Executor.analyzer e
     then emit (EvClose watchdogStopCh) else ret tt) ;;
    emit (EvClose cleanupStopCh) ;;
    emit (EvClose eventCleanupStopCh) ;;
    let eventDone := false in
    let watchdogDone :=
      negb (WatchdogConfig.IsEnabled (Executor.watchdogConfig e)) || negb (Executor.analyzer e) in
    let cleanupDone := false in
    let eventCleanupDone := false in
    match stopWait eventDone watchdogDone cleanupDone eventCleanupDone sched with
    | WaitBlocked => ret Blocked
    | WaitCtx err => ret (Returned (Some err))
    | WaitAll =>
        err <- storeErr ctx (CallMarkInstanceStopped (Executor.instanceID e))
                 (fun d => MarkInstanceStopped instances d (Executor.instanceID e)) ;;
        match err with
        | Some m => print (Stderr ("warning: failed to mark instance as stopped: " +:+ m))
        | None => ret tt
        end ;;
        let olderThanSeconds := int_of_float64 (time.Seconds (Executor.instanceCleanupAge e)) in
        r <- storeVal ctx (CallDeleteOldStoppedInstances olderThanSeconds (Executor.instanceCleanupKeep e))
               (fun d => DeleteOldStoppedInstances instances d olderThanSeconds
                           (Executor.instanceCleanupKeep e)) ;;
        let '(deleted, err) := r in
        match err with
        | Some m => print (Stderr ("warning: failed to cleanup old executor instances: " +:+ m))
        | None =>
            if deleted >? 0 then
              print (Stdout ("Cleanup: Deleted " +:+ itoa deleted
                             +:+ " old stopped executor instance(s)"))
            else ret tt
        end ;;
        set_running false ;;
        ret (Returned None)
    end.

(** The body of the goroutine [cleanupLoop] starts on each tick; its result
    is what it sends on the [done] channel. *)
Definition cleanupWork (ctx : Context) : M S error :=
  let staleThresholdSecs := int_of_float64 (time.Seconds (Executor.staleThreshold e)) in
  r <- storeVal ctx (CallCleanupStaleInstances staleThresholdSecs)
         (fun d => CleanupStaleInstances instances d staleThresholdSecs) ;;
  let '(cleaned, err) := r in
  match err with
  | Some m => ret (Some m)
  | None =>
      (if cleaned >? 0 then
         print (Stdout ("Cleanup: Marked " +:+ itoa cleaned
                        +:+ " stale instance(s) as stopped and released their claims"))
       else ret tt) ;;
      (if Executor.sandboxMgr e && (Config.SandboxRetentionCount (Executor.config e) >? 0) then
         err <- extErr ctx (ExtCleanupStaleFailedSandboxes (Config.SandboxRetentionCount (Executor.config e)))
                  (fun d => sandboxMgr_CleanupStaleFailedSandboxes env d
                              (Config.SandboxRetentionCount (Executor.config e))) ;;
         match err with
         | Some m => print (Stderr ("warning: failed to cleanup stale sandboxes: " +:+ m))
         | None => ret tt
         end
       else ret tt) ;;
      let olderThanSeconds := int_of_float64 (time.Seconds (Executor.instanceCleanupAge e)) in
      r <- storeVal ctx (CallDeleteOldStoppedInstances olderThanSeconds (Executor.instanceCleanupKeep e))
             (fun d => DeleteOldStoppedInstances instances d olderThanSeconds
                         (Executor.instanceCleanupKeep e)) ;;
      let '(deletedInstances, err) := r in
      match err with
      | Some m => print (Stderr ("warning: failed to cleanup old executor instances: " +:+ m))
      | None =>
          if deletedInstances >? 0 then
            print (Stdout ("Cleanup: Deleted " +:+ itoa deletedInstances
                           +:+ " old stopped executor instance(s) (older than "
                           +:+ fmt_Duration env (Executor.instanceCleanupAge e) +:+ ", keeping "
                           +:+ itoa (Executor.instanceCleanupKeep e) +:+ " most recent)"))
          else ret tt
      end ;;
      ret None
  end.

(** A case of [cleanupLoop]'s outer [select]. On a tick, [stopReady] says
    whether the non-blocking [select] finds [cleanupStopCh] closed, and
    [stopFirst] whether the second [select] takes the stop case before the
    goroutine's answer (the goroutine then finishes in the background; its
    calls are placed before the loop's return). *)
Inductive CleanupSelect :=
| COnCtxDone | COnStop | COnTick (stopReady stopFirst : bool).

(** [cleanupLoop]. *)
Fixpoint cleanupLoop (ctx : Context) (sched : list CleanupSelect) : M S bool :=
  match sched with
  | [] => ret false
  | COnCtxDone :: _ | COnStop :: _ => emit (EvClose cleanupDoneCh) ;; ret true
  | COnTick stopReady stopFirst :: rest =>
      if stopReady then emit (EvClose cleanupDoneCh) ;; ret true
      else
        err <- cleanupWork ctx ;;
        if stopFirst then emit (EvClose cleanupDoneCh) ;; ret true
        else
          match err with
          | Some m => print (Stderr ("cleanup: error cleaning up stale instances: " +:+ m))
          | None => ret tt
          end ;;
          cleanupLoop ctx rest
  end.

(** [logCleanupEvent]. *)
Definition logCleanupEvent (ctx : Context)
  (totalDeleted timeBasedDeleted perIssueDeleted globalLimitDeleted : Z)
  (processingTimeMs : Z) (vacuumRan : bool) (eventsRemaining : Z) (success : bool)
  (errorMsg : string) : M S unit :=
  cerr <- ctx_Err ctx ;;
  match cerr with
  | Some _ => ret tt
  | None =>
      let data0 :=
        summaryData totalDeleted timeBasedDeleted perIssueDeleted globalLimitDeleted
          processingTimeMs vacuumRan eventsRemaining success in
      let data :=
        if decide (errorMsg = "") then data0 else <[ "error" := VStr errorMsg ]> data0 in
      let message :=
        if success then
          "Event cleanup completed: deleted " +:+ itoa totalDeleted +:+ " events in "
          +:+ itoa processingTimeMs +:+ "ms"
        else "Event cleanup failed: " +:+ errorMsg in
      id <- newUUID ;;
      ts <- now ;;
      let event := {|
        AgentEvent.ID := id;
        AgentEvent.Type_ := EventTypeEventCleanupCompleted;
        AgentEvent.Timestamp := ts;
        AgentEvent.IssueID := "SYSTEM";
        AgentEvent.ExecutorID := Executor.instanceID e;
        AgentEvent.AgentID := "";
        AgentEvent.Severity := if success then SeverityInfo else SeverityError;
        AgentEvent.Message := message;
        AgentEvent.Data := Some data;
        AgentEvent.SourceLine := 0 |} in
      err <- storeErr ctx (CallStoreAgentEvent event)
               (fun d => StoreAgentEvent agentEvents d event) ;;
      match err with
      | Some m => print (Stderr ("warning: failed to store cleanup event: " +:+ m))
      | None => ret tt
      end
  end.

(** [int(float64(cfg.GlobalLimitEvents) * 0.95)]; the literal is the
    binary64 value closest to 0.95. *)
Definition triggerThresholdOf (globalLimitEvents : Z) : Z :=
  int_of_float64 (float64_of_int globalLimitEvents * 0x1.e666666666666p-1)%float.

(** [time.Since(startTime).Milliseconds()]. *)
Definition sinceMs (startTime : Z) : M S Z :=
  t <- now ;; ret (time.Milliseconds (t - startTime)).

(** [runEventCleanup]. *)
Definition runEventCleanup (ctx : Context) (cfg : EventRetentionConfig.t) : M S error :=
  startTime <- now ;;
  r <- storeVal ctx
         (CallCleanupEventsByAge (EventRetentionConfig.RetentionDays cfg)
            (EventRetentionConfig.RetentionCriticalDays cfg)
            (EventRetentionConfig.CleanupBatchSize cfg))
         (fun d => CleanupEventsByAge eventCleanup d (EventRetentionConfig.RetentionDays cfg)
                     (EventRetentionConfig.RetentionCriticalDays cfg)
                     (EventRetentionConfig.CleanupBatchSize cfg)) ;;
  let '(deleted, err) := r in
  match err with
  | Some m =>
      let cleanupErr := "time-based cleanup failed: " +:+ m in
      ms <- sinceMs startTime ;;
      logCleanupEvent ctx 0 0 0 0 ms false 0 false cleanupErr ;;
      ret (Some cleanupErr)
  | None =>
  let timeBasedDeleted := deleted in
  r <- storeVal ctx
         (CallCleanupEventsByIssueLimit (EventRetentionConfig.PerIssueLimitEvents cfg)
            (EventRetentionConfig.CleanupBatchSize cfg))
         (fun d => CleanupEventsByIssueLimit eventCleanup d
                     (EventRetentionConfig.PerIssueLimitEvents cfg)
                     (EventRetentionConfig.CleanupBatchSize cfg)) ;;
  let '(deleted, err) := r in
  match err with
  | Some m =>
      let cleanupErr := "per-issue limit cleanup failed: " +:+ m in
      ms <- sinceMs startTime ;;
      logCleanupEvent ctx timeBasedDeleted timeBasedDeleted 0 0 ms false 0 false cleanupErr ;;
      ret (Some cleanupErr)
  | None =>
  let perIssueDeleted := deleted in
  let triggerThreshold := triggerThresholdOf (EventRetentionConfig.GlobalLimitEvents cfg) in
  r <- storeVal ctx
         (CallCleanupEventsByGlobalLimit triggerThreshold (EventRetentionConfig.CleanupBatchSize cfg))
         (fun d => CleanupEventsByGlobalLimit eventCleanup d triggerThreshold
                     (EventRetentionConfig.CleanupBatchSize cfg)) ;;
  let '(deleted, err) := r in
  match err with
  | Some m =>
      let cleanupErr := "global limit cleanup failed: " +:+ m in
      ms <- sinceMs startTime ;;
      logCleanupEvent ctx (add64 timeBasedDeleted perIssueDeleted) timeBasedDeleted
        perIssueDeleted 0 ms false 0 false cleanupErr ;;
      ret (Some cleanupErr)
  | None =>
  let globalLimitDeleted := deleted in
  let totalDeleted := add64 (add64 timeBasedDeleted perIssueDeleted) globalLimitDeleted in
  vacuumRan <-
    (if EventRetentionConfig.CleanupVacuum cfg && (totalDeleted >? 0) then
       err <- storeErr ctx CallVacuumDatabase (fun d => VacuumDatabase eventCleanup d) ;;
       match err with
       | Some m => print (Stderr ("event cleanup: warning: VACUUM failed: " +:+ m)) ;; ret false
       | None => ret true
       end
     else ret false) ;;
  r <- storeVal ctx CallGetEventCounts (fun d => GetEventCounts eventCleanup d) ;;
  let '(counts, err) := r in
  eventsRemaining <-
    match err with
    | Some m =>
        print (Stderr ("event cleanup: warning: failed to get event counts: " +:+ m)) ;; ret 0
    | None =>
        match counts with
        | Some c => ret (EventCounts.TotalEvents c)
        | None => ret 0
        end
    end ;;
  processingTimeMs <- sinceMs startTime ;;
  logCleanupEvent ctx totalDeleted timeBasedDeleted perIssueDeleted globalLimitDeleted
    processingTimeMs vacuumRan eventsRemaining true "" ;;
  (if (totalDeleted >? 0) || vacuumRan then
     print (Stdout ("Event cleanup: Deleted " +:+ itoa totalDeleted +:+ " events (time_based="
                    +:+ itoa timeBasedDeleted +:+ ", per_issue=" +:+ itoa perIssueDeleted
                    +:+ ", global_limit=" +:+ itoa globalLimitDeleted +:+ ") in "
                    +:+ itoa processingTimeMs +:+ "ms")) ;;
     (if vacuumRan then print (Stdout " [VACUUM ran]") else ret tt) ;;
     print (Stdout (" (remaining=" +:+ itoa eventsRemaining +:+ ")"))
   else ret tt) ;;
  ret None
  end end end.

(** A case of [eventCleanupLoop]'s [select]; on a tick, [stopReady] says
    whether the non-blocking [select] finds [eventCleanupStopCh] closed. *)
Inductive EventCleanupSelect := EOnCtxDone | EOnStop | EOnTick (stopReady : bool).

Fixpoint eventCleanupTicks (ctx : Context) (retentionCfg : EventRetentionConfig.t)
  (sched : list EventCleanupSelect) : M S bool :=
  match sched with
  | [] => ret false
  | EOnCtxDone :: _ | EOnStop :: _ => emit (EvClose eventCleanupDoneCh) ;; ret true
  | EOnTick stopReady :: rest =>
      if stopReady then emit (EvClose eventCleanupDoneCh) ;; ret true
      else
        err <- runEventCleanup ctx retentionCfg ;;
        match err with
        | Some m => print (Stderr ("event cleanup: error during cleanup: " +:+ m))
        | None => ret tt
        end ;;
        eventCleanupTicks ctx retentionCfg rest
  end.

(** [eventCleanupLoop]. *)
Definition eventCleanupLoop (ctx : Context) (sched : list EventCleanupSelect) : M S bool :=
  let retentionCfg :=
    match Config.EventRetentionConfig (Executor.config e) with
    | Some c => c
    | None => config_DefaultEventRetentionConfig env
    end in
  extPure ExtValidateRetention (retentionCfg_Validate env retentionCfg) ;;
  match retentionCfg_Validate env retentionCfg with
  | Some m =>
      print (Stderr ("Event cleanup: Invalid configuration: " +:+ m +:+ " (cleanup disabled)")) ;;
      emit (EvClose eventCleanupDoneCh) ;; ret true
  | None =>
      if negb (EventRetentionConfig.CleanupEnabled retentionCfg) then
        print (Stdout "Event cleanup: Disabled via configuration") ;;
        emit (EvClose eventCleanupDoneCh) ;; ret true
      else
        let cleanupInterval :=
          wrap64 (EventRetentionConfig.CleanupIntervalHours retentionCfg * time.Hour) in
        print (Stdout ("Event cleanup: Started (interval=" +:+ fmt_Duration env cleanupInterval
                       +:+ ", retention=" +:+ itoa (EventRetentionConfig.RetentionDays retentionCfg)
                       +:+ "d, per_issue_limit="
                       +:+ itoa (EventRetentionConfig.PerIssueLimitEvents retentionCfg)
                       +:+ ", global_limit="
                       +:+ itoa (EventRetentionConfig.GlobalLimitEvents retentionCfg) +:+ ")")) ;;
        err <- runEventCleanup ctx retentionCfg ;;
        match err with
        | Some m => print (Stderr ("event cleanup: initial cleanup failed: " +:+ m))
        | None => ret tt
        end ;;
        eventCleanupTicks ctx retentionCfg sched
  end.

End Runtime.

Arguments Returned {A}.
Arguments Blocked {A}.

(** ** The database behind the store ([internal/storage/beads])

    The tables of [vcExtensionSchema] that the properties below read, next to
    the [issues] table of the core schema they reference. *)

(** The [data] column: the empty string a nil [Data] map is stored as, or the
    JSON text of the map, kept as the map it denotes. *)
Inductive JSONText := EmptyText | JSONOf (m : gmap string Value).

Module AgentEventRow.
Record t := {
  timestamp : Z; issue_id : option string; executor_id : option string;
  agent_id : option string; type_ : EventType; severity : EventSeverity;
  message : string; data : JSONText; source_line : Z }.
End AgentEventRow.

Module ExecutionStateRow.
Record t := { executor_instance_id : option string; state : ExecutionState }.
End ExecutionStateRow.

Module HistoryRow.
Record t := { issue_id : string; attempt : ExecutionAttempt.t; summary : string }.
End HistoryRow.

Module CommentRow.
Record t := { issue_id : string; actor : string; comment : string }.
End CommentRow.

Module DB.
Record t := {
  issues : gmap string Status;
  vc_agent_events : list AgentEventRow.t;
  vc_issue_execution_state : gmap string ExecutionStateRow.t;
  vc_execution_history : list HistoryRow.t;
  comments : list CommentRow.t }.

Definition empty : t := {|
  issues := ∅; vc_agent_events := []; vc_issue_execution_state := ∅;
  vc_execution_history := []; comments := [] |}.
End DB.

(** [json.Marshal] rejects a float that is NaN or infinite; every other value
    the executor builds is marshalled. *)
Definition marshalable (v : Value) : bool :=
  match v with
  | VFloat f => negb (PrimFloat.is_nan f || PrimFloat.is_infinity f)
  | _ => true
  end.

(** The text of the value [json.Marshal] rejects, as
    [strconv.FormatFloat(f, 'g', -1, 64)] writes it. *)
Definition unsupportedText (v : Value) : option string :=
  match v with
  | VFloat f =>
      if PrimFloat.is_nan f then Some "NaN"
      else if PrimFloat.is_infinity f then Some (if (f <? 0)%float then "-Inf" else "+Inf")
      else None
  | _ => None
  end.

(** The entries of a map in the order [json.Marshal] writes them: by their
    keys, compared as byte strings. *)
Definition keyLe (a b : string * Value) : Prop := String.leb (fst a) (fst b) = true.

Global Instance keyLe_dec a b : Decision (keyLe a b).
Proof. unfold keyLe. apply _. Defined.

Definition entriesInOrder (m : gmap string Value) : list (string * Value) :=
  merge_sort keyLe (map_to_list m).

(** [json.Marshal] of a [map[string]interface{}]: the error names the first
    value, in the order of the keys, that cannot be written. *)
Definition json_Marshal (m : gmap string Value) : JSONText + string :=
  match omap (fun kv => unsupportedText (snd kv)) (entriesInOrder m) with
  | text :: _ => inr ("json: unsupported value: " +:+ text)
  | [] => inl (JSONOf m)
  end.

(** [FOREIGN KEY (issue_id) REFERENCES issues(id)] of [vc_agent_events]: a
    NULL [issue_id] refers to nothing, any other must be the id of an issue. *)
Definition fk_issue_ok (issues : gmap string Status) (issue_id : option string) : bool :=
  match issue_id with
  | None => true
  | Some id => bool_decide (is_Some (issues !! id))
  end.

(** [interface{}] holding [nil] for the empty string, the string otherwise. *)
Definition nullIfEmpty (s : string) : option string :=
  if decide (s = "") then None else Some s.

(** The [INSERT INTO vc_agent_events] through [ExecContext]: refused when the
    context is already cancelled or the foreign key is violated. *)
Definition insertAgentEvent (cancelled : bool) (row : AgentEventRow.t) (db : DB.t)
  : error * DB.t :=
  if cancelled then (Some context_Canceled, db)
  else if fk_issue_ok (DB.issues db) (AgentEventRow.issue_id row) then
    (None, {| DB.issues := DB.issues db;
              DB.vc_agent_events := DB.vc_agent_events db ++ [row];
              DB.vc_issue_execution_state := DB.vc_issue_execution_state db;
              DB.vc_execution_history := DB.vc_execution_history db;
              DB.comments := DB.comments db |})
  else (Some "FOREIGN KEY constraint failed", db).

(** The row [StoreAgentEvent] hands to the [INSERT]. *)
Definition agentEventRow (event : AgentEvent.t) (dataJSON : JSONText) : AgentEventRow.t := {|
  AgentEventRow.timestamp := AgentEvent.Timestamp event;
  AgentEventRow.issue_id := nullIfEmpty (AgentEvent.IssueID event);
  AgentEventRow.executor_id := nullIfEmpty (AgentEvent.ExecutorID event);
  AgentEventRow.agent_id := nullIfEmpty (AgentEvent.AgentID event);
  AgentEventRow.type_ := AgentEvent.Type_ event;
  AgentEventRow.severity := AgentEvent.Severity event;
  AgentEventRow.message := AgentEvent.Message event;
  AgentEventRow.data := dataJSON;
  AgentEventRow.source_line := AgentEvent.SourceLine event |}.

(** [StoreAgentEvent] of [VCStorage]. *)
Definition VCStorage_StoreAgentEvent (cancelled : bool) (event : AgentEvent.t) (db : DB.t)
  : error * DB.t :=
  let marshalled :=
    match AgentEvent.Data event with
    | Some m => json_Marshal m
    | None => inl EmptyText
    end in
  match marshalled with
  | inr m => (Some ("failed to marshal event data: " +:+ m), db)
  | inl dataJSON =>
      let '(err, db') := insertAgentEvent cancelled (agentEventRow event dataJSON) db in
      match err with
      | Some m => (Some ("failed to store agent event: " +:+ m), db')
      | None => (None, db')
      end
  end.

Definition setIssues (issues : gmap string Status) (db : DB.t) : DB.t :=
  {| DB.issues := issues; DB.vc_agent_events := DB.vc_agent_events db;
     DB.vc_issue_execution_state := DB.vc_issue_execution_state db;
     DB.vc_execution_history := DB.vc_execution_history db;
     DB.comments := DB.comments db |}.

Definition setExecutionState (st : gmap string ExecutionStateRow.t) (db : DB.t) : DB.t :=
  {| DB.issues := DB.issues db; DB.vc_agent_events := DB.vc_agent_events db;
     DB.vc_issue_execution_state := st;
     DB.vc_execution_history := DB.vc_execution_history db;
     DB.comments := DB.comments db |}.

Definition addHistory (row : HistoryRow.t) (db : DB.t) : DB.t :=
  {| DB.issues := DB.issues db; DB.vc_agent_events := DB.vc_agent_events db;
     DB.vc_issue_execution_state := DB.vc_issue_execution_state db;
     DB.vc_execution_history := DB.vc_execution_history db ++ [row];
     DB.comments := DB.comments db |}.

Definition addComment (row : CommentRow.t) (db : DB.t) : DB.t :=
  {| DB.issues := DB.issues db; DB.vc_agent_events := DB.vc_agent_events db;
     DB.vc_issue_execution_state := DB.vc_issue_execution_state db;
     DB.vc_execution_history := DB.vc_execution_history db;
     DB.comments := DB.comments db ++ [row] |}.

(** Whether some instance holds the claim on an issue. *)
Definition holder (db : DB.t) (issueID : string) : option string :=
  match DB.vc_issue_execution_state db !! issueID with
  | Some row => ExecutionStateRow.executor_instance_id row
  | None => None
  end.

(** Modelled from the spec: the claim operation of the store, whose code is
    not in the sources at hand. "A single store operation must atomically
    (a) verify the issue is open and unclaimed, (b) insert/update the
    execution-state row to (state=claimed, executor_instance_id=self), and
    (c) flip issue status to in_progress", reporting "not claimed" otherwise.
    Like every operation below, and like the [ExecContext] of
    [StoreAgentEvent], it is refused with nothing written when its context is
    already cancelled: "cleanup uses a detached token so that release-the-claim
    writes always reach the store even though the ambient operation was
    cancelled". *)
Definition DB_ClaimIssue (cancelled : bool) (issueID executorInstanceID : string) (db : DB.t)
  : error * DB.t :=
  if cancelled then (Some context_Canceled, db)
  else
    match DB.issues db !! issueID, holder db issueID with
    | Some StatusOpen, None =>
        (None,
         setIssues (<[ issueID := StatusInProgress ]> (DB.issues db))
           (setExecutionState
              (<[ issueID := {| ExecutionStateRow.executor_instance_id := Some executorInstanceID;
                                ExecutionStateRow.state := ExecutionStateClaimed |} ]>
                 (DB.vc_issue_execution_state db)) db))
    | _, _ => (Some "not claimed", db)
    end.

(** Modelled from the spec: "update-state" of the execution-state row. *)
Definition DB_UpdateExecutionState (cancelled : bool) (issueID : string) (st : ExecutionState)
  (db : DB.t) : error * DB.t :=
  if cancelled then (Some context_Canceled, db)
  else
    match DB.vc_issue_execution_state db !! issueID with
    | Some row =>
        (None,
         setExecutionState
           (<[ issueID := {| ExecutionStateRow.executor_instance_id :=
                               ExecutionStateRow.executor_instance_id row;
                             ExecutionStateRow.state := st |} ]>
              (DB.vc_issue_execution_state db)) db)
    | None => (Some "no execution state", db)
    end.

Definition clearClaim (issueID : string) (db : DB.t) : DB.t :=
  match DB.vc_issue_execution_state db !! issueID with
  | Some row =>
      setExecutionState
        (<[ issueID := {| ExecutionStateRow.executor_instance_id := None;
                          ExecutionStateRow.state := ExecutionStateRow.state row |} ]>
           (DB.vc_issue_execution_state db)) db
  | None => db
  end.

(** Modelled from the spec: "release" clears the claim
    (executor_instance_id = NULL). *)
Definition DB_ReleaseIssue (cancelled : bool) (issueID : string) (db : DB.t) : error * DB.t :=
  if cancelled then (Some context_Canceled, db) else (None, clearClaim issueID db).

(** Modelled from the spec: "release-and-reopen (atomic: clear claim + set
    status open + append failure attempt with error text)". *)
Definition DB_ReleaseIssueAndReopen (cancelled : bool) (issueID actor errorComment : string)
  (db : DB.t) : error * DB.t :=
  if cancelled then (Some context_Canceled, db)
  else
    (None,
     addHistory {| HistoryRow.issue_id := issueID;
                   HistoryRow.attempt := {| ExecutionAttempt.Success := Some false |};
                   HistoryRow.summary := errorComment |}
       (setIssues (<[ issueID := StatusOpen ]> (DB.issues db)) (clearClaim issueID db))).

(** Modelled from the spec: "Execution history: get", the attempts of the
    issue in the order they were appended. *)
Definition DB_GetExecutionHistory (cancelled : bool) (issueID : string) (db : DB.t)
  : (list ExecutionAttempt.t * error) * DB.t :=
  if cancelled then (([], Some context_Canceled), db)
  else
    ((map HistoryRow.attempt
        (filter (fun row => HistoryRow.issue_id row = issueID) (DB.vc_execution_history db)),
      None), db).

(** Modelled from the spec: "update (by fields)" of an issue; the one field
    the executor writes is [status]. *)
Definition DB_UpdateIssue (cancelled : bool) (id : string) (updates : gmap string Value)
  (actor : string) (db : DB.t) : error * DB.t :=
  if cancelled then (Some context_Canceled, db)
  else
    match DB.issues db !! id with
    | None => (Some "issue not found", db)
    | Some _ =>
        match updates !! "status" with
        | Some (VStatus st) => (None, setIssues (<[ id := st ]> (DB.issues db)) db)
        | _ => (None, db)
        end
    end.

(** Modelled from the spec: "add-comment". *)
Definition DB_AddComment (cancelled : bool) (issueID actor comment : string) (db : DB.t)
  : error * DB.t :=
  if cancelled then (Some context_Canceled, db)
  else
    (None, addComment {| CommentRow.issue_id := issueID; CommentRow.actor := actor;
                         CommentRow.comment := comment |} db).

Definition dbAgentEvents : AgentEventStore DB.t :=
  {| StoreAgentEvent := VCStorage_StoreAgentEvent |}.

Definition dbIssues : IssueStore DB.t :=
  {| UpdateIssue := DB_UpdateIssue; AddComment := DB_AddComment |}.

Definition dbExecutions : ExecutionStore DB.t := {|
  ClaimIssue := DB_ClaimIssue;
  UpdateExecutionState := DB_UpdateExecutionState;
  ReleaseIssue := DB_ReleaseIssue;
  ReleaseIssueAndReopen := DB_ReleaseIssueAndReopen;
  GetExecutionHistory := DB_GetExecutionHistory |}.


(** ** Test doubles

    Stores that answer every call with a fixed value and leave the state
    alone, and collaborators that all succeed, in the manner of the
    [mockStorage] implementations the interface's comment lists. *)

Definition fixedInstances {S} (register : error) (cleaned deleted : Z * error) : InstanceStore S := {|
  RegisterInstance := fun _ _ s => (register, s);
  MarkInstanceStopped := fun _ _ s => (None, s);
  UpdateHeartbeat := fun _ _ s => (None, s);
  CleanupStaleInstances := fun _ _ s => (cleaned, s);
  DeleteOldStoppedInstances := fun _ _ _ s => (deleted, s) |}.

(** Every call is refused once the context is cancelled. *)
Definition fixedEventCleanup {S} (byAge byIssue byGlobal : Z) (remaining : Z)
  : EventCleanupStore S := {|
  CleanupEventsByAge := fun d _ _ _ s => ((if d then 0 else byAge, if d then Some context_Canceled else None), s);
  CleanupEventsByIssueLimit := fun d _ _ s => ((if d then 0 else byIssue, if d then Some context_Canceled else None), s);
  CleanupEventsByGlobalLimit := fun d _ _ s => ((if d then 0 else byGlobal, if d then Some context_Canceled else None), s);
  GetEventCounts := fun d s =>
    ((if d then None else Some {| EventCounts.TotalEvents := remaining |},
      if d then Some context_Canceled else None), s);
  VacuumDatabase := fun d s => (if d then Some context_Canceled else None, s) |}.

Definition fixedAgentEvents {S} : AgentEventStore S :=
  {| StoreAgentEvent := fun _ _ s => (None, s) |}.

Definition fixedIssues {S} : IssueStore S :=
  {| UpdateIssue := fun _ _ _ _ s => (None, s); AddComment := fun _ _ _ _ s => (None, s) |}.

Definition fixedReadyWork {S} (ready : list Issue.t) : ReadyWorkStore S :=
  {| GetReadyWork := fun _ _ s => ((ready, None), s) |}.

Definition fixedExecutions {S} (claim : error) : ExecutionStore S := {|
  ClaimIssue := fun _ _ _ s => (claim, s);
  UpdateExecutionState := fun _ _ _ s => (None, s);
  ReleaseIssue := fun _ _ s => (None, s);
  ReleaseIssueAndReopen := fun _ _ _ _ s => (None, s);
  GetExecutionHistory := fun _ _ s => (([], None), s) |}.

Definition someResult : AgentResult.t := {|
  AgentResult.Success := true; AgentResult.ExitCode := 0;
  AgentResult.Duration := 2 * time.Second; AgentResult.Output := ["done"] |}.

Definition someProcResult : ProcResult.t := {|
  ProcResult.Completed := true; ProcResult.GatesPassed := true;
  ProcResult.DiscoveredIssues := []; ProcResult.CommitHash := "abc123";
  ProcResult.Summary := "ok" |}.

Definition someRetention : EventRetentionConfig.t := {|
  EventRetentionConfig.RetentionDays := 30;
  EventRetentionConfig.RetentionCriticalDays := 180;
  EventRetentionConfig.PerIssueLimitEvents := 1000;
  EventRetentionConfig.GlobalLimitEvents := 50000;
  EventRetentionConfig.CleanupIntervalHours := 24;
  EventRetentionConfig.CleanupBatchSize := 1000;
  EventRetentionConfig.CleanupEnabled := true;
  EventRetentionConfig.CleanupVacuum := true |}.

(** Collaborators that succeed, except that the agent's [Wait] answers
    [wait]. *)
Definition calmEnv {S} (wait : AgentResult.t + string) : Collaborators S := {|
  time_Now := fun n => 1000000 * Z.of_nat n;
  uuid_New := fun n => "uuid-" +:+ itoa (Z.of_nat n);
  os_Getenv_VC_DEBUG_PROMPTS := "";
  fmt_f0 := fun _ => "0";
  fmt_f2 := fun _ => "0.00";
  fmt_Duration := fun d => itoa d +:+ "ns";
  supervisor_AssessIssueState := fun _ _ s => (inr "no oracle", s);
  sandboxMgr_Create := fun _ _ s => (inr "no sandbox", s);
  sandboxMgr_Cleanup := fun _ _ s => (None, s);
  sandboxMgr_CleanupStaleFailedSandboxes := fun _ _ s => (None, s);
  gatherer_GatherContext := fun _ _ s => (inl "context", s);
  NewPromptBuilder := None;
  builder_BuildPrompt := fun c => inl ("prompt: " +:+ c);
  SpawnAgent := fun _ _ _ s => (None, s);
  agent_Wait := fun _ s => (wait, s);
  deduplication_NewAIDeduplicator := None;
  NewResultsProcessor := None;
  processor_ProcessAgentResult := fun _ _ _ s => (inl someProcResult, s);
  git_NewGit := fun _ => None;
  gitOps_CleanupOrphanedBranches := fun _ _ _ s => ((0, None), s);
  checkHealthMonitors := fun _ s => (None, s);
  config_DefaultEventRetentionConfig := someRetention;
  retentionCfg_Validate := fun _ => None |}.

Definition someNewEnv : NewEnv.t := {|
  NewEnv.os_Hostname := ("host-1", None);
  NewEnv.os_Getpid := 4242;
  NewEnv.uuid_New := "exec-1";
  NewEnv.ai_NewSupervisor := Some "ANTHROPIC_API_KEY not set";
  NewEnv.deduplication_NewAIDeduplicator := None;
  NewEnv.sandbox_NewManager := Some "not a git repository";
  NewEnv.watchdog_DefaultWatchdogConfig := {|
    WatchdogConfig.Enabled := true; WatchdogConfig.CheckInterval := 30 * time.Second;
    WatchdogConfig.MaxHistorySize := 100;
    WatchdogConfig.MinConfidenceThreshold := 0x1.3333333333333p-1;
    WatchdogConfig.MinSeverityLevel := "high";
    WatchdogConfig.EnableAnomalyLogging := true |};
  NewEnv.watchdog_NewAnalyzer := None;
  NewEnv.watchdog_NewInterventionController := None;
  NewEnv.health_NewMonitorRegistry := None;
  NewEnv.getProjectRootFromStore := None;
  NewEnv.health_NewFileSizeMonitor := None;
  NewEnv.registry_Register_fileSize := None;
  NewEnv.health_NewCruftDetector := None;
  NewEnv.registry_Register_cruft := None |}.

(** [DefaultConfig] with a store, and the same with [InstanceCleanupKeep]
    set to 0. *)
Definition withStore (keep : Z) : Config.t := {|
  Config.Store := Some TheStore;
  Config.Version := Config.Version DefaultConfig;
  Config.PollInterval := Config.PollInterval DefaultConfig;
  Config.HeartbeatPeriod := Config.HeartbeatPeriod DefaultConfig;
  Config.CleanupInterval := Config.CleanupInterval DefaultConfig;
  Config.StaleThreshold := Config.StaleThreshold DefaultConfig;
  Config.InstanceCleanupAge := Config.InstanceCleanupAge DefaultConfig;
  Config.InstanceCleanupKeep := keep;
  Config.EnableAISupervision := true;
  Config.EnableQualityGates := true;
  Config.EnableSandboxes := true;
  Config.KeepSandboxOnFailure := false;
  Config.KeepBranches := false;
  Config.SandboxRetentionCount := 3;
  Config.EnableHealthMonitoring := false;
  Config.HealthConfigPath := Config.HealthConfigPath DefaultConfig;
  Config.HealthStatePath := Config.HealthStatePath DefaultConfig;
  Config.WorkingDir := ".";
  Config.SandboxRoot := ".sandboxes";
  Config.ParentRepo := ".";
  Config.DefaultBranch := "main";
  Config.WatchdogConfig := None;
  Config.DeduplicationConfigSet := false;
  Config.EventRetentionConfig := None |}.

(** The executor [New] builds from [withStore keep] in [someNewEnv]: no
    oracle, no sandboxes, hence no analyzer and no watchdog loop. *)
Definition someExecutor (keep : Z) : Executor.t := {|
  Executor.supervisor := false;
  Executor.analyzer := false;
  Executor.intervention := true;
  Executor.watchdogConfig := NewEnv.watchdog_DefaultWatchdogConfig someNewEnv;
  Executor.sandboxMgr := false;
  Executor.healthRegistry := false;
  Executor.config := withStore keep;
  Executor.instanceID := "exec-1";
  Executor.hostname := "host-1";
  Executor.pid := 4242;
  Executor.version := "0.1.0";
  Executor.pollInterval := 5 * time.Second;
  Executor.cleanupInterval := 5 * time.Minute;
  Executor.staleThreshold := 5 * time.Minute;
  Executor.instanceCleanupAge := 24 * time.Hour;
  Executor.instanceCleanupKeep := if keep =? 0 then 10 else keep;
  Executor.enableAISupervision := false;
  Executor.enableQualityGates := true;
  Executor.enableSandboxes := false;
  Executor.enableHealthMonitoring := false;
  Executor.workingDir := "." |}.

(** ** Reading a trace *)

Definition traceOf {S A} (r : A * World.t S * list Event) : list Event := snd r.
Definition worldOf {S A} (r : A * World.t S * list Event) : World.t S := snd (fst r).
Definition valueOf {S A} (r : A * World.t S * list Event) : A := fst (fst r).

(** The store calls of a trace, with the context each was made with. *)
Fixpoint storeCalls (tr : list Event) : list (Context * bool * StoreCall) :=
  match tr with
  | [] => []
  | EvStore c d call _ :: rest => (c, d, call) :: storeCalls rest
  | _ :: rest => storeCalls rest
  end.

(** The execution states a trace asks the store to record, in order, with
    the issue they are recorded for. *)
Fixpoint stateUpdates (tr : list Event) : list (string * ExecutionState) :=
  match tr with
  | [] => []
  | EvStore _ _ (CallUpdateExecutionState id st) _ :: rest => (id, st) :: stateUpdates rest
  | _ :: rest => stateUpdates rest
  end.

(** [Quiet m]: whatever the world, [m] asks for no state update and leaves
    the cancellation time of the ambient context alone. *)
Definition Quiet {S A} (m : M S A) : Prop :=
  forall w, World.cancelAt (worldOf (m w)) = World.cancelAt w
            /\ stateUpdates (traceOf (m w)) = [].

(** The keep-counts a trace passes to [DeleteOldStoppedInstances]. *)
Fixpoint keepCounts (tr : list Event) : list Z :=
  match tr with
  | [] => []
  | EvStore _ _ (CallDeleteOldStoppedInstances _ keep) _ :: rest => keep :: keepCounts rest
  | _ :: rest => keepCounts rest
  end.

(** The part of a trace before the first goroutine is started, and the
    goroutines a trace starts, in order. *)
Fixpoint beforeFirstGo (tr : list Event) : list Event :=
  match tr with
  | [] => []
  | EvGo _ _ :: _ => []
  | ev :: rest => ev :: beforeFirstGo rest
  end.

Fixpoint goroutines (tr : list Event) : list Goroutine :=
  match tr with
  | [] => []
  | EvGo g _ :: rest => g :: goroutines rest
  | _ :: rest => goroutines rest
  end.

(** The store calls a trace saw refused, with the error text, and the lines
    a trace prints on the standard error. *)
Fixpoint storeErrors (tr : list Event) : list (StoreCall * string) :=
  match tr with
  | [] => []
  | EvStore _ _ call (Some m) :: rest => (call, m) :: storeErrors rest
  | _ :: rest => storeErrors rest
  end.

Fixpoint stderrOf (tr : list Event) : list string :=
  match tr with
  | [] => []
  | EvPrint (Stderr line) :: rest => line :: stderrOf rest
  | _ :: rest => stderrOf rest
  end.





Definition callsOf (tr : list Event) : list StoreCall := map snd (storeCalls tr).

Definition contextsOf (tr : list Event) : list Context := map (fun c => fst (fst c)) (storeCalls tr).


Definition attemptFailed : ExecutionAttempt.t := {| ExecutionAttempt.Success := Some false |}.
Definition attemptSucceeded : ExecutionAttempt.t := {| ExecutionAttempt.Success := Some true |}.
Definition attemptUnknown : ExecutionAttempt.t := {| ExecutionAttempt.Success := None |}.




(** A database holding one open issue, [vc-7]. *)
Definition oneOpenIssue : DB.t :=
  setIssues {[ "vc-7" := StatusOpen ]} DB.empty.


Definition claimedIssue (history : list HistoryRow.t) : DB.t := {|
  DB.issues := {[ "vc-7" := StatusInProgress ]};
  DB.vc_agent_events := [];
  DB.vc_issue_execution_state :=
    {[ "vc-7" := {| ExecutionStateRow.executor_instance_id := Some "exec-1";
                    ExecutionStateRow.state := ExecutionStateClaimed |} ]};
  DB.vc_execution_history := history;
  DB.comments := [] |}.


Definition vc7 : Issue.t := {| Issue.ID := "vc-7"; Issue.Title := "Add retry to fetch" |}.

(** [executeIssue] on the database, for the issue [vc-7] claimed by the
    executor [exec-1], whose agent's [Wait] answers [wait], the ambient
    context being cancelled from step [cancel] on. *)
Definition executeOnDatabase (wait : AgentResult.t + string) (cancel : option nat) :=
  executeIssue dbAgentEvents dbIssues dbExecutions (calmEnv wait) (someExecutor 10)
    CtxAmbient vc7 (World.init (claimedIssue []) cancel).

(** The deletion calls of a trace, and the events a trace hands to
    [StoreAgentEvent]. *)
Fixpoint cleanupSteps (tr : list Event) : list StoreCall :=
  match tr with
  | [] => []
  | EvStore _ _ (CallCleanupEventsByAge r c b) _ :: rest =>
      CallCleanupEventsByAge r c b :: cleanupSteps rest
  | EvStore _ _ (CallCleanupEventsByIssueLimit p b) _ :: rest =>
      CallCleanupEventsByIssueLimit p b :: cleanupSteps rest
  | EvStore _ _ (CallCleanupEventsByGlobalLimit g b) _ :: rest =>
      CallCleanupEventsByGlobalLimit g b :: cleanupSteps rest
  | _ :: rest => cleanupSteps rest
  end.

Fixpoint storedEvents (tr : list Event) : list AgentEvent.t :=
  match tr with
  | [] => []
  | EvStore _ _ (CallStoreAgentEvent event) _ :: rest => event :: storedEvents rest
  | _ :: rest => storedEvents rest
  end.

(** The three deletion steps of a cleanup cycle, in the order of the source. *)
Definition cleanupPlan (cfg : EventRetentionConfig.t) : list StoreCall :=
  [CallCleanupEventsByAge (EventRetentionConfig.RetentionDays cfg)
     (EventRetentionConfig.RetentionCriticalDays cfg)
     (EventRetentionConfig.CleanupBatchSize cfg);
   CallCleanupEventsByIssueLimit (EventRetentionConfig.PerIssueLimitEvents cfg)
     (EventRetentionConfig.CleanupBatchSize cfg);
   CallCleanupEventsByGlobalLimit
     (triggerThresholdOf (EventRetentionConfig.GlobalLimitEvents cfg))
     (EventRetentionConfig.CleanupBatchSize cfg)].

(** Whether the context [c] is done once [k] more calls to the outside were
    made from the world [w] on. *)
Definition doneAfter {S} (c : Context) (w : World.t S) (k : nat) : bool :=
  ctxDone c {| World.store := World.store w; World.clock := (k + World.clock w)%nat;
               World.cancelAt := World.cancelAt w; World.running := World.running w;
               World.fresh := World.fresh w |}.

(** The summary event of a cleanup cycle: an event-cleanup-completed event
    of the pseudo-issue SYSTEM that carries the total and the three deleted
    counts, the elapsed milliseconds, whether the vacuum ran, the remaining
    count and the success flag, and, for a cycle that failed with [m], the
    error [m] under the severity error. *)
Definition isCleanupSummary (event : AgentEvent.t) (failure : error)
  (total timeBased perIssue globalLimit ms : Z) (vacuumRan : bool) (remaining : Z) : Prop :=
  AgentEvent.Type_ event = EventTypeEventCleanupCompleted
  /\ AgentEvent.IssueID event = "SYSTEM"
  /\ AgentEvent.Severity event
     = match failure with Some _ => SeverityError | None => SeverityInfo end
  /\ AgentEvent.Data event
     = Some (let data :=
               summaryData total timeBased perIssue globalLimit ms vacuumRan remaining
                 (isNil failure) in
             match failure with
             | Some m => <[ "error" := VStr m ]> data
             | None => data
             end).

(** The calls a trace makes to the telemetry monitor. *)
Fixpoint monitorCalls (tr : list Event) : list MonitorCall :=
  match tr with
  | [] => []
  | EvMonitor m :: rest => m :: monitorCalls rest
  | _ :: rest => monitorCalls rest
  end.

Definition readyFilter : WorkFilter.t :=
  {| WorkFilter.Status := StatusOpen; WorkFilter.Limit := 1 |}.


(** What [StoreAgentEvent] never answers for an event that has no issue. *)
Definition fkError : error := Some "failed to store agent event: FOREIGN KEY constraint failed".

(** An executor-level event without an issue. *)
Definition systemEvent : AgentEvent.t := {|
  AgentEvent.ID := "uuid-0";
  AgentEvent.Type_ := EventTypeError;
  AgentEvent.Timestamp := 1000;
  AgentEvent.IssueID := "";
  AgentEvent.ExecutorID := "exec-1";
  AgentEvent.AgentID := "";
  AgentEvent.Severity := SeverityWarning;
  AgentEvent.Message := "executor shutting down";
  AgentEvent.Data := None;
  AgentEvent.SourceLine := 0 |}.

Definition isCtxDone (s : StopSelect) : bool :=
  match s with OnStopCtxDone _ => true | _ => false end.

(** Whether [Stop] waits for the watchdog loop. *)
Definition awaitsWatchdog (e : Executor.t) : bool :=
  WatchdogConfig.IsEnabled (Executor.watchdogConfig e) && Executor.analyzer e.

(** [holds P x] keeps a property apart from the run [x] it is about, so that
    the run is evaluated once. *)
Definition holds {A : Type} (P : A -> Prop) (x : A) : Prop := P x.

(** ** What a computation never does *)

(** [Avoids p m]: whatever the world, no event [m] leaves behind satisfies
    [p]; [m] leaves the cancellation time of the ambient context alone and
    never turns the clock back. *)
Definition Avoids {S A} (p : Event -> bool) (m : M S A) : Prop :=
  forall w, World.cancelAt (worldOf (m w)) = World.cancelAt w
            /\ (World.clock w <= World.clock (worldOf (m w)))%nat
            /\ Forall (fun ev => p ev = false) (traceOf (m w)).

(** The issue a store call is about, for the calls that are about one. *)
Definition issueOf (call : StoreCall) : option string :=
  match call with
  | CallStoreAgentEvent event => Some (AgentEvent.IssueID event)
  | CallUpdateIssue id _ _ => Some id
  | CallAddComment issueID _ _ => Some issueID
  | CallClaimIssue issueID _ => Some issueID
  | CallUpdateExecutionState issueID _ => Some issueID
  | CallReleaseIssue issueID => Some issueID
  | CallReleaseIssueAndReopen issueID _ _ => Some issueID
  | CallGetExecutionHistory issueID => Some issueID
  | _ => None
  end.

(** A store call made on behalf of the issue [id] by the instance that holds
    it: writing an event, a state, a comment or a status for [id], reading
    its history, releasing it. *)
Definition worksOn (id : string) (call : StoreCall) : bool :=
  match call with
  | CallClaimIssue _ _ => false
  | _ => bool_decide (issueOf call = Some id)
  end.

Definition isClose (ev : Event) : bool :=
  match ev with EvClose _ => true | _ => false end.

Definition isGo (ev : Event) : bool :=
  match ev with EvGo _ _ => true | _ => false end.

Definition strays (id : string) (ev : Event) : bool :=
  match ev with
  | EvStore _ _ call _ => negb (worksOn id call)
  | EvGo _ _ | EvClose _ => true
  | _ => false
  end.

(** Readers of a trace: the channels it closes, the instances it sends a
    heartbeat for, the filters it polls the ready queue with, the claims it
    makes (issue and instance), in order. *)
Definition closes (tr : list Event) : list Chan :=
  omap (fun ev => match ev with EvClose ch => Some ch | _ => None end) tr.

Definition heartbeats (tr : list Event) : list string :=
  omap (fun ev => match ev with
                  | EvStore _ _ (CallUpdateHeartbeat id) _ => Some id
                  | _ => None
                  end) tr.

Definition polls (tr : list Event) : list WorkFilter.t :=
  omap (fun ev => match ev with
                  | EvStore _ _ (CallGetReadyWork filter) _ => Some filter
                  | _ => None
                  end) tr.

Definition claimsOf (tr : list Event) : list (string * string) :=
  omap (fun ev => match ev with
                  | EvStore _ _ (CallClaimIssue issueID instanceID) _ => Some (issueID, instanceID)
                  | _ => None
                  end) tr.

(** The events of a loop's own bookkeeping: heartbeats, polls of the ready
    queue, goroutines started, channels closed. *)
Definition loopEvent (ev : Event) : bool :=
  match ev with
  | EvStore _ _ (CallUpdateHeartbeat _) _ => true
  | EvStore _ _ (CallGetReadyWork _) _ => true
  | EvGo _ _ | EvClose _ => true
  | _ => false
  end.

Definition isTick (s : Select) : bool :=
  match s with OnTick => true | _ => false end.

(** The ticks a schedule delivers before its first other case. *)
Fixpoint leadingTicks (sched : list Select) : nat :=
  match sched with
  | OnTick :: rest => Datatypes.S (leadingTicks rest)
  | _ => O
  end.

(** A loop has closed [ch], once and as its last action, if it has returned,
    and has closed nothing if it is still in its [select]. *)
Definition closedOnReturn {S} (ch : Chan) (r : bool * World.t S * list Event) : Prop :=
  if valueOf r
  then closes (traceOf r) = [ch] /\ last (traceOf r) = Some (EvClose ch)
  else closes (traceOf r) = [].

(** The issues a trace asks the store to release, by either of the two
    release operations. *)
Definition releases (tr : list Event) : list string :=
  omap (fun ev => match ev with
                  | EvStore _ _ (CallReleaseIssue issueID) _ => Some issueID
                  | EvStore _ _ (CallReleaseIssueAndReopen issueID _ _) _ => Some issueID
                  | _ => None
                  end) tr.

(** The events that settle an execution: a release of the claim, a call to
    the telemetry monitor. *)
Definition accounting (ev : Event) : bool :=
  match ev with
  | EvStore _ _ (CallReleaseIssue _) _ => true
  | EvStore _ _ (CallReleaseIssueAndReopen _ _ _) _ => true
  | EvMonitor _ => true
  | _ => false
  end.

Definition toAssessing : MonitorCall :=
  RecordStateTransition ExecutionStateClaimed ExecutionStateAssessing.

Definition toExecuting : MonitorCall :=
  RecordStateTransition ExecutionStateAssessing ExecutionStateExecuting.

(** How a part of [executeIssue] that returns an error value has settled
    the issue [id]: on an error, one release and the telemetry ended as a
    failure; on nil, no release and the telemetry ended once. [before] is
    what the monitor may have been told before that. *)
Definition settled (id : string) (before : list (list MonitorCall)) (v : error)
  (tr : list Event) : Prop :=
  match v with
  | Some _ =>
      releases tr = [id]
      /\ exists pre, In pre before
                     /\ monitorCalls tr = pre ++ [EndExecution false false]
  | None =>
      releases tr = []
      /\ exists pre s g, last before = Some pre /\ monitorCalls tr = pre ++ [EndExecution s g]
  end.

(** The retention configuration [eventCleanupLoop] works with. *)
Definition retentionConfigOf {S} (env : Collaborators S) (e : Executor.t)
  : EventRetentionConfig.t :=
  match Config.EventRetentionConfig (Executor.config e) with
  | Some c => c
  | None => config_DefaultEventRetentionConfig env
  end.

(** ** More readers and scenarios *)

(** The runs of the health monitors in a trace. *)
Definition healthChecks (tr : list Event) : list error :=
  omap (fun ev => match ev with
                  | EvExt _ ExtCheckHealthMonitors err => Some err
                  | _ => None
                  end) tr.

Definition isHealthCheck (ev : Event) : bool :=
  match ev with EvExt _ ExtCheckHealthMonitors _ => true | _ => false end.

(** An environment in which every constructor [New] calls succeeds. *)
Definition helpfulNewEnv : NewEnv.t := {|
  NewEnv.os_Hostname := ("host-1", None);
  NewEnv.os_Getpid := 4242;
  NewEnv.uuid_New := "exec-1";
  NewEnv.ai_NewSupervisor := None;
  NewEnv.deduplication_NewAIDeduplicator := None;
  NewEnv.sandbox_NewManager := None;
  NewEnv.watchdog_DefaultWatchdogConfig := NewEnv.watchdog_DefaultWatchdogConfig someNewEnv;
  NewEnv.watchdog_NewAnalyzer := None;
  NewEnv.watchdog_NewInterventionController := None;
  NewEnv.health_NewMonitorRegistry := None;
  NewEnv.getProjectRootFromStore := None;
  NewEnv.health_NewFileSizeMonitor := None;
  NewEnv.registry_Register_fileSize := None;
  NewEnv.health_NewCruftDetector := None;
  NewEnv.registry_Register_cruft := None |}.

(** The same, except that the intervention controller cannot be built. *)
Definition noInterventionEnv : NewEnv.t := {|
  NewEnv.os_Hostname := ("host-1", None);
  NewEnv.os_Getpid := 4242;
  NewEnv.uuid_New := "exec-1";
  NewEnv.ai_NewSupervisor := None;
  NewEnv.deduplication_NewAIDeduplicator := None;
  NewEnv.sandbox_NewManager := None;
  NewEnv.watchdog_DefaultWatchdogConfig := NewEnv.watchdog_DefaultWatchdogConfig someNewEnv;
  NewEnv.watchdog_NewAnalyzer := None;
  NewEnv.watchdog_NewInterventionController := Some "store is required";
  NewEnv.health_NewMonitorRegistry := None;
  NewEnv.getProjectRootFromStore := None;
  NewEnv.health_NewFileSizeMonitor := None;
  NewEnv.registry_Register_fileSize := None;
  NewEnv.health_NewCruftDetector := None;
  NewEnv.registry_Register_cruft := None |}.

(** [DefaultConfig] with a store and with health monitoring asked for. *)
Definition withHealthMonitoring : Config.t := {|
  Config.Store := Some TheStore;
  Config.Version := Config.Version DefaultConfig;
  Config.PollInterval := Config.PollInterval DefaultConfig;
  Config.HeartbeatPeriod := Config.HeartbeatPeriod DefaultConfig;
  Config.CleanupInterval := Config.CleanupInterval DefaultConfig;
  Config.StaleThreshold := Config.StaleThreshold DefaultConfig;
  Config.InstanceCleanupAge := Config.InstanceCleanupAge DefaultConfig;
  Config.InstanceCleanupKeep := Config.InstanceCleanupKeep DefaultConfig;
  Config.EnableAISupervision := true;
  Config.EnableQualityGates := true;
  Config.EnableSandboxes := true;
  Config.KeepSandboxOnFailure := false;
  Config.KeepBranches := false;
  Config.SandboxRetentionCount := 3;
  Config.EnableHealthMonitoring := true;
  Config.HealthConfigPath := Config.HealthConfigPath DefaultConfig;
  Config.HealthStatePath := Config.HealthStatePath DefaultConfig;
  Config.WorkingDir := ".";
  Config.SandboxRoot := ".sandboxes";
  Config.ParentRepo := ".";
  Config.DefaultBranch := "main";
  Config.WatchdogConfig := None;
  Config.DeduplicationConfigSet := false;
  Config.EventRetentionConfig := None |}.

(** The executor [New] builds from a configuration, when it builds one. *)
Definition built (env : NewEnv.t) (cfg : Config.t) : option Executor.t := fst (fst (New env cfg)).

(** The executor built in [helpfulNewEnv] when health monitoring is asked
    for, and the one built in [noInterventionEnv]. *)
Definition monitoredExecutor : Executor.t :=
  Eval vm_compute in
    match built helpfulNewEnv withHealthMonitoring with
    | Some e => e
    | None => someExecutor 10
    end.

Definition unattendedExecutor : Executor.t :=
  Eval vm_compute in
    match built noInterventionEnv (withStore 10) with
    | Some e => e
    | None => someExecutor 10
    end.

(** The channels [Stop] closes to tell the loops to stop. *)
Definition stopSignals (e : Executor.t) : list Chan :=
  stopCh :: (if awaitsWatchdog e then [watchdogStopCh] else [])
    ++ [cleanupStopCh; eventCleanupStopCh].

(** The sweeps of stale failed sandboxes in a trace, with the retention
    count each is given. *)
Definition sandboxSweeps (tr : list Event) : list Z :=
  omap (fun ev => match ev with
                  | EvExt _ (ExtCleanupStaleFailedSandboxes retention) _ => Some retention
                  | _ => None
                  end) tr.

(** The cases that make [cleanupLoop] and [eventCleanupLoop] return. *)
Definition cleanupStops (s : CleanupSelect) : bool :=
  match s with COnTick false false => false | _ => true end.

Definition eventCleanupStops (s : EventCleanupSelect) : bool :=
  match s with EOnTick false => false | _ => true end.

(** ** Reading the agent events back ([internal/storage/beads])

    The three queries over [vc_agent_events]. The table is the list of its
    rows in the order they were inserted. A row is read with its [id], an
    [INTEGER PRIMARY KEY AUTOINCREMENT]: [rowid i] is the id of the row at
    position [i], whatever ids the table has handed out and whatever rows
    were deleted since; the queries and their properties are stated for
    every such numbering. The [timestamp] column is compared as the time it
    holds. Rows with equal timestamps come out in an order SQLite does not
    fix; the model keeps their insertion order. *)

Module EventFilter.
Record t := {
  IssueID : string;
  Type_ : option EventType;
  Severity : option EventSeverity;
  AfterTime : option Z;
  BeforeTime : option Z;
  Limit : Z }.
End EventFilter.

(** The zero value of [events.EventFilter]. *)
Definition noFilter : EventFilter.t := {|
  EventFilter.IssueID := ""; EventFilter.Type_ := None; EventFilter.Severity := None;
  EventFilter.AfterTime := None; EventFilter.BeforeTime := None; EventFilter.Limit := 0 |}.

Definition tableOf (rowid : nat -> Z) (db : DB.t) : list (Z * AgentEventRow.t) :=
  imap (fun i row => (rowid i, row)) (DB.vc_agent_events db).

(** *** Strings through JSON

    [json.Marshal] writes a string as valid UTF-8: every byte that begins no
    valid encoding is written as the replacement character U+FFFD, and
    [json.Unmarshal] reads the text back as it was written. *)

Definition byteIn (lo hi : N) (c : ascii) : bool :=
  ((lo <=? N_of_ascii c) && (N_of_ascii c <=? hi))%N.

(** For the first byte of an encoding of more than one byte: the length of
    the encoding and the range of its second byte (the tables [first] and
    [acceptRanges] of [unicode/utf8], which leave out the overlong forms, the
    surrogates and what lies beyond U+10FFFF). *)
Definition utf8_first (b0 : N) : option (nat * N * N) :=
  (if b0 <? 0xC2 then None
   else if b0 <=? 0xDF then Some (2%nat, 0x80, 0xBF)
   else if b0 =? 0xE0 then Some (3%nat, 0xA0, 0xBF)
   else if b0 =? 0xED then Some (3%nat, 0x80, 0x9F)
   else if b0 <=? 0xEF then Some (3%nat, 0x80, 0xBF)
   else if b0 =? 0xF0 then Some (4%nat, 0x90, 0xBF)
   else if b0 <=? 0xF3 then Some (4%nat, 0x80, 0xBF)
   else if b0 =? 0xF4 then Some (4%nat, 0x80, 0x8F)
   else None)%N.

(** The size [utf8.DecodeRuneInString] answers for a string that begins with
    a valid encoding; [O] where it answers [RuneError] with size 1 (or 0, for
    the empty string). *)
Definition runeLen (s : string) : nat :=
  match s with
  | EmptyString => O
  | String c0 rest =>
      if (N_of_ascii c0 <? 0x80)%N then 1%nat
      else
        match utf8_first (N_of_ascii c0), rest with
        | Some (2%nat, lo, hi), String c1 _ => if byteIn lo hi c1 then 2%nat else O
        | Some (3%nat, lo, hi), String c1 (String c2 _) =>
            if byteIn lo hi c1 && byteIn 0x80 0xBF c2 then 3%nat else O
        | Some (4%nat, lo, hi), String c1 (String c2 (String c3 _)) =>
            if byteIn lo hi c1 && byteIn 0x80 0xBF c2 && byteIn 0x80 0xBF c3 then 4%nat
            else O
        | _, _ => O
        end
  end.

(** U+FFFD in UTF-8: the bytes EF BF BD. *)
Definition replacementChar : string :=
  String (ascii_of_N 0xEF) (String (ascii_of_N 0xBF) (String (ascii_of_N 0xBD) EmptyString)).

(** A string as it comes back from JSON: the loop of the string encoder,
    which copies a valid encoding and replaces any other byte. *)
Fixpoint toValidUTF8 (s : string) : string :=
  match s with
  | EmptyString => EmptyString
  | String c0 r0 =>
      match runeLen s, r0 with
      | 1%nat, _ => String c0 (toValidUTF8 r0)
      | 2%nat, String c1 r1 => String c0 (String c1 (toValidUTF8 r1))
      | 3%nat, String c1 (String c2 r2) =>
          String c0 (String c1 (String c2 (toValidUTF8 r2)))
      | 4%nat, String c1 (String c2 (String c3 r3)) =>
          String c0 (String c1 (String c2 (String c3 (toValidUTF8 r3))))
      | _, _ => replacementChar +:+ toValidUTF8 r0
      end
  end.

(** [sql.NullString]: the string of a column, empty when it is NULL. *)
Definition nullString (s : option string) : string :=
  match s with Some v => v | None => "" end.

Section Scan.

(** The ids of the rows, by position. *)
Variable rowid : nat -> Z.

(** The text of a [types.Status] and of an agent type, which are strings in
    the Go code. *)
Variable Status_String : Status -> string.
Variable AgentType_String : AgentType -> string.

(** What [json.Unmarshal] into a [map[string]interface{}] makes of a value
    [json.Marshal] has written: a number comes back as a [float64], a string
    type as a plain string, a string as valid UTF-8. *)
Definition decodeValue (v : Value) : Value :=
  match v with
  | VInt z => VFloat (float64_of_int z)
  | VBool b => VBool b
  | VStr s => VStr (toValidUTF8 s)
  | VFloat f => VFloat f
  | VStatus s => VStr (toValidUTF8 (Status_String s))
  | VAgentType a => VStr (toValidUTF8 (AgentType_String a))
  end.

(** [json.Unmarshal] of the text [json.Marshal] wrote for the map [m]: the
    entries are read in the order they were written, each under its key as
    valid UTF-8; of two keys that have become the same the later one stays. *)
Definition json_Unmarshal (m : gmap string Value) : gmap string Value :=
  foldl (fun acc kv => <[ toValidUTF8 (fst kv) := decodeValue (snd kv) ]> acc) ∅
    (entriesInOrder m).

(** The loop body shared by the three queries: [rows.Scan] and the copying
    of the nullable columns. The [data] column of a row written by
    [StoreAgentEvent] is empty or valid JSON, so [json.Unmarshal] does not
    fail on it. *)
Definition scanAgentEvent (r : Z * AgentEventRow.t) : AgentEvent.t := {|
  AgentEvent.ID := itoa (fst r);
  AgentEvent.Type_ := AgentEventRow.type_ (snd r);
  AgentEvent.Timestamp := AgentEventRow.timestamp (snd r);
  AgentEvent.IssueID := nullString (AgentEventRow.issue_id (snd r));
  AgentEvent.ExecutorID := nullString (AgentEventRow.executor_id (snd r));
  AgentEvent.AgentID := nullString (AgentEventRow.agent_id (snd r));
  AgentEvent.Severity := AgentEventRow.severity (snd r);
  AgentEvent.Message := AgentEventRow.message (snd r);
  AgentEvent.Data :=
    match AgentEventRow.data (snd r) with
    | EmptyText => None
    | JSONOf m => Some (json_Unmarshal m)
    end;
  AgentEvent.SourceLine := AgentEventRow.source_line (snd r) |}.

(** [ORDER BY timestamp] and [ORDER BY timestamp DESC]. *)
Definition earlierFirst (a b : Z * AgentEventRow.t) : Prop :=
  AgentEventRow.timestamp (snd a) <= AgentEventRow.timestamp (snd b).

Definition laterFirst (a b : Z * AgentEventRow.t) : Prop :=
  AgentEventRow.timestamp (snd b) <= AgentEventRow.timestamp (snd a).

(** [LIMIT n] of SQLite: a negative [n] is no limit. *)
Definition sqlLimit {A} (n : Z) (l : list A) : list A :=
  if n <? 0 then l else take (Z.to_nat n) l.

(** The [WHERE] clause [GetAgentEvents] builds: a criterion is added for
    each field of the filter that is not its zero value; a comparison with a
    NULL column is never true. *)
Definition selects (flt : EventFilter.t) (r : Z * AgentEventRow.t) : Prop :=
  (EventFilter.IssueID flt = ""
   \/ AgentEventRow.issue_id (snd r) = Some (EventFilter.IssueID flt))
  /\ (match EventFilter.Type_ flt with
      | Some t => AgentEventRow.type_ (snd r) = t
      | None => True
      end)
  /\ (match EventFilter.Severity flt with
      | Some s => AgentEventRow.severity (snd r) = s
      | None => True
      end)
  /\ (match EventFilter.AfterTime flt with
      | Some t => t <= AgentEventRow.timestamp (snd r)
      | None => True
      end)
  /\ (match EventFilter.BeforeTime flt with
      | Some t => AgentEventRow.timestamp (snd r) <= t
      | None => True
      end).

Global Instance selects_dec flt r : Decision (selects flt r).
Proof.
  unfold selects.
  destruct (EventFilter.Type_ flt), (EventFilter.Severity flt),
    (EventFilter.AfterTime flt), (EventFilter.BeforeTime flt); apply _.
Defined.

Global Instance earlierFirst_dec a b : Decision (earlierFirst a b).
Proof. unfold earlierFirst. apply _. Defined.

Global Instance laterFirst_dec a b : Decision (laterFirst a b).
Proof. unfold laterFirst. apply _. Defined.

(** [GetAgentEvents]. *)
Definition VCStorage_GetAgentEvents (cancelled : bool) (flt : EventFilter.t) (db : DB.t)
  : list AgentEvent.t * error :=
  if cancelled then ([], Some ("failed to query agent events: " +:+ context_Canceled))
  else
    let rows := merge_sort laterFirst (filter (selects flt) (tableOf rowid db)) in
    let rows :=
      if EventFilter.Limit flt >? 0 then sqlLimit (EventFilter.Limit flt) rows
      else rows in
    (map scanAgentEvent rows, None).

(** [GetAgentEventsByIssue]. *)
Definition VCStorage_GetAgentEventsByIssue (cancelled : bool) (issueID : string) (db : DB.t)
  : list AgentEvent.t * error :=
  if cancelled then ([], Some ("failed to query agent events: " +:+ context_Canceled))
  else
    let rows :=
      merge_sort earlierFirst
        (filter (fun r => AgentEventRow.issue_id (snd r) = Some issueID) (tableOf rowid db)) in
    (map scanAgentEvent rows, None).

(** [GetRecentAgentEvents]. *)
Definition VCStorage_GetRecentAgentEvents (cancelled : bool) (limit : Z) (db : DB.t)
  : list AgentEvent.t * error :=
  if cancelled then ([], Some ("failed to query recent agent events: " +:+ context_Canceled))
  else
    let rows := sqlLimit limit (merge_sort laterFirst (tableOf rowid db)) in
    (map scanAgentEvent rows, None).

End Scan.

(** What the filter of [GetAgentEvents] asks of an event. *)
Definition accepts (flt : EventFilter.t) (e : AgentEvent.t) : Prop :=
  (EventFilter.IssueID flt = "" \/ AgentEvent.IssueID e = EventFilter.IssueID flt)
  /\ (match EventFilter.Type_ flt with Some t => AgentEvent.Type_ e = t | None => True end)
  /\ (match EventFilter.Severity flt with Some s => AgentEvent.Severity e = s | None => True end)
  /\ (match EventFilter.AfterTime flt with Some t => t <= AgentEvent.Timestamp e | None => True end)
  /\ (match EventFilter.BeforeTime flt with Some t => AgentEvent.Timestamp e <= t | None => True end).

(** The event as it is read back from the row [id]: with the row id for
    [ID], and with its data decoded from JSON. *)
Definition readBack (Status_String : Status -> string) (AgentType_String : AgentType -> string)
  (id : Z) (event : AgentEvent.t) : AgentEvent.t := {|
  AgentEvent.ID := itoa id;
  AgentEvent.Type_ := AgentEvent.Type_ event;
  AgentEvent.Timestamp := AgentEvent.Timestamp event;
  AgentEvent.IssueID := AgentEvent.IssueID event;
  AgentEvent.ExecutorID := AgentEvent.ExecutorID event;
  AgentEvent.AgentID := AgentEvent.AgentID event;
  AgentEvent.Severity := AgentEvent.Severity event;
  AgentEvent.Message := AgentEvent.Message event;
  AgentEvent.Data :=
    match AgentEvent.Data event with
    | Some m => Some (json_Unmarshal Status_String AgentType_String m)
    | None => None
    end;
  AgentEvent.SourceLine := AgentEvent.SourceLine event |}.

(** An event of the executor [exec-1] at the time [ts], for the examples. *)
Definition eventAt (ts : Z) (issueID message : string) : AgentEvent.t := {|
  AgentEvent.ID := "uuid-" +:+ itoa ts;
  AgentEvent.Type_ := EventTypeIssueClaimed;
  AgentEvent.Timestamp := ts;
  AgentEvent.IssueID := issueID;
  AgentEvent.ExecutorID := "exec-1";
  AgentEvent.AgentID := "";
  AgentEvent.Severity := SeverityInfo;
  AgentEvent.Message := message;
  AgentEvent.Data := None;
  AgentEvent.SourceLine := 0 |}.

(** The texts of the statuses as the specification names them, and a text
    for the one agent type, for the examples. *)
Definition statusText (s : Status) : string :=
  match s with
  | StatusOpen => "open" | StatusInProgress => "in_progress"
  | StatusBlocked => "blocked" | StatusClosed => "closed"
  end.

Definition agentTypeText (a : AgentType) : string :=
  match a with AgentTypeAmp => "amp" end.

(** ** Opening the storage ([internal/storage])

    [os.Getenv("VC_DB_PATH")] is an argument; [open] stands for
    [beads.NewVCStorage], which is handed the resolved path. *)

Module StorageConfig.
Record t := { Path : string }.
End StorageConfig.

Definition defaultDBPath : string := ".beads/vc.db".

(** [storage.DefaultConfig]. *)
Definition storage_DefaultConfig (VC_DB_PATH : string) : StorageConfig.t :=
  let path := VC_DB_PATH in
  let path := if decide (path = "") then defaultDBPath else path in
  {| StorageConfig.Path := path |}.

(** [storage.NewStorage]. [cfg] is a pointer: [None] is nil, and the second
    component of the result is the caller's configuration after the call,
    which [NewStorage] writes the resolved path into. *)
Definition storage_NewStorage {R : Type} (VC_DB_PATH : string) (open : string -> R)
  (cfg : option StorageConfig.t) : R * option StorageConfig.t :=
  let cfg1 :=
    match cfg with
    | None => storage_DefaultConfig VC_DB_PATH
    | Some c => c
    end in
  let cfg2 :=
    if decide (StorageConfig.Path cfg1 = "") then
      let path := VC_DB_PATH in
      {| StorageConfig.Path := if decide (path = "") then defaultDBPath else path |}
    else cfg1 in
  (open (StorageConfig.Path cfg2),
   match cfg with None => None | Some _ => Some cfg2 end).

(** ** The migration of [vc_agent_events]

    What [pragma_table_info] and the indexes of the table hold. *)

Module TableInfo.
Record t := { columns : list string; indexes : list string }.
End TableInfo.

(** [SELECT COUNT( * ) > 0 FROM pragma_table_info(...) WHERE name = ...]. *)
Definition hasColumn (name : string) (t : TableInfo.t) : bool :=
  bool_decide (name ∈ TableInfo.columns t).

(** [ALTER TABLE ... ADD COLUMN] and [CREATE INDEX IF NOT EXISTS]. *)
Definition addColumn (name : string) (t : TableInfo.t) : TableInfo.t :=
  {| TableInfo.columns := TableInfo.columns t ++ [name]; TableInfo.indexes := TableInfo.indexes t |}.

Definition createIndexIfNotExists (name : string) (t : TableInfo.t) : TableInfo.t :=
  if bool_decide (name ∈ TableInfo.indexes t) then t
  else {| TableInfo.columns := TableInfo.columns t;
          TableInfo.indexes := TableInfo.indexes t ++ [name] |}.

(** [migrateAgentEventsTable]; every statement is refused when the context
    is already cancelled, the first one being the check for [executor_id]. *)
Definition migrateAgentEventsTable (cancelled : bool) (t : TableInfo.t) : error * TableInfo.t :=
  if cancelled then
    (Some ("failed to check for executor_id column: " +:+ context_Canceled), t)
  else
    let t :=
      if hasColumn "executor_id" t then t
      else createIndexIfNotExists "idx_vc_agent_events_executor" (addColumn "executor_id" t) in
    let t := if hasColumn "agent_id" t then t else addColumn "agent_id" t in
    let t := if hasColumn "source_line" t then t else addColumn "source_line" t in
    (None, t).

(** The table as [vcExtensionSchema] creates it. *)
Definition schemaAgentEvents : TableInfo.t := {|
  TableInfo.columns :=
    ["id"; "timestamp"; "issue_id"; "executor_id"; "agent_id"; "type"; "severity";
     "message"; "data"; "source_line"];
  TableInfo.indexes :=
    ["idx_vc_agent_events_issue"; "idx_vc_agent_events_executor";
     "idx_vc_agent_events_timestamp"; "idx_vc_agent_events_type"] |}.

(** The table of a database created before the three columns were added. *)
Definition oldAgentEvents : TableInfo.t := {|
  TableInfo.columns := ["id"; "timestamp"; "issue_id"; "type"; "severity"; "message"; "data"];
  TableInfo.indexes :=
    ["idx_vc_agent_events_issue"; "idx_vc_agent_events_timestamp"; "idx_vc_agent_events_type"] |}.

(** The columns of the three that a table lacks, in the order the migration
    looks for them. *)
Definition missingColumns (t : TableInfo.t) : list string :=
  filter (fun name => name ∉ TableInfo.columns t) ["executor_id"; "agent_id"; "source_line"].

(** ** Issues ([internal/types])

    The fields of [types.Issue] that the sources at hand name: those the
    literal of [vc create] sets and those the storage copies to and from the
    issue of the Beads library, and [IssueSubtype]. The declaration of the
    struct is not among the sources; a field it may have beyond these is one
    no code modelled here reads or sets. A status and an issue type are
    strings; an optional field is a pointer. *)

Module VCIssue.
Record t := {
  ID : string; Title : string; Description : string; Design : string;
  AcceptanceCriteria : string; Notes : string; Status : string; Priority : Z;
  IssueType : string; IssueSubtype : string; Assignee : string;
  EstimatedMinutes : option Z; CreatedAt : Z; UpdatedAt : Z; ClosedAt : option Z }.
End VCIssue.

(** ** The command line ([cmd/vc])

    The commands that write to the store. A command is run by cobra: the
    persistent pre-run of the root command, the command's own [Run], and the
    persistent post-run, which is skipped when [Run] leaves through
    [os.Exit]. The colour codes [color.New(color.FgGreen)] puts around the
    tick depend on the terminal; [tick] is the tick as rendered. *)

Module Cli.

(** The value of a flag, and the flags given on the command line, by name:
    a flag is [Changed] when it was given. *)
Inductive Flag := FString (s : string) | FInt (n : Z) | FStringSlice (l : list string).

Definition Flags : Type := gmap string Flag.

Definition Changed (flags : Flags) (name : string) : bool :=
  bool_decide (is_Some (flags !! name)).

(** [GetString], [GetInt] and [GetStringSlice] with the error dropped, as the
    commands call them; [dflt] is the default the flag is declared with. *)
Definition GetString (flags : Flags) (name dflt : string) : string :=
  match flags !! name with
  | Some (FString s) => s
  | Some _ => ""
  | None => dflt
  end.

Definition GetInt (flags : Flags) (name : string) (dflt : Z) : Z :=
  match flags !! name with
  | Some (FInt n) => n
  | Some _ => 0
  | None => dflt
  end.

Definition GetStringSlice (flags : Flags) (name : string) (dflt : list string) : list string :=
  match flags !! name with
  | Some (FStringSlice l) => l
  | Some _ => []
  | None => dflt
  end.

(** The store methods the commands call. [CreateIssue] is handed a pointer
    and answers the issue as it has left it, which holds the new ID. *)
Record Store (S : Type) := {
  CreateIssue : VCIssue.t -> string -> S -> (VCIssue.t * error) * S;
  AddLabel : string -> string -> string -> S -> error * S;
  UpdateIssue : string -> gmap string Value -> string -> S -> error * S;
  CloseIssue : string -> string -> string -> S -> error * S;
  Close : S -> error * S }.
Arguments CreateIssue {S}.
Arguments AddLabel {S}.
Arguments UpdateIssue {S}.
Arguments CloseIssue {S}.
Arguments Close {S}.

Inductive Call :=
| CallCreateIssue (issue : VCIssue.t) (actor : string)
| CallAddLabel (issueID label actor : string)
| CallUpdateIssue (id : string) (updates : gmap string Value) (actor : string)
| CallCloseIssue (id reason actor : string)
| CallClose.

(** What a run leaves behind: the exit status if it left through
    [os.Exit], the store, the calls made and the lines printed. *)
Record Ran (S : Type) := {
  exit : option Z; state : S; calls : list Call; output : list Output }.
Arguments exit {S}.
Arguments state {S}.
Arguments calls {S}.
Arguments output {S}.

Section Commands.

Context {S : Type}.
Variable store : Store S.
Variable tick : string.

(** The label loop of [createCmd]. *)
Fixpoint addLabels (actor issueID : string) (labels : list string) (s : S)
  : S * list Call * list Output :=
  match labels with
  | [] => (s, [], [])
  | label :: rest =>
      let '(err, s1) := AddLabel store issueID label actor s in
      let warning :=
        match err with
        | Some m => [Stderr ("Warning: failed to add label " +:+ label +:+ ": " +:+ m)]
        | None => []
        end in
      let '(s2, calls2, out2) := addLabels actor issueID rest s1 in
      (s2, CallAddLabel issueID label actor :: calls2, warning ++ out2)
  end.

(** [createCmd]; [title] is the first argument. [types.StatusOpen] is the
    status the specification calls open. *)
Definition createCmd (actor : string) (title : string) (flags : Flags) (s : S) : Ran S :=
  let description := GetString flags "description" "" in
  let design := GetString flags "design" "" in
  let acceptance := GetString flags "acceptance" "" in
  let priority := GetInt flags "priority" 2 in
  let issueType := GetString flags "type" "task" in
  let assignee := GetString flags "assignee" "" in
  let labels := GetStringSlice flags "labels" [] in
  let issue := {|
    VCIssue.ID := ""; VCIssue.Title := title; VCIssue.Description := description;
    VCIssue.Design := design; VCIssue.AcceptanceCriteria := acceptance;
    VCIssue.Notes := ""; VCIssue.Status := "open"; VCIssue.Priority := priority;
    VCIssue.IssueType := issueType; VCIssue.IssueSubtype := "";
    VCIssue.Assignee := assignee; VCIssue.EstimatedMinutes := None;
    VCIssue.CreatedAt := 0; VCIssue.UpdatedAt := 0; VCIssue.ClosedAt := None |} in
  let '((created, err), s1) := CreateIssue store issue actor s in
  match err with
  | Some m =>
      {| exit := Some 1; state := s1; calls := [CallCreateIssue issue actor];
         output := [Stderr ("Error: " +:+ m)] |}
  | None =>
      let '(s2, calls2, out2) := addLabels actor (VCIssue.ID created) labels s1 in
      {| exit := None; state := s2;
         calls := CallCreateIssue issue actor :: calls2;
         output := out2 ++ [Stdout (tick +:+ " Created issue: " +:+ VCIssue.ID created);
                            Stdout ("  Title: " +:+ VCIssue.Title created);
                            Stdout ("  Priority: P" +:+ itoa (VCIssue.Priority created));
                            Stdout ("  Status: " +:+ VCIssue.Status created)] |}
  end.

(** The map [updateCmd] builds from the flags that were given. *)
Definition updatesOf (flags : Flags) : gmap string Value :=
  let updates : gmap string Value := ∅ in
  let updates :=
    if Changed flags "status" then <[ "status" := VStr (GetString flags "status" "") ]> updates
    else updates in
  let updates :=
    if Changed flags "priority" then <[ "priority" := VInt (GetInt flags "priority" 0) ]> updates
    else updates in
  let updates :=
    if Changed flags "title" then <[ "title" := VStr (GetString flags "title" "") ]> updates
    else updates in
  let updates :=
    if Changed flags "assignee"
    then <[ "assignee" := VStr (GetString flags "assignee" "") ]> updates
    else updates in
  updates.

(** [updateCmd]; [id] is its one argument. *)
Definition updateCmd (actor : string) (id : string) (flags : Flags) (s : S) : Ran S :=
  let updates := updatesOf flags in
  if decide (size updates = 0%nat) then
    {| exit := None; state := s; calls := []; output := [Stdout "No updates specified"] |}
  else
    let '(err, s1) := UpdateIssue store id updates actor s in
    match err with
    | Some m =>
        {| exit := Some 1; state := s1; calls := [CallUpdateIssue id updates actor];
           output := [Stderr ("Error: " +:+ m)] |}
    | None =>
        {| exit := None; state := s1; calls := [CallUpdateIssue id updates actor];
           output := [Stdout (tick +:+ " Updated issue: " +:+ id)] |}
    end.

(** The loop of [closeCmd]. *)
Fixpoint closeEach (actor reason : string) (ids : list string) (s : S)
  : S * list Call * list Output :=
  match ids with
  | [] => (s, [], [])
  | id :: rest =>
      let '(err, s1) := CloseIssue store id reason actor s in
      let line :=
        match err with
        | Some m => Stderr ("Error closing " +:+ id +:+ ": " +:+ m)
        | None => Stdout (tick +:+ " Closed " +:+ id +:+ ": " +:+ reason)
        end in
      let '(s2, calls2, out2) := closeEach actor reason rest s1 in
      (s2, CallCloseIssue id reason actor :: calls2, line :: out2)
  end.

(** [closeCmd]. *)
Definition closeCmd (actor : string) (ids : list string) (flags : Flags) (s : S) : Ran S :=
  let reason := GetString flags "reason" "" in
  let reason := if decide (reason = "") then "Closed" else reason in
  let '(s1, calls1, out1) := closeEach actor reason ids s in
  {| exit := None; state := s1; calls := calls1; output := out1 |}.

(** The process around a command: where the database is found, whether it
    opens, and the [USER] of the environment. *)
Record Env := {
  DiscoverDatabase : string + string;
  filepath_Abs : string -> string + string;
  NewVCStorage : string -> error;
  USER : string }.

(** The persistent pre-run for a command other than [init]: [inr] is a line
    on the standard error followed by [os.Exit(1)], [inl] the database path
    and the actor the command runs with. *)
Definition PersistentPreRun (env : Env) (dbPath actor : string) : (string * string) + string :=
  let found :=
    if decide (dbPath = "") then
      match DiscoverDatabase env with
      | inl p => inl p
      | inr m => inr ("Error: " +:+ m)
      end
    else
      match filepath_Abs env dbPath with
      | inl p => inl p
      | inr m => inr ("Error: invalid database path: " +:+ m)
      end in
  match found with
  | inr line => inr line
  | inl dbPath =>
      match NewVCStorage env dbPath with
      | Some m => inr ("Error: failed to open database: " +:+ m)
      | None =>
          let actor :=
            if decide (actor = "") then
              (if decide (USER env = "") then "unknown" else USER env)
            else actor in
          inl (dbPath, actor)
      end
  end.

(** A command other than [init], run by cobra. *)
Definition run (env : Env) (dbPath actor : string) (command : string -> S -> Ran S) (s : S)
  : Ran S :=
  match PersistentPreRun env dbPath actor with
  | inr line => {| exit := Some 1; state := s; calls := []; output := [Stderr line] |}
  | inl (_, actor) =>
      let r := command actor s in
      match exit r with
      | Some code => r
      | None =>
          let '(_, s1) := Close store (state r) in
          {| exit := None; state := s1; calls := calls r ++ [CallClose];
             output := output r |}
      end
  end.

(** The commands, as cobra dispatches them. *)
Inductive Command :=
| Create (title : string) (flags : Flags)
| Update (id : string) (flags : Flags)
| CloseIssues (ids : list string) (flags : Flags).

Definition dispatch (c : Command) (actor : string) (s : S) : Ran S :=
  match c with
  | Create title flags => createCmd actor title flags s
  | Update id flags => updateCmd actor id flags s
  | CloseIssues ids flags => closeCmd actor ids flags s
  end.

End Commands.

(** The actor of a call to the store. *)
Definition actorOf (c : Call) : option string :=
  match c with
  | CallCreateIssue _ actor => Some actor
  | CallAddLabel _ _ actor => Some actor
  | CallUpdateIssue _ _ actor => Some actor
  | CallCloseIssue _ _ actor => Some actor
  | CallClose => None
  end.

End Cli.

(** * Properties *)

(** ** Go basics *)

Example itoa_3 : itoa 3 = "3".
Proof. reflexivity. Qed.

Example itoa_neg : itoa (-1204) = "-1204".
Proof. reflexivity. Qed.

Example seconds_5min : int_of_float64 (time.Seconds (5 * time.Minute)) = 300.
Proof. vm_compute. reflexivity. Qed.

Example seconds_24h : int_of_float64 (time.Seconds (24 * time.Hour)) = 86400.
Proof. vm_compute. reflexivity. Qed.

Lemma add64_exact (a b : Z) : in_int64 (a + b) -> add64 a b = a + b.
Proof.
  unfold in_int64, int64_min, int64_max, add64, wrap64. intros H.
  rewrite Z.mod_small by lia. lia.
Qed.

Example add64_wraps : add64 int64_max 1 = int64_min.
Proof. reflexivity. Qed.

Example triggerThreshold_default : triggerThresholdOf 50000 = 47500.
Proof. vm_compute. reflexivity. Qed.

Example triggerThreshold_small : map triggerThresholdOf [0; 1; 7; 20; 100] = [0; 0; 6; 19; 95].
Proof. vm_compute. reflexivity. Qed.

Example failures_skip_unknown :
  consecutiveFailuresOf
    [attemptFailed; attemptSucceeded; attemptFailed; attemptUnknown; attemptFailed] = 2.
Proof. reflexivity. Qed.

Example failures_stop_at_success :
  consecutiveFailuresOf [attemptFailed; attemptFailed; attemptFailed; attemptSucceeded] = 0.
Proof. reflexivity. Qed.


(** ** Tactics *)

(** Unfold the monad, leaving the calls to the outside and the state of the
    contexts in place. *)
Ltac unfold_go :=
  cbv beta iota zeta delta
    [bind ret orReturn emit print monitor storeErr storeVal extErr extVal extPure
     ctx_Err get_running set_running go step traceOf worldOf valueOf resErr];
  cbn [fst snd app World.store World.clock World.cancelAt World.running World.fresh].

Ltac atomic x :=
  lazymatch x with
  | context [match _ with _ => _ end] => fail
  | context [if _ then _ else _] => fail
  | _ => idtac
  end.

(** Name the answer of the next call to the outside. *)
Ltac answer :=
  match goal with
  | |- context [if ?x then _ else _] => atomic x; destruct x eqn:?
  | |- context [match ?x with Some _ => _ | None => _ end] => atomic x; destruct x eqn:?
  | |- context [match ?x with inl _ => _ | inr _ => _ end] => atomic x; destruct x eqn:?
  | |- context [match ?x with WaitAll => _ | WaitCtx _ => _ | WaitBlocked => _ end] =>
      atomic x; destruct x eqn:?
  | |- context [match ?x with (_, _) => _ end] => atomic x; destruct x as [? ?] eqn:?
  end.

Ltac run := unfold_go; repeat (answer; unfold_go).


Ltac focus_on x :=
  pattern x;
  match goal with |- ?P ?y => change (holds P y) end.

Lemma New_someExecutor (keep : Z) :
  exists out, New someNewEnv (withStore keep) = (Some (someExecutor keep), None, out).
Proof. eexists. reflexivity. Qed.





(** ** Quiet computations *)

Lemma stateUpdates_app (t1 t2 : list Event) :
  stateUpdates (t1 ++ t2) = stateUpdates t1 ++ stateUpdates t2.
Proof.
  induction t1 as [|ev t1 IH]; [reflexivity|].
  destruct ev as [c d call err| | | | |]; cbn; try exact IH.
  destruct call; cbn; try exact IH. now rewrite IH.
Qed.

Section QuietRules.

Context {S : Type}.

Lemma Quiet_ret {A} (a : A) : Quiet (ret a : M S A).
Proof. intros w. split; reflexivity. Qed.

Lemma Quiet_bind {A B} (m : M S A) (k : A -> M S B) :
  Quiet m -> (forall a, Quiet (k a)) -> Quiet (bind m k).
Proof.
  intros Hm Hk w. unfold bind.
  specialize (Hm w). destruct (m w) as [[a w1] t1].
  specialize (Hk a w1). destruct (k a w1) as [[b w2] t2].
  unfold worldOf, traceOf in *. cbn [fst snd] in *.
  destruct Hm as [Hc1 Ht1], Hk as [Hc2 Ht2]. split; [congruence|].
  rewrite stateUpdates_app, Ht1, Ht2. reflexivity.
Qed.

Lemma Quiet_orReturn {A} (stmt : M S (option A)) (k : M S A) :
  Quiet stmt -> Quiet k -> Quiet (orReturn stmt k).
Proof.
  intros Hs Hk. unfold orReturn. apply Quiet_bind; [exact Hs|].
  intros [v|]; [apply Quiet_ret|exact Hk].
Qed.

Lemma Quiet_emit (ev : Event) : stateUpdates [ev] = [] -> Quiet (emit ev : M S unit).
Proof. intros H w. split; [reflexivity|exact H]. Qed.

Lemma Quiet_print (o : Output) : Quiet (print o : M S unit).
Proof. apply Quiet_emit. reflexivity. Qed.

Lemma Quiet_monitor (m : MonitorCall) : Quiet (monitor m : M S unit).
Proof. apply Quiet_emit. reflexivity. Qed.

Lemma Quiet_extPure (call : ExtCall) (err : error) : Quiet (extPure call err : M S unit).
Proof. apply Quiet_emit. reflexivity. Qed.

Lemma Quiet_ctx_Err (c : Context) : Quiet (ctx_Err c : M S error).
Proof. intros w. split; reflexivity. Qed.

Lemma Quiet_storeErr (c : Context) (call : StoreCall) (op : bool -> S -> error * S) :
  (forall d err, stateUpdates [EvStore c d call err] = []) ->
  Quiet (storeErr c call op).
Proof.
  intros H w. unfold storeErr, worldOf, traceOf.
  destruct (op (ctxDone c w) (World.store w)) as [err s]. split; [reflexivity|apply H].
Qed.

Lemma Quiet_storeVal {A} (c : Context) (call : StoreCall) (op : bool -> S -> (A * error) * S) :
  (forall d err, stateUpdates [EvStore c d call err] = []) ->
  Quiet (storeVal c call op).
Proof.
  intros H w. unfold storeVal, worldOf, traceOf.
  destruct (op (ctxDone c w) (World.store w)) as [r s]. split; [reflexivity|apply H].
Qed.

Lemma Quiet_extErr (c : Context) (call : ExtCall) (op : bool -> S -> error * S) :
  Quiet (extErr c call op).
Proof.
  intros w. unfold extErr, worldOf, traceOf.
  destruct (op (ctxDone c w) (World.store w)) as [err s]. split; reflexivity.
Qed.

Lemma Quiet_extVal {A} (c : Context) (call : ExtCall) (op : bool -> S -> (A + string) * S) :
  Quiet (extVal c call op).
Proof.
  intros w. unfold extVal, worldOf, traceOf.
  destruct (op (ctxDone c w) (World.store w)) as [r s]. split; reflexivity.
Qed.

Lemma Quiet_now (env : Collaborators S) : Quiet (now env).
Proof. intros w. split; reflexivity. Qed.

Lemma Quiet_newUUID (env : Collaborators S) : Quiet (newUUID env).
Proof. intros w. split; reflexivity. Qed.

End QuietRules.

Create HintDb quiet.

(** Decompose a computation along its binds and its case analyses. *)
Ltac quiet :=
  repeat first
    [ progress cbv zeta
    | solve [auto 1 with quiet nocore]
    | apply Quiet_ret | apply Quiet_print | apply Quiet_monitor | apply Quiet_extPure
    | apply Quiet_ctx_Err | apply Quiet_now | apply Quiet_newUUID
    | apply Quiet_extErr | apply Quiet_extVal
    | apply Quiet_storeErr; intros; reflexivity
    | apply Quiet_storeVal; intros; reflexivity
    | apply Quiet_orReturn
    | apply Quiet_bind; [|intros ?]
    | assumption
    | match goal with
      | |- Quiet (match ?x with _ => _ end) => destruct x
      | |- Quiet (if ?x then _ else _) => destruct x
      | |- Quiet (let '(_, _) := ?x in _) => destruct x
      end ].

(** Step over a call that is known to be quiet, keeping what is known of
    the world and of the trace it returns. *)
Ltac step_quiet :=
  match goal with
  | |- context [match ?x with (_, _) => _ end] =>
      lazymatch x with
      | ?m ?w0 =>
          let H := fresh "HQ" in
          assert (H : Quiet m) by (auto 1 with quiet nocore);
          specialize (H w0); destruct x as [[? ?] ?];
          unfold worldOf, traceOf in H; cbn [fst snd World.cancelAt] in H; destruct H
      end
  end.

Ltac run_quiet := unfold_go; repeat (first [step_quiet | answer]; unfold_go).

Section RuntimeProperties.

Context {S : Type}.
Variable agentEvents : AgentEventStore S.
Variable eventCleanup : EventCleanupStore S.
Variable issues : IssueStore S.
Variable readyWork : ReadyWorkStore S.
Variable instances : InstanceStore S.
Variable executions : ExecutionStore S.
Variable env : Collaborators S.

Lemma keepCounts_app (t1 t2 : list Event) :
  keepCounts (t1 ++ t2) = keepCounts t1 ++ keepCounts t2.
Proof.
  induction t1 as [|ev t1 IH]; [reflexivity|].
  destruct ev as [c d call err| | | | |]; cbn; try exact IH.
  destruct call; cbn; try exact IH. now rewrite IH.
Qed.

Lemma Stop_keepCounts (e : Executor.t) (ctx : Context) (sched : list StopSelect) (w : World.t S) :
  Forall (fun k => k = Executor.instanceCleanupKeep e)
    (keepCounts (traceOf (Stop instances e ctx sched w))).
Proof.
  unfold Stop, traceOf. run; repeat constructor.
Qed.

Lemma cleanupWork_keepCounts (e : Executor.t) (ctx : Context) (w : World.t S) :
  Forall (fun k => k = Executor.instanceCleanupKeep e)
    (keepCounts (traceOf (cleanupWork instances env e ctx w))).
Proof.
  unfold cleanupWork, traceOf. run; repeat constructor.
Qed.

Lemma cleanupLoop_keepCounts (e : Executor.t) (ctx : Context) (sched : list CleanupSelect)
  (w : World.t S) :
  Forall (fun k => k = Executor.instanceCleanupKeep e)
    (keepCounts (traceOf (cleanupLoop instances env e ctx sched w))).
Proof.
  revert w. induction sched as [|sel rest IH]; intros w; [constructor|].
  destruct sel as [| |stopReady stopFirst]; try (cbn; constructor).
  cbn [cleanupLoop]. destruct stopReady; [cbn; constructor|].
  unfold bind at 1.
  pose proof (cleanupWork_keepCounts e ctx w) as Hw. unfold traceOf in Hw.
  destruct (cleanupWork instances env e ctx w) as [[err w1] t1]. cbn [snd] in Hw.
  destruct stopFirst.
  - cbn. rewrite keepCounts_app. cbn. now rewrite app_nil_r.
  - specialize (IH w1). unfold traceOf in *.
    destruct err; cbn;
      destruct (cleanupLoop instances env e ctx rest w1) as [[b w2] t2];
      cbn in *; rewrite keepCounts_app; apply Forall_app; split; assumption.
Qed.

Lemma New_keep (newEnv : NewEnv.t) (cfg : Config.t) (e : Executor.t) (err : error)
  (out : list Output) :
  New newEnv cfg = (Some e, err, out) ->
  Executor.instanceCleanupKeep e =
    (if Config.InstanceCleanupKeep cfg =? 0 then 10 else Config.InstanceCleanupKeep cfg).
Proof.
  unfold New. intros H.
  destruct (Config.Store cfg); [|discriminate].
  destruct (NewEnv.os_Hostname newEnv) as [h [m|]]; [discriminate|].
  repeat match type of H with
         | context [let '(_, _) := ?x in _] => destruct x as [? ?]
         end.
  injection H as <- _ _. reflexivity.
Qed.

(** [New] answers an executor as soon as it is given a store and the host
    has a name. *)
Lemma New_total (newEnv : NewEnv.t) (cfg : Config.t) (h : string) :
  Config.Store cfg = Some TheStore ->
  NewEnv.os_Hostname newEnv = (h, None) ->
  exists e out, New newEnv cfg = (Some e, None, out).
Proof.
  intros Hs Hh. unfold New. rewrite Hs, Hh.
  repeat match goal with
         | |- context [let '(_, _) := ?x in _] => destruct x as [? ?]
         end.
  eauto.
Qed.

(** C9. An executor built by [New] from a configuration whose
    [InstanceCleanupKeep] is 0 has [instanceCleanupKeep] 10; built from any
    other configuration it keeps the configured count; and every
    [DeleteOldStoppedInstances] call of [Stop] and of [cleanupLoop] passes
    that field, so the store is never asked to keep 0 instances. *)
Theorem New_InstanceCleanupKeep_zero_is_default
  (newEnv : NewEnv.t) (cfg : Config.t) (e : Executor.t) (err : error) (out : list Output) :
  New newEnv cfg = (Some e, err, out) ->
  (Config.InstanceCleanupKeep cfg = 0 -> Executor.instanceCleanupKeep e = 10)
  /\ (Config.InstanceCleanupKeep cfg <> 0 ->
      Executor.instanceCleanupKeep e = Config.InstanceCleanupKeep cfg)
  /\ (forall ctx sched (w : World.t S),
        Forall (fun keep => keep <> 0 /\ keep = Executor.instanceCleanupKeep e)
          (keepCounts (traceOf (Stop instances e ctx sched w))))
  /\ (forall ctx sched (w : World.t S),
        Forall (fun keep => keep <> 0 /\ keep = Executor.instanceCleanupKeep e)
          (keepCounts (traceOf (cleanupLoop instances env e ctx sched w)))).
Proof.
  intros H. apply New_keep in H.
  assert (Hnz : Executor.instanceCleanupKeep e <> 0).
  { rewrite H. destruct (Z.eqb_spec (Config.InstanceCleanupKeep cfg) 0); lia. }
  split; [|split; [|split]].
  - intros Hz. rewrite H, Hz. reflexivity.
  - intros Hz. rewrite H. destruct (Z.eqb_spec (Config.InstanceCleanupKeep cfg) 0); congruence.
  - intros ctx sched w. eapply Forall_impl; [apply Stop_keepCounts|].
    intros k ->. split; [exact Hnz|reflexivity].
  - intros ctx sched w. eapply Forall_impl; [apply cleanupLoop_keepCounts|].
    intros k ->. split; [exact Hnz|reflexivity].
Qed.

Lemma ctxDone_running (c : Context) (w : World.t S) (b : bool) :
  ctxDone c {| World.store := World.store w; World.clock := World.clock w;
               World.cancelAt := World.cancelAt w; World.running := b;
               World.fresh := World.fresh w |} = ctxDone c w.
Proof. reflexivity. Qed.

(** C10. [Start] on an executor that is already running returns an error
    and touches nothing: no store call, no goroutine, the world unchanged.
    [Start] whose [RegisterInstance] fails returns that error (wrapped),
    leaves [running] false, and its whole trace is the one refused
    [RegisterInstance] call: no loop is started and nothing else is written. *)
Theorem Start_failure_is_atomic (e : Executor.t) (ctx : Context) (w : World.t S) :
  (World.running w = true ->
   Start instances env e ctx w = (Some "executor is already running", w, []))
  /\ (forall m s1,
        World.running w = false ->
        RegisterInstance instances (ctxDone ctx w)
          (instanceRow e (time_Now env (World.clock w)) (time_Now env (World.clock w)))
          (World.store w) = (Some m, s1) ->
        let r := Start instances env e ctx w in
        valueOf r = Some ("failed to register executor instance: " +:+ m)
        /\ World.running (worldOf r) = false
        /\ valueOf (IsRunning (worldOf r)) = false
        /\ World.store (worldOf r) = s1
        /\ goroutines (traceOf r) = []
        /\ traceOf r =
             [EvStore ctx (ctxDone ctx w)
                (CallRegisterInstance
                   (instanceRow e (time_Now env (World.clock w)) (time_Now env (World.clock w))))
                (Some m)]).
Proof.
  split.
  - intros Hr. unfold Start. unfold_go. rewrite Hr. reflexivity.
  - intros m s1 Hr Hreg. unfold Start, IsRunning, now. unfold_go. rewrite Hr.
    unfold_go. rewrite ctxDone_running, Hreg. unfold_go. repeat split; reflexivity.
Qed.

(** C7. When [RegisterInstance] succeeds, [Start] has registered a row with
    status running and the current time as heartbeat, then calls
    [CleanupStaleInstances] with the stale threshold in seconds, in its own
    flow and before it starts any goroutine; the first goroutine it starts is
    the work loop; these two are the only store calls of [Start] (in
    particular it makes no claim); and whatever the reclamation answers,
    [Start] returns nil, a failure being printed as a warning first. *)
Theorem Start_reclaims_before_work_loop (e : Executor.t) (ctx : Context) (w : World.t S)
  (s1 : S) :
  World.running w = false ->
  RegisterInstance instances (ctxDone ctx w)
    (instanceRow e (time_Now env (World.clock w)) (time_Now env (World.clock w)))
    (World.store w) = (None, s1) ->
  let r := Start instances env e ctx w in
  let instance := instanceRow e (time_Now env (World.clock w)) (time_Now env (World.clock w)) in
  let secs := int_of_float64 (time.Seconds (Executor.staleThreshold e)) in
  exists d2,
    valueOf r = None
    /\ World.running (worldOf r) = true
    /\ ExecutorInstance.Status instance = ExecutorStatusRunning
    /\ ExecutorInstance.LastHeartbeat instance = time_Now env (World.clock w)
    /\ storeCalls (beforeFirstGo (traceOf r)) =
         [(ctx, ctxDone ctx w, CallRegisterInstance instance);
          (ctx, d2, CallCleanupStaleInstances secs)]
    /\ storeCalls (traceOf r) = storeCalls (beforeFirstGo (traceOf r))
    /\ head (goroutines (traceOf r)) = Some GoEventLoop
    /\ (forall m,
          In (CallCleanupStaleInstances secs, m) (storeErrors (traceOf r)) ->
          In ("Warning: failed to cleanup stale instances on startup: " +:+ m)
             (stderrOf (beforeFirstGo (traceOf r)))).
Proof.
  intros Hr Hreg. cbv zeta.
  exists (ctxDone ctx (step w s1)).
  focus_on (Start instances env e ctx w).
  unfold Start, now, cleanupOrphanedBranches. unfold_go. rewrite Hr.
  unfold_go. rewrite ctxDone_running, Hreg.
  run; unfold holds; unfold_go;
    cbn [storeCalls beforeFirstGo goroutines head storeErrors stderrOf];
    (repeat split; try reflexivity);
    intros m' Hin;
    first [contradiction | destruct Hin as [Hin|[]]; inversion Hin; subst; left; reflexivity].
Qed.

(** C4. When the store lists a ready issue and then refuses the claim,
    [processNextIssue] returns nil having made those two store calls and
    nothing else: the issue is not executed. A tick of the work loop in which
    this happens prints no processing error, and the loop goes on with the
    rest of its schedule. *)
Theorem processNextIssue_lost_claim_is_not_an_error
  (e : Executor.t) (ctx : Context) (issue : Issue.t) (rest : list Issue.t) (m : string) :
  (forall (w : World.t S) s1 s2,
     GetReadyWork readyWork (ctxDone ctx w) readyFilter (World.store w)
       = ((issue :: rest, None), s1) ->
     ClaimIssue executions (ctxDone ctx (step w s1)) (Issue.ID issue) (Executor.instanceID e) s1
       = (Some m, s2) ->
     processNextIssue agentEvents issues readyWork executions env e ctx w =
       (None, step (step w s1) s2,
        [EvStore ctx (ctxDone ctx w) (CallGetReadyWork readyFilter) None;
         EvStore ctx (ctxDone ctx (step w s1))
           (CallClaimIssue (Issue.ID issue) (Executor.instanceID e)) (Some m)]))
  /\ (forall (w : World.t S) hb s0 s1 s2 sched,
        UpdateHeartbeat instances (ctxDone ctx w) (Executor.instanceID e) (World.store w)
          = (hb, s0) ->
        GetReadyWork readyWork (ctxDone ctx (step w s0)) readyFilter s0
          = ((issue :: rest, None), s1) ->
        ClaimIssue executions (ctxDone ctx (step (step w s0) s1)) (Issue.ID issue)
          (Executor.instanceID e) s1 = (Some m, s2) ->
        let tick := eventLoopTick agentEvents issues readyWork instances executions env e ctx w in
        let loop := eventLoop agentEvents issues readyWork instances executions env e ctx in
        monitorCalls (traceOf tick) = []
        /\ stateUpdates (traceOf tick) = []
        /\ filter (String.prefix "error processing issue") (stderrOf (traceOf tick)) = []
        /\ loop (OnTick :: sched) w =
             (valueOf (loop sched (worldOf tick)), worldOf (loop sched (worldOf tick)),
              traceOf tick ++ traceOf (loop sched (worldOf tick)))).
Proof.
  split.
  - intros w s1 s2 Hready Hclaim. unfold step in Hclaim.
    unfold processNextIssue. fold readyFilter. unfold_go.
    rewrite Hready. unfold_go. rewrite Hclaim. reflexivity.
  - intros w hb s0 s1 s2 sched Hhb Hready Hclaim tick loop.
    unfold step in Hready, Hclaim. cbn [World.store World.clock World.cancelAt
      World.running World.fresh] in Hclaim.
    assert (Htick : exists w1 t1,
               tick = (tt, w1, t1) /\ monitorCalls t1 = [] /\ stateUpdates t1 = []
               /\ filter (String.prefix "error processing issue") (stderrOf t1) = []).
    { subst tick. unfold eventLoopTick, processNextIssue. fold readyFilter. unfold_go.
      rewrite Hhb. unfold_go.
      destruct hb as [mh|]; unfold_go; rewrite Hready; unfold_go; rewrite Hclaim; unfold_go;
        destruct (Executor.enableHealthMonitoring e && Executor.healthRegistry e); unfold_go;
        repeat match goal with
               | |- context [checkHealthMonitors ?a ?b ?c] =>
                   destruct (checkHealthMonitors a b c) as [[?|] ?]
               end; unfold_go;
        do 2 eexists; (split; [reflexivity|]); repeat split; reflexivity. }
    destruct Htick as (w1 & t1 & Ht & Hm & Hs & Hp).
    subst loop. cbn [eventLoop]. unfold bind at 1. fold tick. rewrite Ht.
    unfold traceOf, worldOf, valueOf. cbn [fst snd].
    repeat split; try assumption.
    destruct (eventLoop agentEvents issues readyWork instances executions env e ctx sched w1)
      as [[b w2] t2]. reflexivity.
Qed.

Lemma ctxDone_never (c : Context) (w : World.t S) :
  World.cancelAt w = None -> ctxDone c w = false.
Proof. intros H. unfold ctxDone. rewrite H. now destruct c. Qed.


Lemma Quiet_logEvent (e : Executor.t) ctx eventType severity issueID message data :
  Quiet (logEvent agentEvents env e ctx eventType severity issueID message data).
Proof. unfold logEvent. quiet. Qed.

Local Hint Resolve Quiet_logEvent : quiet.

Lemma Quiet_releaseIssueWithError (e : Executor.t) ctx issueID errMsg :
  Quiet (releaseIssueWithError issues executions e ctx issueID errMsg).
Proof. unfold releaseIssueWithError. quiet. Qed.

Local Hint Resolve Quiet_releaseIssueWithError : quiet.

Lemma Quiet_cancelExit (e : Executor.t) ctx issueID errMsg :
  Quiet (cancelExit issues executions e ctx issueID errMsg).
Proof. unfold cancelExit. quiet. Qed.

Local Hint Resolve Quiet_cancelExit : quiet.

Lemma Quiet_failExit (e : Executor.t) ctx issueID eventType logMsg data releaseMsg retMsg :
  Quiet (failExit agentEvents issues executions env e ctx issueID eventType logMsg data
           releaseMsg retMsg).
Proof. unfold failExit. quiet. Qed.

Local Hint Resolve Quiet_failExit : quiet.

Lemma Quiet_sandboxPhase (e : Executor.t) ctx issue :
  Quiet (sandboxPhase env e ctx issue).
Proof. unfold sandboxPhase. quiet. Qed.

Lemma Quiet_deferredSandboxCleanup ctx sb :
  Quiet (deferredSandboxCleanup env ctx sb).
Proof. unfold deferredSandboxCleanup. quiet. Qed.

Lemma Quiet_agentPhase (e : Executor.t) ctx issue sb workingDir :
  Quiet (agentPhase agentEvents issues executions env e ctx issue sb workingDir).
Proof. unfold agentPhase. quiet. Qed.

Local Hint Resolve Quiet_sandboxPhase Quiet_deferredSandboxCleanup Quiet_agentPhase : quiet.

Lemma ctxDone_live (c : Context) (w : World.t S) (s : S) (n : nat) (ca : option nat)
  (b : bool) (f : nat) :
  ca = None ->
  ctxDone c {| World.store := s; World.clock := n; World.cancelAt := ca;
               World.running := b; World.fresh := f |} = false.
Proof. intros ->. now destruct c. Qed.

(** Close a branch in which a context that is never cancelled was found
    cancelled. *)
Ltac never_cancelled :=
  exfalso;
  match goal with
  | H : ctxDone ?c ?w0 = true |- _ =>
      first [ rewrite ctxDone_never in H by congruence
            | rewrite ctxDone_live in H by congruence ];
      discriminate H
  end.

Ltac read_updates :=
  repeat first [ progress cbn [stateUpdates app] | rewrite stateUpdates_app ];
  repeat match goal with
         | H : stateUpdates ?t = [] |- _ => rewrite H
         end;
  cbn [app].

Lemma assessPhase_updates (e : Executor.t) (ctx : Context) (issue : Issue.t) (w : World.t S) :
  let r := assessPhase agentEvents issues executions env e ctx issue w in
  World.cancelAt (worldOf r) = World.cancelAt w
  /\ stateUpdates (traceOf r) = [(Issue.ID issue, ExecutionStateAssessing)]
  /\ (World.cancelAt w = None -> valueOf r = None).
Proof.
  cbv zeta. focus_on (assessPhase agentEvents issues executions env e ctx issue w).
  unfold assessPhase. run_quiet; unfold holds; unfold_go;
    (split; [cbn; congruence|]); (split; [read_updates; reflexivity|]);
    intros Hn; try reflexivity; never_cancelled.
Qed.

Lemma spawnPhase_updates (e : Executor.t) (ctx : Context) (issue : Issue.t)
  (sb : option Sandbox.t) (workingDir : string) (w : World.t S) :
  let r := spawnPhase agentEvents issues executions env e ctx issue sb workingDir w in
  World.cancelAt (worldOf r) = World.cancelAt w
  /\ (stateUpdates (traceOf r) = []
      \/ stateUpdates (traceOf r) = [(Issue.ID issue, ExecutionStateExecuting)])
  /\ (World.cancelAt w = None ->
      stateUpdates (traceOf r) = [(Issue.ID issue, ExecutionStateExecuting)]).
Proof.
  cbv zeta. focus_on (spawnPhase agentEvents issues executions env e ctx issue sb workingDir w).
  unfold spawnPhase. run_quiet; unfold holds; unfold_go;
    (split; [cbn; congruence|]);
    (split; [read_updates; auto|]);
    intros Hn; read_updates; try reflexivity; never_cancelled.
Qed.

Lemma executeIssue_updates (e : Executor.t) (ctx : Context) (issue : Issue.t) (w : World.t S) :
  let tr := traceOf (executeIssue agentEvents issues executions env e ctx issue w) in
  (stateUpdates tr = [(Issue.ID issue, ExecutionStateAssessing)]
   \/ stateUpdates tr = [(Issue.ID issue, ExecutionStateAssessing);
                         (Issue.ID issue, ExecutionStateExecuting)])
  /\ (World.cancelAt w = None ->
      stateUpdates tr = [(Issue.ID issue, ExecutionStateAssessing);
                         (Issue.ID issue, ExecutionStateExecuting)]).
Proof.
  cbv zeta. focus_on (executeIssue agentEvents issues executions env e ctx issue w).
  unfold executeIssue. unfold_go. step_quiet. unfold_go.
  match goal with
  | |- context [assessPhase ?a ?b ?c ?d ?e' ?f ?g ?w0] =>
      pose proof (assessPhase_updates e' f g w0) as (Hca & Hua & Hna);
      destruct (assessPhase a b c d e' f g w0) as [[ra wa] ta]
  end.
  unfold worldOf, traceOf, valueOf in Hca, Hua, Hna. cbn [fst snd] in Hca, Hua, Hna.
  destruct ra as [ret_|].
  - unfold holds. unfold_go. split.
    + left. read_updates. rewrite Hua. reflexivity.
    + intros Hn. assert (Some ret_ = None) by (apply Hna; congruence). discriminate.
  - unfold_go. step_quiet. unfold_go.
    match goal with
    | p : (option Sandbox.t * string)%type |- _ => destruct p as [sb workingDir]
    end.
    unfold_go.
    match goal with
    | |- context [spawnPhase ?a ?b ?c ?d ?e' ?f ?g ?sb' ?wd ?w0] =>
        pose proof (spawnPhase_updates e' f g sb' wd w0) as (Hcs & Hus & Hns);
        destruct (spawnPhase a b c d e' f g sb' wd w0) as [[rs ws] ts]
    end.
    unfold worldOf, traceOf, valueOf in Hcs, Hus, Hns. cbn [fst snd] in Hcs, Hus, Hns.
    unfold_go. step_quiet. unfold_go. unfold holds. unfold_go. split.
    + destruct Hus as [Hus|Hus]; [left|right]; read_updates; rewrite Hua; try rewrite Hus;
        reflexivity.
    + intros Hn. read_updates. rewrite Hua, Hns by congruence. reflexivity.
Qed.

(** C5. Whatever the configuration, the store and the collaborators, the
    first execution state [executeIssue] asks the store to record for the
    issue is [assessing], and [executing] is only ever asked for after it:
    the state updates of an execution are [assessing] alone (when the run is
    cut short by a cancellation) or [assessing] then [executing]. With AI
    supervision disabled the same holds, and when the context is never
    cancelled both updates are made. *)
Theorem executeIssue_assessing_before_executing
  (e : Executor.t) (ctx : Context) (issue : Issue.t) (w : World.t S) :
  let tr := traceOf (executeIssue agentEvents issues executions env e ctx issue w) in
  head (stateUpdates tr) = Some (Issue.ID issue, ExecutionStateAssessing)
  /\ (stateUpdates tr = [(Issue.ID issue, ExecutionStateAssessing)]
      \/ stateUpdates tr = [(Issue.ID issue, ExecutionStateAssessing);
                            (Issue.ID issue, ExecutionStateExecuting)])
  /\ (Executor.enableAISupervision e = false ->
      head (stateUpdates tr) = Some (Issue.ID issue, ExecutionStateAssessing))
  /\ (World.cancelAt w = None ->
      stateUpdates tr = [(Issue.ID issue, ExecutionStateAssessing);
                         (Issue.ID issue, ExecutionStateExecuting)]).
Proof.
  intros tr. destruct (executeIssue_updates e ctx issue w) as [Hu Hn]. fold tr in Hu, Hn.
  assert (Hh : head (stateUpdates tr) = Some (Issue.ID issue, ExecutionStateAssessing))
    by (destruct Hu as [-> | ->]; reflexivity).
  repeat split; auto.
Qed.

(** The failure exit talks to the store with the context it is given, the
    cancellation exit with [context.Background()]. *)
Lemma failExit_contexts (e : Executor.t) ctx issueID eventType logMsg data releaseMsg retMsg
  (w : World.t S) :
  Forall (fun c => c = ctx)
    (contextsOf (traceOf (failExit agentEvents issues executions env e ctx issueID eventType
                            logMsg data releaseMsg retMsg w))).
Proof.
  focus_on (failExit agentEvents issues executions env e ctx issueID eventType
              logMsg data releaseMsg retMsg w).
  unfold failExit, logEvent, releaseIssueWithError, newUUID, now.
  run; unfold holds, contextsOf; unfold_go; cbn [storeCalls map fst]; repeat constructor.
Qed.

Lemma cancelExit_contexts (e : Executor.t) ctx issueID errMsg (w : World.t S) :
  Forall (fun c => c = CtxBackground)
    (contextsOf (traceOf (cancelExit issues executions e ctx issueID errMsg w))).
Proof.
  focus_on (cancelExit issues executions e ctx issueID errMsg w).
  unfold cancelExit, releaseIssueWithError.
  run; unfold holds, contextsOf; unfold_go; cbn [storeCalls map fst]; repeat constructor.
Qed.

End RuntimeProperties.

Lemma New_InstanceCleanupKeep_zero_is_default_witness :
  exists out,
    New someNewEnv (withStore 0) = (Some (someExecutor 0), None, out)
    /\ Executor.instanceCleanupKeep (someExecutor 0) = 10
    /\ Forall (fun keep => keep <> 0 /\ keep = 10)
         (keepCounts (traceOf (Stop (fixedInstances None (0, None) (2, None)) (someExecutor 0)
                                 CtxBackground
                                 [OnCleanupDoneCh; OnDoneCh; OnEventCleanupDoneCh]
                                 (World.started tt None)))).
Proof.
  eexists. split; [reflexivity|].
  pose proof (New_InstanceCleanupKeep_zero_is_default (S := unit)
                (fixedInstances None (0, None) (2, None)) (calmEnv (inl someResult))
                someNewEnv (withStore 0) (someExecutor 0) None _ eq_refl) as (H0 & _ & HStop & _).
  split; [apply H0; reflexivity | apply HStop].
Defined.

Lemma Start_failure_is_atomic_witness :
  let refusing : InstanceStore unit := fixedInstances (Some "database is locked") (0, None) (0, None) in
  let r := Start refusing (calmEnv (inl someResult)) (someExecutor 10) CtxAmbient (World.init tt None) in
  valueOf r = Some "failed to register executor instance: database is locked"
  /\ World.running (worldOf r) = false
  /\ goroutines (traceOf r) = [].
Proof.
  pose proof (Start_failure_is_atomic (S := unit)
                (fixedInstances (Some "database is locked") (0, None) (0, None))
                (calmEnv (inl someResult)) (someExecutor 10) CtxAmbient (World.init tt None))
    as [_ H].
  specialize (H "database is locked" tt eq_refl eq_refl).
  cbv zeta in *. destruct H as (H1 & H2 & _ & _ & H5 & _).
  split; [exact H1 | split; [exact H2 | exact H5]].
Defined.

Lemma Start_reclaims_before_work_loop_witness :
  let failing : InstanceStore unit := fixedInstances None (0, Some "disk I/O error") (0, None) in
  let r := Start failing (calmEnv (inl someResult)) (someExecutor 10) CtxAmbient (World.init tt None) in
  valueOf r = None
  /\ head (goroutines (traceOf r)) = Some GoEventLoop
  /\ stderrOf (beforeFirstGo (traceOf r)) =
       ["Warning: failed to cleanup stale instances on startup: disk I/O error"].
Proof.
  pose proof (Start_reclaims_before_work_loop (S := unit)
                (fixedInstances None (0, Some "disk I/O error") (0, None))
                (calmEnv (inl someResult)) (someExecutor 10) CtxAmbient (World.init tt None)
                tt eq_refl eq_refl) as H.
  cbv zeta in *. destruct H as (d2 & H1 & _ & _ & _ & _ & _ & H7 & _).
  split; [exact H1 | split; [exact H7 | reflexivity]].
Defined.

(** ** The release on the database *)














Lemma processNextIssue_lost_claim_is_not_an_error_witness :
  let lost : ExecutionStore unit := fixedExecutions (Some "issue vc-7 already claimed") in
  processNextIssue fixedAgentEvents fixedIssues (fixedReadyWork [vc7]) lost
    (calmEnv (inl someResult)) (someExecutor 10) CtxAmbient (World.init tt None)
  = (None, step (step (World.init tt None) tt) tt,
     [EvStore CtxAmbient false (CallGetReadyWork readyFilter) None;
      EvStore CtxAmbient false (CallClaimIssue "vc-7" "exec-1")
        (Some "issue vc-7 already claimed")]).
Proof.
  exact (proj1 (processNextIssue_lost_claim_is_not_an_error (S := unit)
                  fixedAgentEvents fixedIssues (fixedReadyWork [vc7])
                  (fixedInstances None (0, None) (0, None))
                  (fixedExecutions (Some "issue vc-7 already claimed"))
                  (calmEnv (inl someResult)) (someExecutor 10) CtxAmbient vc7 []
                  "issue vc-7 already claimed")
           (World.init tt None) tt tt eq_refl eq_refl).
Defined.

Lemma executeIssue_assessing_before_executing_witness :
  stateUpdates (traceOf (executeOnDatabase (inl someResult) None))
  = [("vc-7", ExecutionStateAssessing); ("vc-7", ExecutionStateExecuting)].
Proof.
  exact (proj2 (proj2 (proj2 (executeIssue_assessing_before_executing
                                dbAgentEvents dbIssues dbExecutions (calmEnv (inl someResult))
                                (someExecutor 10) CtxAmbient vc7
                                (World.init (claimedIssue []) None))))
           eq_refl).
Defined.

(** C1. The failure exit of [executeIssue] (taken after a failed
    [GatherContext], [NewPromptBuilder], [BuildPrompt], [SpawnAgent], [Wait],
    [NewResultsProcessor] or [ProcessAgentResult]) makes its store calls with
    the ambient context, the cancellation exit with [context.Background()].
    A run on the database in which the context is cancelled while the
    executor waits for the agent: [Wait] fails, the release is attempted with
    the ambient context, which is cancelled, the store refuses both of its
    calls, and the issue stays in progress and claimed by the executor. The
    same run cancelled before the agent is spawned releases with
    [context.Background()], and the issue is open and unclaimed again. *)
Theorem executeIssue_release_lost_when_cancelled_during_wait :
  let r := executeOnDatabase (inr "signal: killed") (Some 7%nat) in
  let r' := executeOnDatabase (inr "signal: killed") (Some 2%nat) in
  (forall (S : Type) (agentEvents : AgentEventStore S) (issues : IssueStore S)
     (executions : ExecutionStore S) (env : Collaborators S) (e : Executor.t) (ctx : Context)
     (issueID : string) (eventType : EventType) (logMsg : string) (data : list (string * Value))
     (releaseMsg retMsg : string) (w : World.t S),
     Forall (fun c => c = ctx)
       (contextsOf (traceOf (failExit agentEvents issues executions env e ctx issueID eventType
                               logMsg data releaseMsg retMsg w))))
  /\ (forall (S : Type) (issues : IssueStore S) (executions : ExecutionStore S) (e : Executor.t)
        (ctx : Context) (issueID errMsg : string) (w : World.t S),
        Forall (fun c => c = CtxBackground)
          (contextsOf (traceOf (cancelExit issues executions e ctx issueID errMsg w))))
  /\ valueOf r = Some "agent execution failed: signal: killed"
  /\ List.filter (fun c => negb (bool_decide (fst (fst c) = CtxBackground)) && snd (fst c))
       (storeCalls (traceOf r))
     = [(CtxAmbient, true, CallGetExecutionHistory "vc-7");
        (CtxAmbient, true,
         CallReleaseIssueAndReopen "vc-7" "exec-1" "Agent execution failed: signal: killed")]
  /\ DB.issues (World.store (worldOf r)) !! "vc-7" = Some StatusInProgress
  /\ holder (World.store (worldOf r)) "vc-7" = Some "exec-1"
  /\ valueOf r' = Some context_Canceled
  /\ In (CtxBackground, false,
         CallReleaseIssueAndReopen "vc-7" "exec-1" "Execution canceled before spawning agent")
       (storeCalls (traceOf r'))
  /\ DB.issues (World.store (worldOf r')) !! "vc-7" = Some StatusOpen
  /\ holder (World.store (worldOf r')) "vc-7" = None.
Proof.
  split; [intros; apply failExit_contexts|].
  split; [intros; apply cancelExit_contexts|].
  vm_compute. repeat split; try reflexivity. right. right. right. left. reflexivity.
Qed.

(** ** Agent events without an issue *)

Lemma json_Marshal_ok (m : gmap string Value) :
  map_Forall (fun _ v => marshalable v = true) m -> json_Marshal m = inl (JSONOf m).
Proof.
  intros H. unfold json_Marshal.
  assert (Hall : Forall (fun kv : string * Value => unsupportedText (snd kv) = None)
                   (entriesInOrder m)).
  { apply List.Forall_forall. intros [k v] Hin. apply list_elem_of_In in Hin.
    unfold entriesInOrder in Hin. rewrite merge_sort_Permutation in Hin.
    apply elem_of_map_to_list in Hin. specialize (H k v Hin). cbn beta in H. cbn [snd].
    destruct v; try reflexivity. unfold marshalable in H. unfold unsupportedText.
    destruct (PrimFloat.is_nan f), (PrimFloat.is_infinity f); try discriminate H; reflexivity. }
  induction Hall as [|kv l Hkv _ IH]; [reflexivity|].
  cbn [omap list_omap]. rewrite Hkv. exact IH.
Qed.

Lemma cleanup_data_marshalable (a b c d ms : Z) (vac : bool) (rem : Z) (ok : bool) (msg : string) :
  let data0 := summaryData a b c d ms vac rem ok in
  map_Forall (fun _ v => marshalable v = true)
    (if decide (msg = "") then data0 else <[ "error" := VStr msg ]> data0).
Proof.
  cbv zeta. unfold summaryData. cbn [list_to_map foldr fst snd uncurry].
  destruct (decide (msg = ""));
    repeat (apply map_Forall_insert_2; [reflexivity|]); apply map_Forall_empty.
Qed.

Lemma ctxDone_eq {S} (c : Context) (w1 w2 : World.t S) :
  World.clock w1 = World.clock w2 -> World.cancelAt w1 = World.cancelAt w2 ->
  ctxDone c w1 = ctxDone c w2.
Proof. intros H1 H2. unfold ctxDone. now rewrite H1, H2. Qed.

Lemma nullIfEmpty_empty : nullIfEmpty "" = None.
Proof. reflexivity. Qed.


Lemma StoreAgentEvent_without_issue (cancelled : bool) (event : AgentEvent.t) (db : DB.t) :
  AgentEvent.IssueID event = "" ->
  fst (VCStorage_StoreAgentEvent cancelled event db) <> fkError
  /\ (cancelled = false ->
      forall dataJSON,
        match AgentEvent.Data event with
        | Some m => json_Marshal m
        | None => inl EmptyText
        end = inl dataJSON ->
        VCStorage_StoreAgentEvent cancelled event db =
          (None,
           {| DB.issues := DB.issues db;
              DB.vc_agent_events := DB.vc_agent_events db ++ [agentEventRow event dataJSON];
              DB.vc_issue_execution_state := DB.vc_issue_execution_state db;
              DB.vc_execution_history := DB.vc_execution_history db;
              DB.comments := DB.comments db |})).
Proof.
  intros Hid. unfold VCStorage_StoreAgentEvent, insertAgentEvent, fkError.
  split.
  - destruct (match AgentEvent.Data event with Some m => json_Marshal m | None => inl EmptyText end)
      as [dataJSON|m]; [|cbn; intros H; inversion H].
    destruct cancelled; [cbn; discriminate|].
    unfold agentEventRow. cbn [AgentEventRow.issue_id]. rewrite Hid. cbn. discriminate.
  - intros -> dataJSON ->. unfold agentEventRow. cbn [AgentEventRow.issue_id]. rewrite Hid.
    reflexivity.
Qed.

(** The summary event of a cleanup cycle goes to the store with the issue id
    [SYSTEM]: it is stored when an issue of that id exists and refused by the
    foreign key otherwise. *)
Lemma logCleanupEvent_on_database (env : Collaborators DB.t) (e : Executor.t) (ctx : Context)
  (a b c d ms : Z) (vac : bool) (rem : Z) (ok : bool) (msg : string) (w : World.t DB.t) :
  ctxDone ctx w = false ->
  let r := logCleanupEvent dbAgentEvents env e ctx a b c d ms vac rem ok msg w in
  (is_Some (DB.issues (World.store w) !! "SYSTEM") ->
   exists row,
     DB.vc_agent_events (World.store (worldOf r)) = DB.vc_agent_events (World.store w) ++ [row]
     /\ AgentEventRow.issue_id row = Some "SYSTEM"
     /\ AgentEventRow.type_ row = EventTypeEventCleanupCompleted
     /\ storeErrors (traceOf r) = [])
  /\ (DB.issues (World.store w) !! "SYSTEM" = None ->
      World.store (worldOf r) = World.store w
      /\ map snd (storeErrors (traceOf r)) =
           ["failed to store agent event: FOREIGN KEY constraint failed"]).
Proof.
  intros Hlive. cbv zeta.
  focus_on (logCleanupEvent dbAgentEvents env e ctx a b c d ms vac rem ok msg w).
  unfold logCleanupEvent, newUUID, now. unfold_go. rewrite Hlive. unfold_go.
  cbn [StoreAgentEvent dbAgentEvents]. unfold VCStorage_StoreAgentEvent.
  cbn [AgentEvent.Data].
  rewrite json_Marshal_ok by apply cleanup_data_marshalable.
  unfold insertAgentEvent.
  rewrite (ctxDone_eq ctx _ w) by reflexivity. rewrite Hlive.
  unfold agentEventRow at 1. cbn [AgentEventRow.issue_id AgentEvent.IssueID].
  unfold fk_issue_ok. change (nullIfEmpty "SYSTEM") with (Some "SYSTEM").
  destruct (DB.issues (World.store w) !! "SYSTEM") as [st|] eqn:Hsys.
  - rewrite bool_decide_eq_true_2 by eauto. unfold_go. unfold holds. unfold_go. split.
    + intros _. eexists. repeat split; reflexivity.
    + intros Hn. discriminate Hn.
  - rewrite bool_decide_eq_false_2 by (rewrite Hsys; apply is_Some_None). unfold_go.
    unfold holds. unfold_go. split.
    + intros Hs. destruct (is_Some_None Hs).
    + intros _. split; reflexivity.
Qed.

(** C8, as amended. [StoreAgentEvent] stores an event whose [IssueID] is
    empty with a NULL [issue_id] (and an empty [ExecutorID] or [AgentID] as
    NULL), so whatever the issues table holds the foreign key is satisfied:
    the call never fails on it, and with a live context and marshallable data
    the row is inserted. The summary event of the event cleanup is not such
    an event: it carries the issue id [SYSTEM], and it is stored when an issue
    row of that id exists and refused otherwise. *)
Theorem StoreAgentEvent_null_issue_id_for_system_events :
  (forall (cancelled : bool) (event : AgentEvent.t) (db : DB.t) (dataJSON : JSONText),
     AgentEvent.IssueID event = "" ->
     AgentEventRow.issue_id (agentEventRow event dataJSON) = None
     /\ fk_issue_ok (DB.issues db) (AgentEventRow.issue_id (agentEventRow event dataJSON)) = true
     /\ (AgentEvent.ExecutorID event = "" ->
         AgentEventRow.executor_id (agentEventRow event dataJSON) = None)
     /\ (AgentEvent.AgentID event = "" ->
         AgentEventRow.agent_id (agentEventRow event dataJSON) = None)
     /\ fst (VCStorage_StoreAgentEvent cancelled event db) <> fkError
     /\ (cancelled = false ->
         match AgentEvent.Data event with
         | Some m => json_Marshal m
         | None => inl EmptyText
         end = inl dataJSON ->
         VCStorage_StoreAgentEvent cancelled event db =
           (None,
            {| DB.issues := DB.issues db;
               DB.vc_agent_events := DB.vc_agent_events db ++ [agentEventRow event dataJSON];
               DB.vc_issue_execution_state := DB.vc_issue_execution_state db;
               DB.vc_execution_history := DB.vc_execution_history db;
               DB.comments := DB.comments db |})))
  /\ (forall (env : Collaborators DB.t) (e : Executor.t) (ctx : Context)
        (a b c d ms : Z) (vac : bool) (rem : Z) (ok : bool) (msg : string) (w : World.t DB.t),
        ctxDone ctx w = false ->
        let r := logCleanupEvent dbAgentEvents env e ctx a b c d ms vac rem ok msg w in
        (is_Some (DB.issues (World.store w) !! "SYSTEM") ->
         exists row,
           DB.vc_agent_events (World.store (worldOf r))
             = DB.vc_agent_events (World.store w) ++ [row]
           /\ AgentEventRow.issue_id row = Some "SYSTEM"
           /\ AgentEventRow.type_ row = EventTypeEventCleanupCompleted
           /\ storeErrors (traceOf r) = [])
        /\ (DB.issues (World.store w) !! "SYSTEM" = None ->
            World.store (worldOf r) = World.store w
            /\ map snd (storeErrors (traceOf r)) =
                 ["failed to store agent event: FOREIGN KEY constraint failed"])).
Proof.
  split.
  - intros cancelled event db dataJSON Hid.
    destruct (StoreAgentEvent_without_issue cancelled event db Hid) as [Hfk Hok].
    unfold agentEventRow. cbn [AgentEventRow.issue_id AgentEventRow.executor_id
                               AgentEventRow.agent_id].
    rewrite Hid. repeat split; try reflexivity; try exact Hfk.
    + intros ->. reflexivity.
    + intros ->. reflexivity.
    + intros Hc Hm. rewrite (Hok Hc dataJSON Hm). unfold agentEventRow. rewrite Hid.
      reflexivity.
  - intros env e ctx a b c d ms vac rem ok msg w Hlive.
    exact (logCleanupEvent_on_database env e ctx a b c d ms vac rem ok msg w Hlive).
Qed.


Lemma StoreAgentEvent_null_issue_id_for_system_events_witness :
  VCStorage_StoreAgentEvent false systemEvent DB.empty =
    (None,
     {| DB.issues := ∅;
        DB.vc_agent_events := [agentEventRow systemEvent EmptyText];
        DB.vc_issue_execution_state := ∅;
        DB.vc_execution_history := [];
        DB.comments := [] |})
  /\ AgentEventRow.issue_id (agentEventRow systemEvent EmptyText) = None.
Proof.
  destruct StoreAgentEvent_null_issue_id_for_system_events as [H _].
  destruct (H false systemEvent DB.empty EmptyText eq_refl) as (Hnull & _ & _ & _ & _ & Hins).
  split; [exact (Hins eq_refl eq_refl) | exact Hnull].
Defined.

(** C8, the claim as stated fails: on a database without issues the summary
    event of the event cleanup is refused by the foreign key and no row is
    stored. *)
Lemma cleanup_summary_event_needs_an_issue_row :
  let r := logCleanupEvent dbAgentEvents (calmEnv (inl someResult)) (someExecutor 10)
             CtxBackground 12 10 2 0 35 false 488 true "" (World.init DB.empty None) in
  DB.vc_agent_events (World.store (worldOf r)) = []
  /\ map snd (storeErrors (traceOf r)) =
       ["failed to store agent event: FOREIGN KEY constraint failed"]
  /\ stderrOf (traceOf r) =
       ["warning: failed to store cleanup event: failed to store agent event: FOREIGN KEY constraint failed"].
Proof. vm_compute. repeat split; reflexivity. Qed.

(** ** The event-cleanup cycle *)

(** Settle a comparison of an error text with the empty string. *)
Ltac decide_text :=
  match goal with
  | |- context [decide (?a = ?b)] =>
      first [ destruct (decide (a = b)) as [_|Hne]; [|exfalso; exact (Hne eq_refl)]
            | destruct (decide (a = b)) as [Heq|_]; [exfalso; cbn in Heq; discriminate Heq|] ]
  end.

Section CleanupProperties.

Context {S : Type}.
Variable agentEvents : AgentEventStore S.
Variable eventCleanup : EventCleanupStore S.
Variable env : Collaborators S.

Lemma ctxDone_later (c : Context) (w : World.t S) (s : S) (n : nat) (b : bool) (f : nat) :
  ctxDone c w = true -> (World.clock w <= n)%nat ->
  ctxDone c {| World.store := s; World.clock := n; World.cancelAt := World.cancelAt w;
               World.running := b; World.fresh := f |} = true.
Proof.
  unfold ctxDone. cbn. destruct c; try discriminate;
    (destruct (World.cancelAt w) as [d|]; [|discriminate]);
    intros H Hn; apply Nat.leb_le in H; apply Nat.leb_le; lia.
Qed.

Lemma ctxDone_literal (c : Context) (w : World.t S) (s : S) (n : nat) (b : bool) (f : nat) :
  World.cancelAt w = None ->
  ctxDone c {| World.store := s; World.clock := n; World.cancelAt := World.cancelAt w;
               World.running := b; World.fresh := f |} = false.
Proof. intros H. apply ctxDone_never. exact H. Qed.

(** The deletion calls are made in the order of the plan, each only after
    the one before it succeeded. *)
Lemma runEventCleanup_order (e : Executor.t) (ctx : Context) (cfg : EventRetentionConfig.t)
  (w : World.t S) :
  exists n, cleanupSteps (traceOf (runEventCleanup agentEvents eventCleanup env e ctx cfg w))
            = take n (cleanupPlan cfg).
Proof.
  focus_on (runEventCleanup agentEvents eventCleanup env e ctx cfg w).
  unfold runEventCleanup, logCleanupEvent, sinceMs, now, newUUID, cleanupPlan.
  run; unfold holds; unfold_go; cbn [cleanupSteps];
    first [ exists 1%nat; reflexivity | exists 2%nat; reflexivity | exists 3%nat; reflexivity ].
Qed.

Lemma summaryData_no_error (total a b c ms : Z) (vac : bool) (rem : Z) (ok : bool) :
  summaryData total a b c ms vac rem ok !! "error" = None.
Proof. vm_compute. reflexivity. Qed.

Ltac run_live H :=
  unfold_go;
  repeat (first [ rewrite ctxDone_literal by exact H
                | rewrite ctxDone_never by exact H
                | decide_text
                | answer ]; unfold_go).

(** With a live context every cycle hands one summary event to the store. *)
Lemma runEventCleanup_summary (e : Executor.t) (ctx : Context) (cfg : EventRetentionConfig.t)
  (w : World.t S) :
  World.cancelAt w = None ->
  let r := runEventCleanup agentEvents eventCleanup env e ctx cfg w in
  exists event total a b c ms vacuumRan remaining data,
    storedEvents (traceOf r) = [event]
    /\ AgentEvent.Type_ event = EventTypeEventCleanupCompleted
    /\ AgentEvent.Data event = Some data
    /\ summaryData total a b c ms vacuumRan remaining (isNil (valueOf r)) ⊆ data.
Proof.
  intros Hlive. cbv zeta.
  focus_on (runEventCleanup agentEvents eventCleanup env e ctx cfg w).
  unfold runEventCleanup, logCleanupEvent, sinceMs, now, newUUID.
  run_live Hlive; unfold holds; unfold_go; cbn [storedEvents isNil];
    do 9 eexists; (split; [reflexivity|]); (split; [reflexivity|]);
    cbn [AgentEvent.Data]; (split; [reflexivity|]);
    first [ reflexivity | apply insert_subseteq, summaryData_no_error ].
Qed.

(** With a context that is already cancelled a cycle stores no event. *)
Lemma runEventCleanup_cancelled (e : Executor.t) (ctx : Context) (cfg : EventRetentionConfig.t)
  (w : World.t S) :
  ctxDone ctx w = true ->
  storedEvents (traceOf (runEventCleanup agentEvents eventCleanup env e ctx cfg w)) = [].
Proof.
  intros Hdone.
  focus_on (runEventCleanup agentEvents eventCleanup env e ctx cfg w).
  unfold runEventCleanup, logCleanupEvent, sinceMs, now, newUUID.
  unfold_go;
    repeat (first [ rewrite (ctxDone_later ctx w) by (first [exact Hdone | cbn; lia])
                  | decide_text
                  | answer ]; unfold_go);
    unfold holds; unfold_go; reflexivity.
Qed.

End CleanupProperties.

Lemma ctxDone_at {S} (c : Context) (w : World.t S) (s : S) (n k : nat) (b : bool) (f : nat) :
  n = (k + World.clock w)%nat ->
  ctxDone c {| World.store := s; World.clock := n; World.cancelAt := World.cancelAt w;
               World.running := b; World.fresh := f |} = doneAfter c w k.
Proof. intros ->. reflexivity. Qed.

Lemma doneAfter_0 {S} (c : Context) (w : World.t S) : doneAfter c w 0 = ctxDone c w.
Proof. reflexivity. Qed.

Ltac calls_since n w :=
  lazymatch n with
  | World.clock w => constr:(O)
  | Datatypes.S ?m => let k := calls_since m w in constr:(Datatypes.S k)
  end.

(** Name the state of the context at each call by the number of calls made
    before it. *)
Ltac name_flags :=
  repeat match goal with
    | |- context [ctxDone ?c {| World.store := ?s; World.clock := ?n;
                                World.cancelAt := World.cancelAt ?w;
                                World.running := ?b; World.fresh := ?f |}] =>
        let k := calls_since n w in
        rewrite (ctxDone_at c w s n k b f eq_refl)
    end.

Ltac run_flags :=
  unfold_go; name_flags;
  repeat (first [decide_text | answer]; unfold_go; name_flags).

(** C6, as amended. A cleanup cycle makes its deletion calls in the order
    age, per-issue limit, global limit (threshold [int(float64(G) * 0.95)]),
    each with the configured batch size, and stops at the first that fails:
    it then returns that error, wrapped, and reports the counts of the steps
    before it, no vacuum, no remaining count and the error. When the three
    succeed it asks for [VacuumDatabase] if and only if [CleanupVacuum] is
    set and the total deleted is positive, then for [GetEventCounts], and
    returns nil; it reports the total, the three counts, whether a vacuum
    was asked for and succeeded, and the remaining count the store answered
    (0 when it answered an error or nothing). The report is one summary
    event, handed to the store by the last call of the cycle, with the
    milliseconds elapsed since the cycle began; it is left out exactly when
    the context is done at that point. In particular a cycle whose context
    is never cancelled hands exactly one summary event to the store, and one
    whose context is already cancelled hands none. *)
Theorem runEventCleanup_cycle
  (S : Type) (agentEvents : AgentEventStore S) (eventCleanup : EventCleanupStore S)
  (env : Collaborators S) (e : Executor.t) (ctx : Context) (cfg : EventRetentionConfig.t)
  (w : World.t S) :
  let r := runEventCleanup agentEvents eventCleanup env e ctx cfg w in
  let batch := EventRetentionConfig.CleanupBatchSize cfg in
  let threshold := triggerThresholdOf (EventRetentionConfig.GlobalLimitEvents cfg) in
  let byAge :=
    CallCleanupEventsByAge (EventRetentionConfig.RetentionDays cfg)
      (EventRetentionConfig.RetentionCriticalDays cfg) batch in
  let byIssue :=
    CallCleanupEventsByIssueLimit (EventRetentionConfig.PerIssueLimitEvents cfg) batch in
  let byGlobal := CallCleanupEventsByGlobalLimit threshold batch in
  let elapsed (k : nat) :=
    time.Milliseconds (time_Now env (k + World.clock w)%nat - time_Now env (World.clock w)) in
  let reported (k : nat) (failure : error) (total a b c : Z) (vacuumRan : bool)
        (remaining : Z) (calls : list StoreCall) :=
    if doneAfter ctx w k then calls = []
    else exists event,
        calls = [CallStoreAgentEvent event]
        /\ isCleanupSummary event failure total a b c (elapsed k) vacuumRan remaining in
  (let '((a, err1), s1) :=
     CleanupEventsByAge eventCleanup (doneAfter ctx w 0)
       (EventRetentionConfig.RetentionDays cfg) (EventRetentionConfig.RetentionCriticalDays cfg)
       batch (World.store w) in
   match err1 with
   | Some m =>
       valueOf r = Some ("time-based cleanup failed: " +:+ m)
       /\ exists rest,
           callsOf (traceOf r) = byAge :: rest
           /\ reported 1%nat (Some ("time-based cleanup failed: " +:+ m)) 0 0 0 0 false 0 rest
   | None =>
   let '((b, err2), s2) :=
     CleanupEventsByIssueLimit eventCleanup (doneAfter ctx w 1)
       (EventRetentionConfig.PerIssueLimitEvents cfg) batch s1 in
   match err2 with
   | Some m =>
       valueOf r = Some ("per-issue limit cleanup failed: " +:+ m)
       /\ exists rest,
           callsOf (traceOf r) = byAge :: byIssue :: rest
           /\ reported 2%nat (Some ("per-issue limit cleanup failed: " +:+ m)) a a 0 0 false 0 rest
   | None =>
   let '((c, err3), s3) :=
     CleanupEventsByGlobalLimit eventCleanup (doneAfter ctx w 2) threshold batch s2 in
   match err3 with
   | Some m =>
       valueOf r = Some ("global limit cleanup failed: " +:+ m)
       /\ exists rest,
           callsOf (traceOf r) = byAge :: byIssue :: byGlobal :: rest
           /\ reported 3%nat (Some ("global limit cleanup failed: " +:+ m))
                (add64 a b) a b 0 false 0 rest
   | None =>
   let total := add64 (add64 a b) c in
   let wantsVacuum := EventRetentionConfig.CleanupVacuum cfg && (total >? 0) in
   let '(verr, s4) :=
     if wantsVacuum then VacuumDatabase eventCleanup (doneAfter ctx w 3) s3 else (None, s3) in
   let k := if wantsVacuum then 4%nat else 3%nat in
   let '((counts, cerr), s5) := GetEventCounts eventCleanup (doneAfter ctx w k) s4 in
   let vacuumRan := wantsVacuum && isNil verr in
   let remaining :=
     match cerr, counts with
     | None, Some n => EventCounts.TotalEvents n
     | _, _ => 0
     end in
   valueOf r = None
   /\ exists rest,
       callsOf (traceOf r)
       = [byAge; byIssue; byGlobal] ++ (if wantsVacuum then [CallVacuumDatabase] else [])
         ++ CallGetEventCounts :: rest
       /\ reported (Datatypes.S k) None total a b c vacuumRan remaining rest
   end end end)
  /\ (exists n, cleanupSteps (traceOf r) = take n (cleanupPlan cfg))
  /\ (World.cancelAt w = None ->
      exists event total a b c ms vacuumRan remaining data,
        storedEvents (traceOf r) = [event]
        /\ AgentEvent.Type_ event = EventTypeEventCleanupCompleted
        /\ AgentEvent.Data event = Some data
        /\ summaryData total a b c ms vacuumRan remaining (isNil (valueOf r)) ⊆ data)
  /\ (ctxDone ctx w = true -> storedEvents (traceOf r) = []).
Proof.
  cbv zeta.
  split; [|split; [apply runEventCleanup_order
                  |split; [apply runEventCleanup_summary | apply runEventCleanup_cancelled]]].
  rewrite doneAfter_0.
  unfold runEventCleanup, logCleanupEvent, sinceMs, now, newUUID.
  unfold_go. name_flags.
  destruct (CleanupEventsByAge _ _ _ _ _ _) as [[a [m|]] s1]; unfold_go; name_flags;
    [|destruct (CleanupEventsByIssueLimit _ _ _ _ _) as [[b [m|]] s2]; unfold_go; name_flags;
      [|destruct (CleanupEventsByGlobalLimit _ _ _ _ _) as [[c [m|]] s3]; unfold_go;
        name_flags]];
    run_flags; unfold callsOf, isCleanupSummary; cbn [storeCalls map snd app isNil andb];
    first [ congruence
          | (split; [reflexivity|]); eexists; (split; [reflexivity|]);
            first [ reflexivity | eexists; repeat split; reflexivity ] ].
Qed.

Lemma runEventCleanup_cycle_witness :
  let r := runEventCleanup (S := unit) fixedAgentEvents (fixedEventCleanup 10 2 0 488)
             (calmEnv (inl someResult)) (someExecutor 10) CtxAmbient someRetention
             (World.init tt None) in
  valueOf r = None
  /\ exists rest,
      callsOf (traceOf r) =
        [CallCleanupEventsByAge 30 180 1000; CallCleanupEventsByIssueLimit 1000 1000;
         CallCleanupEventsByGlobalLimit 47500 1000; CallVacuumDatabase; CallGetEventCounts]
        ++ rest
      /\ exists event,
          rest = [CallStoreAgentEvent event]
          /\ isCleanupSummary event None 12 10 2 0 5 true 488.
Proof.
  exact (proj1 (runEventCleanup_cycle unit fixedAgentEvents (fixedEventCleanup 10 2 0 488)
                  (calmEnv (inl someResult)) (someExecutor 10) CtxAmbient someRetention
                  (World.init tt None))).
Defined.

(** C6, the claim as stated fails: a cycle that runs with a cancelled
    context stops after the first deletion call and emits no summary event. *)
Lemma cancelled_cleanup_cycle_emits_no_summary :
  let r := runEventCleanup (S := unit) fixedAgentEvents (fixedEventCleanup 10 2 0 488)
             (calmEnv (inl someResult)) (someExecutor 10) CtxAmbient someRetention
             (World.init tt (Some 0%nat)) in
  valueOf r = Some "time-based cleanup failed: context canceled"
  /\ callsOf (traceOf r) = [CallCleanupEventsByAge 30 180 1000]
  /\ storedEvents (traceOf r) = [].
Proof. vm_compute. repeat split; reflexivity. Qed.

(** ** Stop *)


Lemma stopWait_all (ed wd cd ecd : bool) (sched : list StopSelect) :
  stopWait ed wd cd ecd sched = WaitAll ->
  (ed = true \/ In OnDoneCh sched)
  /\ (wd = true \/ In OnWatchdogDoneCh sched)
  /\ (cd = true \/ In OnCleanupDoneCh sched)
  /\ (ecd = true \/ In OnEventCleanupDoneCh sched).
Proof.
  revert ed wd cd ecd. induction sched as [|sel rest IH]; intros ed wd cd ecd.
  - cbn. destruct ed, wd, cd, ecd; cbn; intros H; try discriminate H; auto.
  - cbn [stopWait].
    destruct (negb ed || negb wd || negb cd || negb ecd) eqn:Hflags.
    + destruct sel; try discriminate; intros H; apply IH in H;
        cbn [In]; intuition auto.
    + intros _. destruct ed, wd, cd, ecd; try discriminate Hflags. auto.
Qed.

(** The done-signals may arrive in any order, with repetitions: as long as
    the context does not fire, the wait ends as soon as each awaited signal
    has been seen. *)
Lemma stopWait_any_order (ed wd cd ecd : bool) (sched : list StopSelect) :
  forallb (fun s => negb (isCtxDone s)) sched = true ->
  (ed = true \/ In OnDoneCh sched) ->
  (wd = true \/ In OnWatchdogDoneCh sched) ->
  (cd = true \/ In OnCleanupDoneCh sched) ->
  (ecd = true \/ In OnEventCleanupDoneCh sched) ->
  stopWait ed wd cd ecd sched = WaitAll.
Proof.
  revert ed wd cd ecd. induction sched as [|sel rest IH]; intros ed wd cd ecd Hno H1 H2 H3 H4.
  - destruct H1 as [->|[]], H2 as [->|[]], H3 as [->|[]], H4 as [->|[]]. reflexivity.
  - cbn [stopWait].
    destruct (negb ed || negb wd || negb cd || negb ecd) eqn:Hflags; [|reflexivity].
    cbn [forallb] in Hno. apply andb_prop in Hno as [Hsel Hrest].
    destruct sel; try discriminate Hsel; apply IH; try assumption; auto;
      match goal with
      | H : _ \/ In _ (_ :: _) |- _ \/ In _ _ =>
          destruct H as [H|[H|H]]; [left; exact H | discriminate H | right; exact H]
      end.
Qed.

(** When the context fires while a signal is still awaited, the wait ends
    there with the context's error. *)
Lemma stopWait_ctx (ed wd cd ecd : bool) (pre post : list StopSelect) (err : string) :
  stopWait ed wd cd ecd pre = WaitBlocked ->
  stopWait ed wd cd ecd (pre ++ OnStopCtxDone err :: post) = WaitCtx err.
Proof.
  revert ed wd cd ecd. induction pre as [|sel rest IH]; intros ed wd cd ecd.
  - cbn. destruct (negb ed || negb wd || negb cd || negb ecd); [reflexivity|discriminate].
  - cbn [stopWait app].
    destruct (negb ed || negb wd || negb cd || negb ecd); [|discriminate].
    destruct sel; try discriminate; apply IH.
Qed.

Lemma watchdogDone_awaits (e : Executor.t) :
  negb (WatchdogConfig.IsEnabled (Executor.watchdogConfig e)) || negb (Executor.analyzer e)
  = negb (awaitsWatchdog e).
Proof. unfold awaitsWatchdog. now rewrite negb_andb. Qed.

(** C3, as amended. [Stop] on a running executor waits in one [select] loop
    for the done-signals of the work loop, the cleanup loop and the
    event-cleanup loop, and for that of the watchdog loop only when the
    watchdog is enabled and has an analyzer. It returns nil only after each
    awaited signal was observed; the signals may arrive in any order; and if
    the caller's context fires while a signal is still awaited, [Stop]
    returns the context's error at that point, without any store call and
    leaving [running] set. *)
Theorem Stop_waits_for_awaited_loops
  (S : Type) (instances : InstanceStore S) (e : Executor.t) (ctx : Context)
  (sched : list StopSelect) (w : World.t S) :
  World.running w = true ->
  let r := Stop instances e ctx sched w in
  (valueOf r = Returned None ->
   In OnDoneCh sched /\ In OnCleanupDoneCh sched /\ In OnEventCleanupDoneCh sched
   /\ (awaitsWatchdog e = true -> In OnWatchdogDoneCh sched))
  /\ (forall pre post err,
        sched = pre ++ OnStopCtxDone err :: post ->
        stopWait false (negb (awaitsWatchdog e)) false false pre = WaitBlocked ->
        valueOf r = Returned (Some err)
        /\ storeCalls (traceOf r) = []
        /\ World.running (worldOf r) = true)
  /\ (forallb (fun s => negb (isCtxDone s)) sched = true ->
      In OnDoneCh sched -> In OnCleanupDoneCh sched -> In OnEventCleanupDoneCh sched ->
      (awaitsWatchdog e = true -> In OnWatchdogDoneCh sched) ->
      valueOf r = Returned None
      /\ World.running (worldOf r) = false
      /\ callsOf (traceOf r) =
           [CallMarkInstanceStopped (Executor.instanceID e);
            CallDeleteOldStoppedInstances
              (int_of_float64 (time.Seconds (Executor.instanceCleanupAge e)))
              (Executor.instanceCleanupKeep e)]).
Proof.
  intros Hr. cbv zeta.
  focus_on (Stop instances e ctx sched w).
  unfold Stop. unfold_go. rewrite Hr. cbn [negb]. rewrite watchdogDone_awaits.
  fold (awaitsWatchdog e).
  destruct (stopWait false (negb (awaitsWatchdog e)) false false sched) eqn:Hwait.
  - pose proof (stopWait_all _ _ _ _ _ Hwait) as (H1 & H2 & H3 & H4).
    run; unfold holds, callsOf; unfold_go; cbn [storeCalls map snd];
      (split; [intros _; repeat split;
               [ destruct H1 as [H1|H1]; [discriminate H1|exact H1]
               | destruct H3 as [H3|H3]; [discriminate H3|exact H3]
               | destruct H4 as [H4|H4]; [discriminate H4|exact H4]
               | intros Ha; destruct H2 as [H2|H2];
                 [first [discriminate H2 | discriminate Ha] | exact H2] ]|]);
      (split; [intros pre post err -> Hb;
               rewrite (stopWait_ctx _ _ _ _ pre post err Hb) in Hwait; discriminate Hwait|]);
      intros _ _ _ _ _; repeat split; reflexivity.
  - run; try match goal with H : false = true |- _ => discriminate H end;
      unfold holds; unfold_go; cbn [storeCalls];
      (split; [intros H; discriminate H|]);
      (split; [intros pre post err' -> Hb;
               rewrite (stopWait_ctx _ _ _ _ pre post err' Hb) in Hwait;
               injection Hwait as ->; repeat split; first [reflexivity | exact Hr]|]);
      intros Hno H1 H3 H4 H2;
      match type of Hwait with
      | ?lhs = _ =>
          assert (Hall : lhs = WaitAll)
            by (apply stopWait_any_order;
                [ exact Hno | right; exact H1
                | first [ left; reflexivity | right; apply H2; reflexivity ]
                | right; exact H3 | right; exact H4 ]);
          rewrite Hall in Hwait; discriminate Hwait
      end.
  - run; try match goal with H : false = true |- _ => discriminate H end;
      unfold holds; unfold_go; cbn [storeCalls];
      (split; [intros H; discriminate H|]);
      (split; [intros pre post err' -> Hb;
               rewrite (stopWait_ctx _ _ _ _ pre post err' Hb) in Hwait;
               discriminate Hwait|]);
      intros Hno H1 H3 H4 H2;
      match type of Hwait with
      | ?lhs = _ =>
          assert (Hall : lhs = WaitAll)
            by (apply stopWait_any_order;
                [ exact Hno | right; exact H1
                | first [ left; reflexivity | right; apply H2; reflexivity ]
                | right; exact H3 | right; exact H4 ]);
          rewrite Hall in Hwait; discriminate Hwait
      end.
Qed.

Lemma Stop_waits_for_awaited_loops_witness :
  let r := Stop (S := unit) (fixedInstances None (0, None) (2, None)) (someExecutor 10)
             CtxAmbient [OnCleanupDoneCh; OnStopCtxDone "context deadline exceeded"; OnDoneCh]
             (World.started tt None) in
  valueOf r = Returned (Some "context deadline exceeded")
  /\ storeCalls (traceOf r) = []
  /\ World.running (worldOf r) = true.
Proof.
  exact (proj1 (proj2 (Stop_waits_for_awaited_loops unit (fixedInstances None (0, None) (2, None))
                         (someExecutor 10) CtxAmbient
                         [OnCleanupDoneCh; OnStopCtxDone "context deadline exceeded"; OnDoneCh]
                         (World.started tt None) eq_refl))
           [OnCleanupDoneCh] [OnDoneCh] "context deadline exceeded" eq_refl eq_refl).
Defined.

(** C3, the claim as stated fails: an executor without an analyzer has no
    watchdog loop, and its [Stop] returns nil after three done-signals, the
    one of the watchdog loop never having been observed. *)
Lemma Stop_returns_after_three_signals_without_watchdog :
  let sched := [OnEventCleanupDoneCh; OnDoneCh; OnCleanupDoneCh] in
  let r := Stop (S := unit) (fixedInstances None (0, None) (2, None)) (someExecutor 10)
             CtxAmbient sched (World.started tt None) in
  valueOf r = Returned None
  /\ ~ In OnWatchdogDoneCh sched
  /\ goroutines (traceOf (Start (S := unit) (fixedInstances None (0, None) (2, None))
                            (calmEnv (inl someResult)) (someExecutor 10) CtxAmbient
                            (World.init tt None)))
     = [GoEventLoop; GoCleanupLoop; GoEventCleanupLoop].
Proof.
  vm_compute. repeat split; try reflexivity.
  intros [H|[H|[H|[]]]]; discriminate H.
Qed.

(** ** What a computation never does *)

Section AvoidsRules.

Context {S : Type}.
Variable p : Event -> bool.

Lemma Avoids_ret {A} (a : A) : Avoids p (ret a : M S A).
Proof. intros w. repeat split; [cbn; lia | constructor]. Qed.

Lemma Avoids_bind {A B} (m : M S A) (k : A -> M S B) :
  Avoids p m -> (forall a, Avoids p (k a)) -> Avoids p (bind m k).
Proof.
  intros Hm Hk w. unfold bind.
  specialize (Hm w). destruct (m w) as [[a w1] t1].
  specialize (Hk a w1). destruct (k a w1) as [[b w2] t2].
  unfold worldOf, traceOf in *. cbn [fst snd] in *.
  destruct Hm as (Hc1 & Hn1 & Ht1), Hk as (Hc2 & Hn2 & Ht2).
  repeat split; [congruence | lia | apply Forall_app; split; assumption].
Qed.

Lemma Avoids_orReturn {A} (stmt : M S (option A)) (k : M S A) :
  Avoids p stmt -> Avoids p k -> Avoids p (orReturn stmt k).
Proof.
  intros Hs Hk. unfold orReturn. apply Avoids_bind; [exact Hs|].
  intros [v|]; [apply Avoids_ret|exact Hk].
Qed.

Lemma Avoids_emit (ev : Event) : p ev = false -> Avoids p (emit ev : M S unit).
Proof. intros H w. repeat split; [cbn; lia | repeat constructor; exact H]. Qed.

Lemma Avoids_print (o : Output) : p (EvPrint o) = false -> Avoids p (print o : M S unit).
Proof. apply Avoids_emit. Qed.

Lemma Avoids_monitor (m : MonitorCall) :
  p (EvMonitor m) = false -> Avoids p (monitor m : M S unit).
Proof. apply Avoids_emit. Qed.

Lemma Avoids_extPure (call : ExtCall) (err : error) :
  p (EvExt None call err) = false -> Avoids p (extPure call err : M S unit).
Proof. apply Avoids_emit. Qed.

Lemma Avoids_go (g : Goroutine) (c : Context) :
  p (EvGo g c) = false -> Avoids p (go g c : M S unit).
Proof. apply Avoids_emit. Qed.

Lemma Avoids_ctx_Err (c : Context) : Avoids p (ctx_Err c : M S error).
Proof. intros w. repeat split; [cbn; lia | constructor]. Qed.

Lemma Avoids_get_running : Avoids p (get_running : M S bool).
Proof. intros w. repeat split; [cbn; lia | constructor]. Qed.

Lemma Avoids_set_running (b : bool) : Avoids p (set_running b : M S unit).
Proof. intros w. repeat split; [cbn; lia | constructor]. Qed.

Lemma Avoids_storeErr (c : Context) (call : StoreCall) (op : bool -> S -> error * S) :
  (forall d err, p (EvStore c d call err) = false) ->
  Avoids p (storeErr c call op).
Proof.
  intros H w. unfold storeErr, worldOf, traceOf.
  destruct (op (ctxDone c w) (World.store w)) as [err s].
  repeat split; [cbn; lia | repeat constructor; apply H].
Qed.

Lemma Avoids_storeVal {A} (c : Context) (call : StoreCall) (op : bool -> S -> (A * error) * S) :
  (forall d err, p (EvStore c d call err) = false) ->
  Avoids p (storeVal c call op).
Proof.
  intros H w. unfold storeVal, worldOf, traceOf.
  destruct (op (ctxDone c w) (World.store w)) as [r s].
  repeat split; [cbn; lia | repeat constructor; apply H].
Qed.

Lemma Avoids_extErr (c : Context) (call : ExtCall) (op : bool -> S -> error * S) :
  (forall err, p (EvExt (Some c) call err) = false) ->
  Avoids p (extErr c call op).
Proof.
  intros H w. unfold extErr, worldOf, traceOf.
  destruct (op (ctxDone c w) (World.store w)) as [err s].
  repeat split; [cbn; lia | repeat constructor; apply H].
Qed.

Lemma Avoids_extVal {A} (c : Context) (call : ExtCall) (op : bool -> S -> (A + string) * S) :
  (forall err, p (EvExt (Some c) call err) = false) ->
  Avoids p (extVal c call op).
Proof.
  intros H w. unfold extVal, worldOf, traceOf.
  destruct (op (ctxDone c w) (World.store w)) as [r s].
  repeat split; [cbn; lia | repeat constructor; apply H].
Qed.

Lemma Avoids_now (env : Collaborators S) : Avoids p (now env).
Proof. intros w. repeat split; [cbn; lia | constructor]. Qed.

Lemma Avoids_newUUID (env : Collaborators S) : Avoids p (newUUID env).
Proof. intros w. repeat split; [cbn; lia | constructor]. Qed.

End AvoidsRules.

(** Decompose a computation along its binds and its case analyses; [side]
    shows that an event is not one of those avoided. *)
Ltac avoids side :=
  repeat
    (cbv zeta;
     lazymatch goal with
     | |- Avoids _ (bind _ _) => apply Avoids_bind; [|intros ?]
     | |- Avoids _ (orReturn _ _) => apply Avoids_orReturn
     | |- Avoids _ (ret _) => apply Avoids_ret
     | |- Avoids _ (ctx_Err _) => apply Avoids_ctx_Err
     | |- Avoids _ (now _) => apply Avoids_now
     | |- Avoids _ (newUUID _) => apply Avoids_newUUID
     | |- Avoids _ get_running => apply Avoids_get_running
     | |- Avoids _ (set_running _) => apply Avoids_set_running
     | |- Avoids _ (print _) => apply Avoids_print; solve [side]
     | |- Avoids _ (monitor _) => apply Avoids_monitor; solve [side]
     | |- Avoids _ (extPure _ _) => apply Avoids_extPure; solve [side]
     | |- Avoids _ (go _ _) => apply Avoids_go; solve [side]
     | |- Avoids _ (emit _) => apply Avoids_emit; solve [side]
     | |- Avoids _ (extErr _ _ _) => apply Avoids_extErr; intros; solve [side]
     | |- Avoids _ (extVal _ _ _) => apply Avoids_extVal; intros; solve [side]
     | |- Avoids _ (storeErr _ _ _) => apply Avoids_storeErr; intros; solve [side]
     | |- Avoids _ (storeVal _ _ _) => apply Avoids_storeVal; intros; solve [side]
     | |- Avoids _ (match ?x with _ => _ end) => destruct x
     | |- Avoids _ (if ?x then _ else _) => destruct x
     | |- Avoids _ (let '(_, _) := ?x in _) => destruct x
     | |- Avoids _ _ => first [assumption | solve [auto 1 with avoids nocore]]
     end).

(** Step over a call whose summary is known, keeping the summary. *)
Ltac step_over :=
  match goal with
  | |- context [match ?x with (_, _) => _ end] =>
      lazymatch x with
      | ?m ?w0 =>
          let H := fresh "HS" in
          eassert (H : holds _ x) by (solve [eauto 2 with summaries avoids nocore]);
          unfold holds in H; destruct x as [[? ?] ?];
          unfold worldOf, traceOf, valueOf in H;
          cbn [fst snd World.cancelAt World.clock] in H;
          destruct_and?;
          repeat match goal with Hv : ?v = _ |- _ => is_var v; subst v end
      end
  end.

(** Take apart what is known of a part that has settled its issue. *)
Ltac open_settled :=
  match goal with
  | H : settled _ _ ?v _ |- _ =>
      tryif is_var v then destruct v else idtac
  end;
  match goal with
  | H : settled _ _ _ _ |- _ =>
      unfold settled in H;
      lazymatch type of H with
      | _ /\ (exists pre, In _ _ /\ _) =>
          let Hin := fresh "Hin" in
          destruct H as (? & ? & Hin & ?); cbn [In] in Hin;
          repeat (destruct Hin as [<-|Hin]); try contradiction
      | _ =>
          let Hl := fresh "Hl" in
          destruct H as (? & ? & ? & ? & Hl & ?); cbn [last] in Hl;
          injection Hl as <-
      end
  end.

Ltac run_over := unfold_go; repeat (first [step_over; try open_settled | answer]; unfold_go).

Ltac by_computing := reflexivity.

Ltac own_issue :=
  first [ reflexivity
        | unfold strays, worksOn, issueOf; cbn [AgentEvent.IssueID];
          rewrite bool_decide_eq_true_2 by reflexivity; reflexivity ].

(** ** Reading a trace piecewise *)

Lemma storeCalls_app (t1 t2 : list Event) :
  storeCalls (t1 ++ t2) = storeCalls t1 ++ storeCalls t2.
Proof.
  induction t1 as [|ev t1 IH]; [reflexivity|].
  destruct ev; cbn; rewrite ?IH; reflexivity.
Qed.

Lemma callsOf_app (t1 t2 : list Event) : callsOf (t1 ++ t2) = callsOf t1 ++ callsOf t2.
Proof. unfold callsOf. rewrite storeCalls_app. apply map_app. Qed.

Lemma goroutines_app (t1 t2 : list Event) :
  goroutines (t1 ++ t2) = goroutines t1 ++ goroutines t2.
Proof.
  induction t1 as [|ev t1 IH]; [reflexivity|].
  destruct ev; cbn; rewrite ?IH; reflexivity.
Qed.

Lemma omap_avoided {A} (f : Event -> option A) (p : Event -> bool) (t : list Event) :
  (forall ev, p ev = false -> f ev = None) ->
  Forall (fun ev => p ev = false) t -> omap f t = [].
Proof.
  intros Hf Ht. induction Ht as [|ev t Hev Ht IH]; [reflexivity|].
  cbn. rewrite (Hf ev Hev). exact IH.
Qed.

Lemma goroutines_avoided (p : Event -> bool) (t : list Event) :
  (forall g c, p (EvGo g c) = true) ->
  Forall (fun ev => p ev = false) t -> goroutines t = [].
Proof.
  intros Hp Ht. induction Ht as [|ev t Hev Ht IH]; [reflexivity|].
  destruct ev; cbn; try exact IH. rewrite Hp in Hev. discriminate.
Qed.

Lemma Avoids_weaken {S A} (p q : Event -> bool) (m : M S A) :
  (forall ev, p ev = false -> q ev = false) -> Avoids p m -> Avoids q m.
Proof.
  intros Hpq Hm w. destruct (Hm w) as (Hc & Hn & Ht). repeat split; [exact Hc|exact Hn|].
  eapply Forall_impl; [exact Ht|]. exact Hpq.
Qed.

Lemma strays_calls (id : string) (t : list Event) :
  Forall (fun ev => strays id ev = false) t ->
  Forall (fun call => worksOn id call = true) (callsOf t).
Proof.
  intros Ht. induction Ht as [|ev t Hev Ht IH]; [constructor|].
  destruct ev; cbn; try exact IH.
  constructor; [|exact IH]. cbn in Hev. now apply negb_false_iff in Hev.
Qed.

Lemma strays_closes (id : string) (t : list Event) :
  Forall (fun ev => strays id ev = false) t -> closes t = [].
Proof. apply omap_avoided. intros [] H; try reflexivity. discriminate H. Qed.

Lemma strays_heartbeats (id : string) (t : list Event) :
  Forall (fun ev => strays id ev = false) t -> heartbeats t = [].
Proof.
  apply omap_avoided. intros [c d call err| | | | |] H; try reflexivity.
  destruct call; try reflexivity. discriminate H.
Qed.

Lemma strays_polls (id : string) (t : list Event) :
  Forall (fun ev => strays id ev = false) t -> polls t = [].
Proof.
  apply omap_avoided. intros [c d call err| | | | |] H; try reflexivity.
  destruct call; try reflexivity. discriminate H.
Qed.

Lemma strays_claims (id : string) (t : list Event) :
  Forall (fun ev => strays id ev = false) t -> claimsOf t = [].
Proof.
  apply omap_avoided. intros [c d call err| | | | |] H; try reflexivity.
  destruct call; try reflexivity. discriminate H.
Qed.

Create HintDb avoids.
Create HintDb summaries.

Lemma traceOf_bind {S A B} (m : M S A) (k : A -> M S B) (w : World.t S) :
  traceOf (bind m k w) = traceOf (m w) ++ traceOf (k (valueOf (m w)) (worldOf (m w))).
Proof.
  unfold bind, traceOf, valueOf, worldOf. destruct (m w) as [[a w1] t1]. cbn [fst snd].
  destruct (k a w1) as [[b w2] t2]. reflexivity.
Qed.

Lemma valueOf_bind {S A B} (m : M S A) (k : A -> M S B) (w : World.t S) :
  valueOf (bind m k w) = valueOf (k (valueOf (m w)) (worldOf (m w))).
Proof.
  unfold bind, traceOf, valueOf, worldOf. destruct (m w) as [[a w1] t1]. cbn [fst snd].
  destruct (k a w1) as [[b w2] t2]. reflexivity.
Qed.

Lemma worldOf_bind {S A B} (m : M S A) (k : A -> M S B) (w : World.t S) :
  worldOf (bind m k w) = worldOf (k (valueOf (m w)) (worldOf (m w))).
Proof.
  unfold bind, traceOf, valueOf, worldOf. destruct (m w) as [[a w1] t1]. cbn [fst snd].
  destruct (k a w1) as [[b w2] t2]. reflexivity.
Qed.

Lemma Avoids_holds {S A} (p : Event -> bool) (m : M S A) (w : World.t S) :
  Avoids p m ->
  holds (fun r => World.cancelAt (worldOf r) = World.cancelAt w
                  /\ (World.clock w <= World.clock (worldOf r))%nat
                  /\ Forall (fun ev => p ev = false) (traceOf r)) (m w).
Proof. intros H. exact (H w). Qed.

Lemma loopEvent_closes (t : list Event) :
  Forall (fun ev => loopEvent ev = false) t -> closes t = [].
Proof. apply omap_avoided. intros [] H; try reflexivity. discriminate H. Qed.

Lemma loopEvent_heartbeats (t : list Event) :
  Forall (fun ev => loopEvent ev = false) t -> heartbeats t = [].
Proof.
  apply omap_avoided. intros [c d call err| | | | |] H; try reflexivity.
  destruct call; try reflexivity. discriminate H.
Qed.

Lemma loopEvent_goroutines (t : list Event) :
  Forall (fun ev => loopEvent ev = false) t -> goroutines t = [].
Proof. apply goroutines_avoided. reflexivity. Qed.

Lemma closes_app (t1 t2 : list Event) : closes (t1 ++ t2) = closes t1 ++ closes t2.
Proof. apply omap_app. Qed.

Lemma heartbeats_app (t1 t2 : list Event) :
  heartbeats (t1 ++ t2) = heartbeats t1 ++ heartbeats t2.
Proof. apply omap_app. Qed.

Lemma polls_app (t1 t2 : list Event) : polls (t1 ++ t2) = polls t1 ++ polls t2.
Proof. apply omap_app. Qed.

Lemma loopEvent_polls (t : list Event) :
  Forall (fun ev => loopEvent ev = false) t -> polls t = [].
Proof.
  apply omap_avoided. intros [c d call err| | | | |] H; try reflexivity.
  destruct call; try reflexivity. discriminate H.
Qed.

Lemma heartbeats_cons (ev : Event) (t : list Event) :
  heartbeats (ev :: t) = heartbeats [ev] ++ heartbeats t.
Proof. apply (heartbeats_app [ev] t). Qed.

Lemma polls_cons (ev : Event) (t : list Event) : polls (ev :: t) = polls [ev] ++ polls t.
Proof. apply (polls_app [ev] t). Qed.

Lemma closes_cons (ev : Event) (t : list Event) : closes (ev :: t) = closes [ev] ++ closes t.
Proof. apply (closes_app [ev] t). Qed.

Lemma goroutines_cons (ev : Event) (t : list Event) :
  goroutines (ev :: t) = goroutines [ev] ++ goroutines t.
Proof. apply (goroutines_app [ev] t). Qed.

Ltac not_nil t := lazymatch t with [] => fail | _ => idtac end.

(** Read a trace made of known events and of pieces that avoid the loop's
    bookkeeping. *)
Ltac read_loop :=
  repeat first
    [ rewrite heartbeats_app | rewrite closes_app | rewrite polls_app | rewrite goroutines_app
    | match goal with
      | |- context [heartbeats (?ev :: ?t)] => not_nil t; rewrite (heartbeats_cons ev t)
      | |- context [polls (?ev :: ?t)] => not_nil t; rewrite (polls_cons ev t)
      | |- context [closes (?ev :: ?t)] => not_nil t; rewrite (closes_cons ev t)
      | |- context [goroutines (?ev :: ?t)] => not_nil t; rewrite (goroutines_cons ev t)
      end ];
  repeat match goal with
         | H : Forall (fun ev => loopEvent ev = false) ?t |- _ =>
             rewrite ?(loopEvent_heartbeats t H), ?(loopEvent_closes t H),
               ?(loopEvent_polls t H), ?(loopEvent_goroutines t H);
             clear H
         end.

Section ExecuteProperties.

Context {S : Type}.
Variable agentEvents : AgentEventStore S.
Variable eventCleanup : EventCleanupStore S.
Variable issues : IssueStore S.
Variable readyWork : ReadyWorkStore S.
Variable instances : InstanceStore S.
Variable executions : ExecutionStore S.
Variable env : Collaborators S.

Lemma executeIssue_strays (e : Executor.t) (ctx : Context) (issue : Issue.t) :
  Avoids (strays (Issue.ID issue))
    (executeIssue agentEvents issues executions env e ctx issue).
Proof.
  unfold executeIssue, spawnPhase, agentPhase, deferredSandboxCleanup, sandboxPhase,
    assessPhase, failExit, cancelExit, releaseIssueWithError, logEvent.
  avoids own_issue.
Qed.

(** X1. Every store call of [executeIssue] works on the issue it was given:
    it writes an event, a state, a comment or a status for that issue, reads
    its history or releases it. It claims nothing, does not poll the ready
    queue, touches no instance row and no event cleanup, starts no goroutine
    and closes no channel. *)
Theorem executeIssue_works_on_its_issue_only
  (e : Executor.t) (ctx : Context) (issue : Issue.t) (w : World.t S) :
  let tr := traceOf (executeIssue agentEvents issues executions env e ctx issue w) in
  Forall (fun call => worksOn (Issue.ID issue) call = true) (callsOf tr)
  /\ claimsOf tr = [] /\ polls tr = [] /\ heartbeats tr = []
  /\ goroutines tr = [] /\ closes tr = [].
Proof.
  cbv zeta. destruct (executeIssue_strays e ctx issue w) as (_ & _ & Ht).
  repeat split.
  - now apply strays_calls.
  - now apply strays_claims with (id := Issue.ID issue).
  - now apply strays_polls with (id := Issue.ID issue).
  - now apply strays_heartbeats with (id := Issue.ID issue).
  - now apply goroutines_avoided with (p := strays (Issue.ID issue)).
  - now apply strays_closes with (id := Issue.ID issue).
Qed.

(** X2. [processNextIssue] polls the ready queue once, for one open issue.
    When the store refuses the poll it returns that error, wrapped, having
    made no other call; when nothing is ready it returns nil, again with no
    other call; otherwise it claims the first listed issue for its own
    instance, and every call after the claim works on that issue. *)
Theorem processNextIssue_claims_the_first_ready_issue_only
  (e : Executor.t) (ctx : Context) (w : World.t S) :
  let r := processNextIssue agentEvents issues readyWork executions env e ctx w in
  polls (traceOf r) = [readyFilter]
  /\ match fst (GetReadyWork readyWork (ctxDone ctx w) readyFilter (World.store w)) with
     | (_, Some m) =>
         valueOf r = Some ("failed to get ready work: " +:+ m)
         /\ callsOf (traceOf r) = [CallGetReadyWork readyFilter]
     | ([], None) =>
         valueOf r = None /\ callsOf (traceOf r) = [CallGetReadyWork readyFilter]
     | (issue :: _, None) =>
         exists rest,
           callsOf (traceOf r) =
             CallGetReadyWork readyFilter
               :: CallClaimIssue (Issue.ID issue) (Executor.instanceID e) :: rest
           /\ Forall (fun call => worksOn (Issue.ID issue) call = true) rest
           /\ claimsOf (traceOf r) = [(Issue.ID issue, Executor.instanceID e)]
     end.
Proof.
  cbv zeta. unfold processNextIssue. fold readyFilter. unfold_go.
  destruct (GetReadyWork readyWork (ctxDone ctx w) readyFilter (World.store w))
    as [[ready [m|]] s1]; cbn [fst snd]; unfold_go.
  - destruct ready; repeat split; reflexivity.
  - destruct ready as [|issue ready']; unfold_go; [repeat split; reflexivity|].
    destruct (ClaimIssue executions _ (Issue.ID issue) (Executor.instanceID e) s1)
      as [[m|] s2]; unfold_go.
    + split; [reflexivity|]. exists []. repeat split; try constructor.
    + match goal with
      | |- context [executeIssue ?a ?i ?x ?en ?ee ?c ?iss ?w0] =>
          destruct (executeIssue_strays ee c iss w0) as (_ & _ & Ht);
          destruct (executeIssue a i x en ee c iss w0) as [[v w2] t]
      end.
      unfold traceOf in Ht. cbn [snd] in Ht |- *.
      split.
      * change (polls (?a :: ?b :: t)) with (readyFilter :: polls t).
        now rewrite (strays_polls _ _ Ht).
      * exists (callsOf t). repeat split.
        -- now apply strays_calls.
        -- change (claimsOf (?a :: ?b :: t))
             with ((Issue.ID issue, Executor.instanceID e) :: claimsOf t).
           now rewrite (strays_claims _ _ Ht).
Qed.

Lemma strays_loopEvent (id : string) (ev : Event) :
  strays id ev = false -> loopEvent ev = false.
Proof.
  destruct ev as [c d call err| | | | |]; try reflexivity; try discriminate.
  destruct call; try reflexivity; discriminate.
Qed.

Lemma executeIssue_loopEvent (e : Executor.t) (ctx : Context) (issue : Issue.t) :
  Avoids loopEvent (executeIssue agentEvents issues executions env e ctx issue).
Proof.
  eapply Avoids_weaken; [apply (strays_loopEvent (Issue.ID issue))|apply executeIssue_strays].
Qed.

Local Hint Resolve executeIssue_loopEvent : avoids.

(** [processNextIssue] begins with its poll; nothing after it is part of
    the loop's bookkeeping. *)
Lemma processNextIssue_shape (e : Executor.t) (ctx : Context) (w : World.t S) :
  exists err t,
    traceOf (processNextIssue agentEvents issues readyWork executions env e ctx w)
      = EvStore ctx (ctxDone ctx w) (CallGetReadyWork readyFilter) err :: t
    /\ Forall (fun ev => loopEvent ev = false) t.
Proof.
  unfold processNextIssue. cbv zeta. fold readyFilter.
  rewrite traceOf_bind.
  match goal with
  | |- context [_ ++ traceOf (?m2 ?w2)] =>
      assert (Hk : Avoids loopEvent m2) by (avoids by_computing);
      destruct (Hk w2) as (_ & _ & Ht)
  end.
  unfold storeVal at 1. unfold traceOf at 1.
  destruct (GetReadyWork readyWork (ctxDone ctx w) readyFilter (World.store w)) as [r s1].
  cbn [snd app]. eexists _, _. split; [reflexivity|exact Ht].
Qed.

Lemma cleanupWork_loopEvent (e : Executor.t) (ctx : Context) :
  Avoids loopEvent (cleanupWork instances env e ctx).
Proof. unfold cleanupWork. avoids by_computing. Qed.

Lemma runEventCleanup_loopEvent (e : Executor.t) (ctx : Context) (cfg : EventRetentionConfig.t) :
  Avoids loopEvent (runEventCleanup agentEvents eventCleanup env e ctx cfg).
Proof. unfold runEventCleanup, logCleanupEvent, sinceMs. avoids by_computing. Qed.

Lemma last_snoc_event (t : list Event) (ev : Event) : last (t ++ [ev]) = Some ev.
Proof. apply last_snoc. Qed.

(** One tick of the work loop. *)
Lemma eventLoopTick_summary (e : Executor.t) (ctx : Context) (w : World.t S) :
  let tr := traceOf (eventLoopTick agentEvents issues readyWork instances executions env e ctx w) in
  heartbeats tr = [Executor.instanceID e] /\ polls tr = [readyFilter]
  /\ closes tr = [] /\ goroutines tr = [].
Proof.
  cbv zeta. unfold eventLoopTick.
  rewrite traceOf_bind.
  match goal with
  | |- context [_ ++ traceOf (bind ?m1 ?k ?w1)] =>
      rewrite (traceOf_bind m1 k w1);
      assert (Hm1 : Avoids loopEvent m1) by (avoids by_computing);
      destruct (Hm1 w1) as (_ & _ & Ht1)
  end.
  rewrite traceOf_bind.
  match goal with
  | |- context [traceOf (processNextIssue ?a ?i ?r ?x ?en ?ee ?c ?w0)] =>
      destruct (processNextIssue_shape ee c w0) as (perr & t & Hshape & Ht2);
      rewrite Hshape
  end.
  match goal with
  | |- context [_ ++ traceOf (?m3 ?w3)] =>
      assert (Hm3 : Avoids loopEvent m3) by (avoids by_computing);
      destruct (Hm3 w3) as (_ & _ & Ht3)
  end.
  generalize dependent (ctxDone ctx
    (worldOf (match valueOf (storeErr ctx (CallUpdateHeartbeat (Executor.instanceID e))
                               (fun d => UpdateHeartbeat instances d (Executor.instanceID e)) w)
              with
              | Some m => print (Stderr ("failed to update heartbeat: " +:+ m))
              | None => ret tt
              end
              (worldOf (storeErr ctx (CallUpdateHeartbeat (Executor.instanceID e))
                          (fun d => UpdateHeartbeat instances d (Executor.instanceID e)) w))))).
  intros d2 _. clear Hm1 Hm3. read_loop.
  unfold storeErr, traceOf.
  destruct (UpdateHeartbeat instances _ (Executor.instanceID e) (World.store w)) as [err s1].
  repeat split.
Qed.


Lemma closedOnReturn_after {A} (ch : Chan) (m : M S A) (k : A -> M S bool) (w : World.t S) :
  closes (traceOf (m w)) = [] ->
  closedOnReturn ch (k (valueOf (m w)) (worldOf (m w))) ->
  closedOnReturn ch (bind m k w).
Proof.
  unfold closedOnReturn. rewrite valueOf_bind, traceOf_bind, closes_app.
  intros -> H. cbn [app].
  destruct (valueOf (k (valueOf (m w)) (worldOf (m w)))); [|exact H].
  destruct H as [Hc Hl]. split; [exact Hc|]. rewrite last_app, Hl. reflexivity.
Qed.

Lemma closedOnReturn_close (ch : Chan) (w : World.t S) :
  closedOnReturn ch ((emit (EvClose ch) ;; ret true) w).
Proof. split; reflexivity. Qed.

Lemma eventLoop_closedOnReturn (e : Executor.t) (ctx : Context) (sched : list Select)
  (w : World.t S) :
  closedOnReturn doneCh
    (eventLoop agentEvents issues readyWork instances executions env e ctx sched w).
Proof.
  revert w. induction sched as [|[| |] rest IH]; intros w; cbn [eventLoop].
  - reflexivity.
  - apply closedOnReturn_close.
  - apply closedOnReturn_close.
  - apply closedOnReturn_after; [apply eventLoopTick_summary|apply IH].
Qed.

Lemma cleanupLoop_closedOnReturn (e : Executor.t) (ctx : Context) (sched : list CleanupSelect)
  (w : World.t S) :
  closedOnReturn cleanupDoneCh (cleanupLoop instances env e ctx sched w).
Proof.
  revert w. induction sched as [|[| |stopReady stopFirst] rest IH]; intros w; cbn [cleanupLoop].
  - reflexivity.
  - apply closedOnReturn_close.
  - apply closedOnReturn_close.
  - destruct stopReady; [apply closedOnReturn_close|].
    apply closedOnReturn_after.
    { destruct (cleanupWork_loopEvent e ctx w) as (_ & _ & Ht). now apply loopEvent_closes. }
    destruct stopFirst; [apply closedOnReturn_close|].
    apply closedOnReturn_after; [|apply IH].
    destruct (valueOf (cleanupWork instances env e ctx w)); reflexivity.
Qed.

Lemma eventCleanupTicks_closedOnReturn (e : Executor.t) (ctx : Context)
  (cfg : EventRetentionConfig.t) (sched : list EventCleanupSelect) (w : World.t S) :
  closedOnReturn eventCleanupDoneCh
    (eventCleanupTicks agentEvents eventCleanup env e ctx cfg sched w).
Proof.
  revert w. induction sched as [|[| |stopReady] rest IH]; intros w; cbn [eventCleanupTicks].
  - reflexivity.
  - apply closedOnReturn_close.
  - apply closedOnReturn_close.
  - destruct stopReady; [apply closedOnReturn_close|].
    apply closedOnReturn_after.
    { destruct (runEventCleanup_loopEvent e ctx cfg w) as (_ & _ & Ht).
      now apply loopEvent_closes. }
    apply closedOnReturn_after; [|apply IH].
    destruct (valueOf (runEventCleanup agentEvents eventCleanup env e ctx cfg w)); reflexivity.
Qed.

Lemma eventCleanupLoop_closedOnReturn (e : Executor.t) (ctx : Context)
  (sched : list EventCleanupSelect) (w : World.t S) :
  closedOnReturn eventCleanupDoneCh
    (eventCleanupLoop agentEvents eventCleanup env e ctx sched w).
Proof.
  unfold eventCleanupLoop. cbv zeta.
  apply closedOnReturn_after; [reflexivity|].
  destruct (retentionCfg_Validate env _) as [m|].
  - apply closedOnReturn_after; [reflexivity|]. apply closedOnReturn_close.
  - destruct (EventRetentionConfig.CleanupEnabled _); cbn [negb].
    + apply closedOnReturn_after; [reflexivity|].
      apply closedOnReturn_after.
      { match goal with
        | |- context [runEventCleanup ?a ?c ?en ?ee ?cx ?cfg ?w0] =>
            destruct (runEventCleanup_loopEvent ee cx cfg w0) as (_ & _ & Ht)
        end. now apply loopEvent_closes. }
      apply closedOnReturn_after; [|apply eventCleanupTicks_closedOnReturn].
      match goal with |- context [match ?x with Some _ => _ | None => _ end] => destruct x end;
        reflexivity.
    + apply closedOnReturn_after; [reflexivity|]. apply closedOnReturn_close.
Qed.

(** X3. For a positive poll interval, each tick of the work loop sends
    exactly one heartbeat, for the executor's own instance, and polls the
    ready queue exactly once, whatever the store answers and however the
    execution of an issue ends; the loop returns at the first case of its
    [select] that is not a tick. *)
Theorem eventLoop_one_heartbeat_and_one_poll_per_tick
  (e : Executor.t) (ctx : Context) (sched : list Select) (w : World.t S) :
  0 < Executor.pollInterval e ->
  let r := eventLoop agentEvents issues readyWork instances executions env e ctx sched w in
  heartbeats (traceOf r) = replicate (leadingTicks sched) (Executor.instanceID e)
  /\ polls (traceOf r) = replicate (leadingTicks sched) readyFilter
  /\ valueOf r = negb (forallb isTick sched).
Proof.
  intros _. cbv zeta. revert w.
  induction sched as [|[| |] rest IH]; intros w; cbn [eventLoop leadingTicks forallb isTick];
    try (repeat split; reflexivity).
  rewrite traceOf_bind, valueOf_bind, heartbeats_app, polls_app.
  destruct (eventLoopTick_summary e ctx w) as (-> & -> & _).
  match goal with
  | |- context [eventLoop ?a ?i ?r ?n ?x ?en ?ee ?c rest ?w0] =>
      destruct (IH w0) as (-> & -> & ->)
  end.
  repeat split.
Qed.

(** X4. Each of the three background loops, given a positive interval for
    its ticker, closes its own done channel exactly once, as its last action,
    when it returns, and closes no channel while it is still waiting in its
    [select]. *)
Theorem loops_close_their_done_channel_on_return (e : Executor.t) (ctx : Context)
  (w : World.t S) :
  0 < Executor.pollInterval e ->
  0 < Executor.cleanupInterval e ->
  0 < wrap64 (EventRetentionConfig.CleanupIntervalHours (retentionConfigOf env e) * time.Hour) ->
  (forall sched,
     closedOnReturn doneCh
       (eventLoop agentEvents issues readyWork instances executions env e ctx sched w))
  /\ (forall sched,
        closedOnReturn cleanupDoneCh (cleanupLoop instances env e ctx sched w))
  /\ (forall sched,
        closedOnReturn eventCleanupDoneCh
          (eventCleanupLoop agentEvents eventCleanup env e ctx sched w)).
Proof.
  intros _ _ _. split; [|split]; intros sched.
  - apply eventLoop_closedOnReturn.
  - apply cleanupLoop_closedOnReturn.
  - apply eventCleanupLoop_closedOnReturn.
Qed.

End ExecuteProperties.

(** ** Settling an execution *)

Lemma monitorCalls_app (t1 t2 : list Event) :
  monitorCalls (t1 ++ t2) = monitorCalls t1 ++ monitorCalls t2.
Proof.
  induction t1 as [|ev t1 IH]; [reflexivity|].
  destruct ev; cbn; rewrite ?IH; reflexivity.
Qed.

Lemma monitorCalls_cons (ev : Event) (t : list Event) :
  monitorCalls (ev :: t) = monitorCalls [ev] ++ monitorCalls t.
Proof. apply (monitorCalls_app [ev] t). Qed.

Lemma releases_app (t1 t2 : list Event) : releases (t1 ++ t2) = releases t1 ++ releases t2.
Proof. apply omap_app. Qed.

Lemma releases_cons (ev : Event) (t : list Event) :
  releases (ev :: t) = releases [ev] ++ releases t.
Proof. apply (releases_app [ev] t). Qed.

Lemma accounting_releases (t : list Event) :
  Forall (fun ev => accounting ev = false) t -> releases t = [].
Proof.
  apply omap_avoided. intros [c d call err| | | | |] H; try reflexivity.
  destruct call; try reflexivity; discriminate H.
Qed.

Lemma accounting_monitorCalls (t : list Event) :
  Forall (fun ev => accounting ev = false) t -> monitorCalls t = [].
Proof.
  intros Ht. induction Ht as [|ev t Hev Ht IH]; [reflexivity|].
  destruct ev; cbn; try exact IH. discriminate Hev.
Qed.

Lemma ctxDone_mono {S} (c : Context) (w w' : World.t S) :
  ctxDone c w = true ->
  World.cancelAt w' = World.cancelAt w ->
  (World.clock w <= World.clock w')%nat ->
  ctxDone c w' = true.
Proof.
  unfold ctxDone. intros H Hc Hn. rewrite Hc. destruct c; try discriminate;
    destruct (World.cancelAt w); try discriminate;
    apply Nat.leb_le in H; apply Nat.leb_le; lia.
Qed.

(** Read a trace made of known events and of pieces whose releases and
    monitor calls are known. *)
Ltac read_accounts :=
  repeat first
    [ rewrite monitorCalls_app | rewrite releases_app
    | match goal with
      | |- context [monitorCalls (?ev :: ?t)] => not_nil t; rewrite (monitorCalls_cons ev t)
      | |- context [releases (?ev :: ?t)] => not_nil t; rewrite (releases_cons ev t)
      end ];
  repeat match goal with
         | H : Forall (fun ev => accounting ev = false) ?t |- _ =>
             rewrite ?(accounting_releases t H), ?(accounting_monitorCalls t H); clear H
         | H : releases ?t = _ |- _ => rewrite ?H; clear H
         | H : monitorCalls ?t = _ |- _ => rewrite ?H; clear H
         end;
  cbn [app monitorCalls releases omap list_omap].

(** Close a branch in which a context found cancelled is later found live. *)
Ltac still_cancelled :=
  exfalso;
  match goal with
  | Ht : ctxDone ?c ?wa = true, Hf : ctxDone ?c ?wb = false |- _ =>
      rewrite (ctxDone_mono c wa wb Ht) in Hf;
      [discriminate Hf | cbn [World.cancelAt]; congruence | cbn [World.clock]; lia]
  end.

Ltac pick_pre l :=
  lazymatch l with
  | ?x :: ?rest => first [ exists x; split; [cbn; tauto | reflexivity] | pick_pre rest ]
  end.

(** Show how a finished run has settled its issue. *)
Ltac settle :=
  unfold settled;
  lazymatch goal with
  | |- _ /\ (exists pre, In pre ?before /\ _) => split; [reflexivity | pick_pre before]
  | |- _ /\ (exists pre s g, _) =>
      split; [reflexivity | eexists _, _, _; split; reflexivity]
  end.

Section SettlingProperties.

Context {S : Type}.
Variable agentEvents : AgentEventStore S.
Variable issues : IssueStore S.
Variable executions : ExecutionStore S.
Variable env : Collaborators S.
Variable e : Executor.t.

Lemma logEvent_accounting ctx eventType severity issueID message data :
  Avoids accounting (logEvent agentEvents env e ctx eventType severity issueID message data).
Proof. unfold logEvent. avoids by_computing. Qed.

Lemma sandboxPhase_accounting ctx issue : Avoids accounting (sandboxPhase env e ctx issue).
Proof. unfold sandboxPhase. avoids by_computing. Qed.

Lemma deferredSandboxCleanup_accounting ctx sb :
  Avoids accounting (deferredSandboxCleanup env ctx sb).
Proof. unfold deferredSandboxCleanup. avoids by_computing. Qed.

Local Hint Resolve logEvent_accounting sandboxPhase_accounting
  deferredSandboxCleanup_accounting : avoids.
Local Hint Resolve Avoids_holds : summaries.

Lemma releaseIssueWithError_accounts ctx issueID errMsg (w : World.t S) :
  holds (fun r => World.cancelAt (worldOf r) = World.cancelAt w
                  /\ (World.clock w <= World.clock (worldOf r))%nat
                  /\ releases (traceOf r) = [issueID]
                  /\ monitorCalls (traceOf r) = [])
    (releaseIssueWithError issues executions e ctx issueID errMsg w).
Proof.
  unfold releaseIssueWithError.
  run; unfold holds; unfold_go; cbn [World.clock World.cancelAt]; repeat split; lia.
Qed.

Local Hint Resolve releaseIssueWithError_accounts : summaries.

Lemma cancelExit_accounts ctx issueID errMsg (w : World.t S) :
  holds (fun r => World.cancelAt (worldOf r) = World.cancelAt w
                  /\ (World.clock w <= World.clock (worldOf r))%nat
                  /\ releases (traceOf r) = [issueID]
                  /\ monitorCalls (traceOf r) = [EndExecution false false]
                  /\ valueOf r = if ctxDone ctx (worldOf r) then Some context_Canceled else None)
    (cancelExit issues executions e ctx issueID errMsg w).
Proof.
  unfold cancelExit.
  run_over; unfold holds; unfold_go; read_accounts; repeat split; try assumption;
    match goal with H : ctxDone _ _ = _ |- _ => rewrite H; reflexivity end.
Qed.

Lemma failExit_accounts ctx issueID eventType logMsg data releaseMsg retMsg (w : World.t S) :
  holds (fun r => World.cancelAt (worldOf r) = World.cancelAt w
                  /\ (World.clock w <= World.clock (worldOf r))%nat
                  /\ releases (traceOf r) = [issueID]
                  /\ monitorCalls (traceOf r) = [EndExecution false false]
                  /\ valueOf r = Some retMsg)
    (failExit agentEvents issues executions env e ctx issueID eventType logMsg data
       releaseMsg retMsg w).
Proof.
  unfold failExit.
  run_over; unfold holds; unfold_go; read_accounts; repeat split; try congruence; lia.
Qed.

Local Hint Resolve cancelExit_accounts failExit_accounts : summaries.

Lemma agentPhase_accounts ctx issue sb workingDir (w : World.t S) :
  holds (fun r => World.cancelAt (worldOf r) = World.cancelAt w
                  /\ (World.clock w <= World.clock (worldOf r))%nat
                  /\ settled (Issue.ID issue) [[]] (valueOf r) (traceOf r))
    (agentPhase agentEvents issues executions env e ctx issue sb workingDir w).
Proof.
  unfold agentPhase, newUUID.
  run_over; unfold holds; unfold_go; cbn [World.cancelAt World.clock];
    (split; [congruence|]); (split; [lia|]); unfold settled; read_accounts; settle.
Qed.

Local Hint Resolve agentPhase_accounts : summaries.

Lemma assessPhase_accounts ctx issue (w : World.t S) :
  holds (fun r => World.cancelAt (worldOf r) = World.cancelAt w
                  /\ (World.clock w <= World.clock (worldOf r))%nat
                  /\ match valueOf r with
                     | None =>
                         releases (traceOf r) = [] /\ monitorCalls (traceOf r) = [toAssessing]
                     | Some v =>
                         is_Some v
                         /\ settled (Issue.ID issue) [[]; [toAssessing]] v (traceOf r)
                     end)
    (assessPhase agentEvents issues executions env e ctx issue w).
Proof.
  unfold assessPhase.
  run_over; try still_cancelled; unfold holds; unfold_go; cbn [World.cancelAt World.clock];
    (split; [congruence|]); (split; [lia|]); unfold settled; read_accounts;
    first [ split; reflexivity | split; [eexists; reflexivity | settle] ].
Qed.

Lemma spawnPhase_accounts ctx issue sb workingDir (w : World.t S) :
  holds (fun r => World.cancelAt (worldOf r) = World.cancelAt w
                  /\ (World.clock w <= World.clock (worldOf r))%nat
                  /\ settled (Issue.ID issue) [[]; [toExecuting]] (valueOf r) (traceOf r))
    (spawnPhase agentEvents issues executions env e ctx issue sb workingDir w).
Proof.
  unfold spawnPhase.
  run_over; try still_cancelled; unfold holds; unfold_go; cbn [World.cancelAt World.clock];
    (split; [congruence|]); (split; [lia|]); unfold settled; read_accounts; settle.
Qed.

Local Hint Resolve spawnPhase_accounts : summaries.

Lemma executeIssue_accounts ctx issue (w : World.t S) :
  holds (fun r =>
           settled (Issue.ID issue)
             [[StartExecution (Issue.ID issue) (Executor.instanceID e);
               RecordEvent EventTypeIssueClaimed];
              [StartExecution (Issue.ID issue) (Executor.instanceID e);
               RecordEvent EventTypeIssueClaimed; toAssessing];
              [StartExecution (Issue.ID issue) (Executor.instanceID e);
               RecordEvent EventTypeIssueClaimed; toAssessing; toExecuting]]
             (valueOf r) (traceOf r))
    (executeIssue agentEvents issues executions env e ctx issue w).
Proof.
  unfold executeIssue. unfold_go. step_over. unfold_go.
  match goal with
  | |- context [assessPhase ?a ?b ?c ?d ?e' ?f ?g ?w0] =>
      pose proof (assessPhase_accounts f g w0) as Ha; unfold holds in Ha;
      destruct (assessPhase a b c d e' f g w0) as [[ra wa] ta]
  end.
  unfold worldOf, traceOf, valueOf in Ha. cbn [fst snd] in Ha.
  destruct Ha as (Hca & Hna & Ha). destruct ra as [v|].
  - destruct Ha as [[m ->] Ha]. unfold_go. open_settled; unfold holds; unfold_go;
      unfold settled; read_accounts; settle.
  - destruct Ha as [Hra Hma]. unfold_go. step_over. unfold_go.
    match goal with
    | p : (option Sandbox.t * string)%type |- _ => destruct p as [sb workingDir]
    end.
    run_over; unfold holds; unfold_go; unfold settled; read_accounts; settle.
Qed.

(** X5. The telemetry of an execution is bracketed: [executeIssue] tells
    the monitor [StartExecution] first, for the issue and its own instance,
    and [EndExecution] last and exactly once, on every path; in between come
    the claim event and the state transitions made so far, in order. An
    execution that returns an error has ended its telemetry as a failure,
    and one that returns nil has made both transitions. *)
Theorem executeIssue_telemetry_is_bracketed (ctx : Context) (issue : Issue.t) (w : World.t S) :
  let r := executeIssue agentEvents issues executions env e ctx issue w in
  exists transitions success gatesPassed,
    monitorCalls (traceOf r) =
      StartExecution (Issue.ID issue) (Executor.instanceID e)
        :: RecordEvent EventTypeIssueClaimed
        :: transitions ++ [EndExecution success gatesPassed]
    /\ (transitions = [] \/ transitions = [toAssessing]
        \/ transitions = [toAssessing; toExecuting])
    /\ match valueOf r with
       | Some _ => success = false /\ gatesPassed = false
       | None => transitions = [toAssessing; toExecuting]
       end.
Proof.
  cbv zeta. pose proof (executeIssue_accounts ctx issue w) as H. unfold holds, settled in H.
  destruct (valueOf (executeIssue agentEvents issues executions env e ctx issue w)).
  - destruct H as (_ & pre & Hin & ->). cbn [In] in Hin.
    destruct Hin as [<-|[<-|[<-|[]]]].
    + exists [], false, false. repeat split. now left.
    + exists [toAssessing], false, false. repeat split. right. now left.
    + exists [toAssessing; toExecuting], false, false. repeat split. right. now right.
  - destruct H as (_ & pre & s & g & Hl & ->). cbn [last] in Hl. injection Hl as <-.
    exists [toAssessing; toExecuting], s, g. repeat split. right. now right.
Qed.

(** X6. [executeIssue] returns an error exactly when it has asked the store
    to release the issue: an execution that returns an error has made one
    release call, for its own issue, and one that returns nil has made
    none. *)
Theorem executeIssue_error_iff_released (ctx : Context) (issue : Issue.t) (w : World.t S) :
  let r := executeIssue agentEvents issues executions env e ctx issue w in
  releases (traceOf r) = match valueOf r with Some _ => [Issue.ID issue] | None => [] end.
Proof.
  cbv zeta. pose proof (executeIssue_accounts ctx issue w) as H. unfold holds, settled in H.
  destruct (valueOf (executeIssue agentEvents issues executions env e ctx issue w));
    apply H.
Qed.

End SettlingProperties.

Lemma eventLoop_one_heartbeat_and_one_poll_per_tick_witness :
  heartbeats
    (traceOf (eventLoop (S := unit) fixedAgentEvents fixedIssues (fixedReadyWork [vc7])
                (fixedInstances None (0, None) (0, None))
                (fixedExecutions (Some "issue vc-7 already claimed"))
                (calmEnv (inl someResult)) (someExecutor 10) CtxAmbient
                [OnTick; OnTick; OnStop; OnTick] (World.started tt None)))
  = ["exec-1"; "exec-1"].
Proof.
  exact (proj1 (eventLoop_one_heartbeat_and_one_poll_per_tick (S := unit)
                  fixedAgentEvents fixedIssues (fixedReadyWork [vc7])
                  (fixedInstances None (0, None) (0, None))
                  (fixedExecutions (Some "issue vc-7 already claimed"))
                  (calmEnv (inl someResult)) (someExecutor 10) CtxAmbient
                  [OnTick; OnTick; OnStop; OnTick] (World.started tt None) eq_refl)).
Defined.

Lemma loops_close_their_done_channel_on_return_witness :
  closedOnReturn cleanupDoneCh
    (cleanupLoop (S := unit) (fixedInstances None (0, None) (0, None))
       (calmEnv (inl someResult)) (someExecutor 10) CtxAmbient
       [COnTick false false; COnStop] (World.started tt None)).
Proof.
  exact (proj1 (proj2 (loops_close_their_done_channel_on_return (S := unit)
                         fixedAgentEvents (fixedEventCleanup 0 0 0 0) fixedIssues
                         (fixedReadyWork []) (fixedInstances None (0, None) (0, None))
                         (fixedExecutions None) (calmEnv (inl someResult)) (someExecutor 10)
                         CtxAmbient (World.started tt None) eq_refl eq_refl eq_refl))
           [COnTick false false; COnStop]).
Defined.

(** ** [New] *)

Lemma New_health_fields (newEnv : NewEnv.t) (cfg : Config.t) (supervisor : bool) :
  fst (New_health newEnv cfg supervisor) =
    (Config.EnableHealthMonitoring cfg && isNil (NewEnv.health_NewMonitorRegistry newEnv), false).
Proof.
  unfold New_health.
  destruct (Config.EnableHealthMonitoring cfg), (NewEnv.health_NewMonitorRegistry newEnv),
    supervisor, (NewEnv.getProjectRootFromStore newEnv); reflexivity.
Qed.

(** The executor [New] answers, field by field. *)
Lemma New_fields (newEnv : NewEnv.t) (cfg : Config.t) (e : Executor.t) (err : error)
  (out : list Output) :
  New newEnv cfg = (Some e, err, out) ->
  let supervisor := Config.EnableAISupervision cfg && isNil (NewEnv.ai_NewSupervisor newEnv) in
  let sandboxMgr := Config.EnableSandboxes cfg && isNil (NewEnv.sandbox_NewManager newEnv) in
  err = None
  /\ Executor.supervisor e = supervisor
  /\ Executor.enableAISupervision e = supervisor
  /\ Executor.sandboxMgr e = sandboxMgr
  /\ Executor.enableSandboxes e = sandboxMgr
  /\ Executor.analyzer e = supervisor && isNil (NewEnv.watchdog_NewAnalyzer newEnv)
  /\ Executor.intervention e = isNil (NewEnv.watchdog_NewInterventionController newEnv)
  /\ Executor.healthRegistry e =
       Config.EnableHealthMonitoring cfg && isNil (NewEnv.health_NewMonitorRegistry newEnv)
  /\ Executor.enableHealthMonitoring e = false
  /\ Executor.enableQualityGates e = Config.EnableQualityGates cfg
  /\ Executor.watchdogConfig e =
       match Config.WatchdogConfig cfg with
       | Some c => c
       | None => NewEnv.watchdog_DefaultWatchdogConfig newEnv
       end
  /\ Executor.config e = cfg.
Proof.
  unfold New. intros H.
  destruct (Config.Store cfg); [|discriminate].
  destruct (NewEnv.os_Hostname newEnv) as [h [m|]]; [discriminate|].
  destruct (Config.EnableAISupervision cfg), (NewEnv.ai_NewSupervisor newEnv),
    (Config.EnableSandboxes cfg), (NewEnv.sandbox_NewManager newEnv),
    (NewEnv.watchdog_NewAnalyzer newEnv), (NewEnv.watchdog_NewInterventionController newEnv);
    cbv beta iota zeta delta [andb] in H;
    match type of H with
    | context [New_health ?a ?b ?c] =>
        pose proof (New_health_fields a b c) as Hh;
        destruct (New_health a b c) as [[hr ehm] out5]
    end;
    cbn [fst] in Hh; injection Hh as -> ->;
    injection H as <- <- _; cbn; repeat split; reflexivity.
Qed.

(** X7. [New] fails in two cases only: without a store ("storage is
    required") and when the host name cannot be read (the error, wrapped). In
    both it answers no executor and prints nothing. In every other case it
    answers an executor and a nil error, whichever of the supervisor, the
    sandbox manager, the watchdog parts and the health registry could not be
    built. *)
Theorem New_fails_only_without_store_or_hostname (newEnv : NewEnv.t) (cfg : Config.t) :
  match Config.Store cfg, NewEnv.os_Hostname newEnv with
  | None, _ => New newEnv cfg = (None, Some "storage is required", [])
  | Some _, (_, Some m) => New newEnv cfg = (None, Some ("failed to get hostname: " +:+ m), [])
  | Some _, (h, None) =>
      exists e out,
        New newEnv cfg = (Some e, None, out)
        /\ Executor.hostname e = h
        /\ Executor.instanceID e = NewEnv.uuid_New newEnv
        /\ Executor.pid e = NewEnv.os_Getpid newEnv
        /\ Executor.config e = cfg
  end.
Proof.
  unfold New.
  destruct (Config.Store cfg); [|reflexivity].
  destruct (NewEnv.os_Hostname newEnv) as [h [m|]]; [reflexivity|].
  repeat match goal with
         | |- context [let '(_, _) := ?x in _] => destruct x as [? ?]
         end.
  eexists _, _. repeat split.
Qed.

(** X8. In an executor built by [New] the enabling flags and the components
    agree: AI supervision is enabled exactly when there is a supervisor, and
    sandboxes exactly when there is a sandbox manager; a component is only
    there if the configuration asked for it; and there is no analyzer without
    a supervisor. *)
Theorem New_flags_agree_with_components
  (newEnv : NewEnv.t) (cfg : Config.t) (e : Executor.t) (err : error) (out : list Output) :
  New newEnv cfg = (Some e, err, out) ->
  Executor.enableAISupervision e = Executor.supervisor e
  /\ Executor.enableSandboxes e = Executor.sandboxMgr e
  /\ (Executor.supervisor e = true -> Config.EnableAISupervision cfg = true)
  /\ (Executor.sandboxMgr e = true -> Config.EnableSandboxes cfg = true)
  /\ (Executor.healthRegistry e = true -> Config.EnableHealthMonitoring cfg = true)
  /\ (Executor.analyzer e = true -> Executor.supervisor e = true).
Proof.
  intros H. apply New_fields in H. cbv zeta in H.
  destruct H as (_ & Hs & Hes & Hm & Hem & Ha & _ & Hh & _).
  rewrite Hes, Hs, Hem, Hm, Hh, Ha.
  repeat split; intros Hx; apply andb_prop in Hx; apply Hx.
Qed.

Lemma New_flags_agree_with_components_witness :
  Executor.enableAISupervision (someExecutor 10) = Executor.supervisor (someExecutor 10)
  /\ Executor.enableSandboxes (someExecutor 10) = Executor.sandboxMgr (someExecutor 10).
Proof.
  pose proof (New_flags_agree_with_components someNewEnv (withStore 10) (someExecutor 10)
                None _ eq_refl) as (H1 & H2 & _).
  split; [exact H1 | exact H2].
Defined.

Lemma healthChecks_avoided (t : list Event) :
  Forall (fun ev => isHealthCheck ev = false) t -> healthChecks t = [].
Proof.
  apply omap_avoided. intros [| c call err | | | |] H; try reflexivity.
  destruct call; try reflexivity; discriminate H.
Qed.

Section HealthProperties.

Context {S : Type}.
Variable agentEvents : AgentEventStore S.
Variable issues : IssueStore S.
Variable readyWork : ReadyWorkStore S.
Variable instances : InstanceStore S.
Variable executions : ExecutionStore S.
Variable env : Collaborators S.

Lemma executeIssue_no_health (e : Executor.t) (ctx : Context) (issue : Issue.t) :
  Avoids isHealthCheck (executeIssue agentEvents issues executions env e ctx issue).
Proof.
  unfold executeIssue, spawnPhase, agentPhase, deferredSandboxCleanup, sandboxPhase,
    assessPhase, failExit, cancelExit, releaseIssueWithError, logEvent.
  avoids by_computing.
Qed.

Local Hint Resolve executeIssue_no_health : avoids.

Lemma eventLoop_no_health (e : Executor.t) (ctx : Context) (sched : list Select) :
  Executor.enableHealthMonitoring e = false ->
  Avoids isHealthCheck
    (eventLoop agentEvents issues readyWork instances executions env e ctx sched).
Proof.
  intros He. induction sched as [|[| |] rest IH]; cbn [eventLoop];
    try (avoids by_computing).
  unfold eventLoopTick, processNextIssue. rewrite He. cbn [andb]. avoids by_computing.
Qed.

(** X9. The health monitors never run. [New] builds its executor with
    [enableHealthMonitoring] unset whatever the configuration asks for (the
    field is left out where the executor is put together, and afterwards only
    ever set to false), and the work loop of such an executor, which tests
    that field, makes no health check on any tick. *)
Theorem New_never_enables_health_monitoring
  (newEnv : NewEnv.t) (cfg : Config.t) (e : Executor.t) (err : error) (out : list Output) :
  New newEnv cfg = (Some e, err, out) ->
  Executor.enableHealthMonitoring e = false
  /\ forall ctx sched (w : World.t S),
       healthChecks
         (traceOf (eventLoop agentEvents issues readyWork instances executions env e ctx sched w))
       = [].
Proof.
  intros H. apply New_fields in H. cbv zeta in H.
  destruct H as (_ & _ & _ & _ & _ & _ & _ & _ & He & _).
  split; [exact He|]. intros ctx sched w.
  destruct (eventLoop_no_health e ctx sched He w) as (_ & _ & Ht).
  now apply healthChecks_avoided.
Qed.

End HealthProperties.

Lemma New_never_enables_health_monitoring_witness :
  Config.EnableHealthMonitoring withHealthMonitoring = true
  /\ Executor.healthRegistry monitoredExecutor = true
  /\ Executor.enableHealthMonitoring monitoredExecutor = false
  /\ healthChecks
       (traceOf (eventLoop (S := unit) fixedAgentEvents fixedIssues (fixedReadyWork [vc7])
                   (fixedInstances None (0, None) (0, None)) (fixedExecutions None)
                   (calmEnv (inl someResult)) monitoredExecutor CtxAmbient [OnTick; OnTick]
                   (World.started tt None)))
     = [].
Proof.
  pose proof (New_never_enables_health_monitoring (S := unit) fixedAgentEvents fixedIssues
                (fixedReadyWork [vc7]) (fixedInstances None (0, None) (0, None))
                (fixedExecutions None) (calmEnv (inl someResult))
                helpfulNewEnv withHealthMonitoring monitoredExecutor None _ eq_refl)
    as [He Hl].
  split; [reflexivity|]. split; [reflexivity|]. split; [exact He|]. apply Hl.
Defined.

(** ** [Start] and [Stop] together *)

Section LifecycleProperties.

Context {S : Type}.
Variable agentEvents : AgentEventStore S.
Variable eventCleanup : EventCleanupStore S.
Variable issues : IssueStore S.
Variable readyWork : ReadyWorkStore S.
Variable instances : InstanceStore S.
Variable executions : ExecutionStore S.
Variable env : Collaborators S.

(** The goroutines of [Start], by its result. *)
Lemma Start_goroutines (e : Executor.t) (ctx : Context) (w : World.t S) :
  let r := Start instances env e ctx w in
  goroutines (traceOf r) =
    match valueOf r with
    | Some _ => []
    | None =>
        GoEventLoop
          :: (if WatchdogConfig.IsEnabled (Executor.watchdogConfig e)
                 && Executor.analyzer e && Executor.intervention e
              then [GoWatchdogLoop] else [])
          ++ [GoCleanupLoop; GoEventCleanupLoop]
    end
  /\ World.running (worldOf r) = (World.running w || isNil (valueOf r)).
Proof.
  cbv zeta. focus_on (Start instances env e ctx w).
  unfold Start, now, cleanupOrphanedBranches.
  run; unfold holds; unfold_go; cbn [goroutines app isNil];
    rewrite ?orb_true_r, ?orb_false_r; split; first [reflexivity | congruence].
Qed.

(** [Stop] returns nil only when every awaited done-signal was delivered. *)
Lemma Stop_nil_needs_watchdog (e : Executor.t) (ctx : Context) (sched : list StopSelect)
  (w : World.t S) :
  awaitsWatchdog e = true ->
  valueOf (Stop instances e ctx sched w) = Returned None ->
  In OnWatchdogDoneCh sched.
Proof.
  intros Ha. focus_on (Stop instances e ctx sched w).
  unfold Stop. unfold_go. rewrite watchdogDone_awaits, Ha. cbn [negb].
  destruct (stopWait false false false false sched) eqn:Hwait.
  - apply stopWait_all in Hwait as (_ & [Hw|Hw] & _); [discriminate Hw|].
    unfold holds. intros _. exact Hw.
  - run; unfold holds; unfold_go; intros H; discriminate H.
  - run; unfold holds; unfold_go; intros H; discriminate H.
Qed.

Lemma closedOnReturn_only (ch ch' : Chan) (r : bool * World.t S * list Event) :
  closedOnReturn ch r -> ch' <> ch -> ~ In ch' (closes (traceOf r)).
Proof.
  unfold closedOnReturn. intros H Hne Hin.
  destruct (valueOf r); [destruct H as [H _]|]; rewrite H in Hin; cbn in Hin; intuition.
Qed.

(** What [Stop] does on a running executor, by the outcome of its wait. *)
Lemma Stop_running (e : Executor.t) (ctx : Context) (sched : list StopSelect) (w : World.t S) :
  World.running w = true ->
  let r := Stop instances e ctx sched w in
  closes (traceOf r) = stopSignals e
  /\ match stopWait false (negb (awaitsWatchdog e)) false false sched with
     | WaitAll => valueOf r = Returned None /\ World.running (worldOf r) = false
     | WaitCtx err =>
         valueOf r = Returned (Some err) /\ worldOf r = w /\ storeCalls (traceOf r) = []
     | WaitBlocked => valueOf r = Blocked /\ worldOf r = w /\ storeCalls (traceOf r) = []
     end.
Proof.
  intros Hr. cbv zeta. focus_on (Stop instances e ctx sched w).
  unfold Stop, stopSignals. unfold_go. rewrite Hr. cbn [negb].
  rewrite watchdogDone_awaits. fold (awaitsWatchdog e).
  destruct (stopWait false (negb (awaitsWatchdog e)) false false sched);
    run; unfold holds; unfold_go; repeat split.
Qed.

Lemma Stop_not_running (e : Executor.t) (ctx : Context) (sched : list StopSelect)
  (w : World.t S) :
  World.running w = false ->
  Stop instances e ctx sched w = (Returned (Some "executor is not running"), w, []).
Proof. intros Hr. unfold Stop. unfold_go. rewrite Hr. reflexivity. Qed.

Lemma Start_registered (e : Executor.t) (ctx : Context) (w : World.t S) (s1 : S) :
  World.running w = false ->
  RegisterInstance instances (ctxDone ctx w)
    (instanceRow e (time_Now env (World.clock w)) (time_Now env (World.clock w)))
    (World.store w) = (None, s1) ->
  valueOf (Start instances env e ctx w) = None.
Proof.
  intros Hr Hreg. focus_on (Start instances env e ctx w).
  unfold Start, now, cleanupOrphanedBranches. unfold_go. rewrite Hr.
  unfold_go. rewrite ctxDone_running, Hreg.
  run; unfold holds; reflexivity.
Qed.

(** X10. [Start] starts the watchdog loop only when the watchdog is enabled
    and both the analyzer and the intervention controller are there, while
    [Stop] closes the watchdog's stop channel and waits for its done-signal
    as soon as the watchdog is enabled and the analyzer is there. For an
    executor with an analyzer and no intervention controller, [Start] starts
    no watchdog loop, none of the three loops it does start ever closes the
    watchdog's done channel, and [Stop] cannot return nil without that
    signal. *)
Theorem Stop_awaits_a_watchdog_loop_Start_never_started (e : Executor.t) (ctx : Context) :
  WatchdogConfig.IsEnabled (Executor.watchdogConfig e) = true ->
  Executor.analyzer e = true ->
  Executor.intervention e = false ->
  (forall w, ~ In GoWatchdogLoop (goroutines (traceOf (Start instances env e ctx w))))
  /\ (forall sched (w : World.t S),
        ~ In watchdogDoneCh
            (closes (traceOf (eventLoop agentEvents issues readyWork instances executions
                                env e ctx sched w))))
  /\ (forall sched (w : World.t S),
        ~ In watchdogDoneCh (closes (traceOf (cleanupLoop instances env e ctx sched w))))
  /\ (forall sched (w : World.t S),
        ~ In watchdogDoneCh
            (closes (traceOf (eventCleanupLoop agentEvents eventCleanup env e ctx sched w))))
  /\ (forall ctx' sched (w : World.t S),
        World.running w = true ->
        In watchdogStopCh (closes (traceOf (Stop instances e ctx' sched w)))
        /\ (valueOf (Stop instances e ctx' sched w) = Returned None ->
            In OnWatchdogDoneCh sched)).
Proof.
  intros Hen Han Hin.
  assert (Ha : awaitsWatchdog e = true) by (unfold awaitsWatchdog; now rewrite Hen, Han).
  split; [|split; [|split; [|split]]].
  - intros w. destruct (Start_goroutines e ctx w) as [Hg _]. rewrite Hg, Hen, Han, Hin.
    destruct (valueOf (Start instances env e ctx w)); cbn; intuition discriminate.
  - intros sched w. eapply closedOnReturn_only; [apply eventLoop_closedOnReturn|discriminate].
  - intros sched w. eapply closedOnReturn_only; [apply cleanupLoop_closedOnReturn|discriminate].
  - intros sched w.
    eapply closedOnReturn_only; [apply eventCleanupLoop_closedOnReturn|discriminate].
  - intros ctx' sched w Hr. split.
    + destruct (Stop_running e ctx' sched w Hr) as [Hc _]. rewrite Hc.
      unfold stopSignals. rewrite Ha. cbn. auto.
    + now apply Stop_nil_needs_watchdog.
Qed.

(** X11. A [Stop] whose context fires while a done-signal is still awaited
    returns the context's error, having closed its stop channels and made no
    store call: the instance is not marked stopped and the executor still
    counts as running, so [Start] refuses it. *)
Theorem Stop_cut_short_leaves_the_executor_running
  (e : Executor.t) (ctx : Context) (sched : list StopSelect) (err : string)
  (w : World.t S) :
  World.running w = true ->
  stopWait false (negb (awaitsWatchdog e)) false false sched = WaitCtx err ->
  let r := Stop instances e ctx sched w in
  valueOf r = Returned (Some err)
  /\ storeCalls (traceOf r) = []
  /\ closes (traceOf r) = stopSignals e
  /\ valueOf (IsRunning (worldOf r)) = true
  /\ Start instances env e ctx (worldOf r) = (Some "executor is already running", worldOf r, []).
Proof.
  intros Hr Hwait. cbv zeta.
  destruct (Stop_running e ctx sched w Hr) as [Hc Hs]. rewrite Hwait in Hs.
  destruct Hs as (Hv & Hw & Hcalls). rewrite Hw.
  repeat split; try assumption.
  unfold Start. unfold_go. rewrite Hr. reflexivity.
Qed.

(** X12. [Start] and [Stop] take the running flag there and back: after a
    [Start] whose registration succeeds the executor is running; a [Stop]
    that sees every awaited done-signal returns nil and leaves it not
    running; a further [Stop] is refused with an error, and does nothing. *)
Theorem Start_then_Stop_round_trip
  (e : Executor.t) (ctx : Context) (sched sched' : list StopSelect) (w : World.t S) (s1 : S) :
  World.running w = false ->
  RegisterInstance instances (ctxDone ctx w)
    (instanceRow e (time_Now env (World.clock w)) (time_Now env (World.clock w)))
    (World.store w) = (None, s1) ->
  stopWait false (negb (awaitsWatchdog e)) false false sched = WaitAll ->
  let started := Start instances env e ctx w in
  let stopped := Stop instances e ctx sched (worldOf started) in
  valueOf started = None
  /\ valueOf (IsRunning (worldOf started)) = true
  /\ valueOf stopped = Returned None
  /\ valueOf (IsRunning (worldOf stopped)) = false
  /\ Stop instances e ctx sched' (worldOf stopped)
     = (Returned (Some "executor is not running"), worldOf stopped, []).
Proof.
  intros Hr Hreg Hwait. cbv zeta.
  pose proof (Start_registered e ctx w s1 Hr Hreg) as Hv.
  destruct (Start_goroutines e ctx w) as [_ Hrun]. rewrite Hv, Hr in Hrun. cbn in Hrun.
  destruct (Stop_running e ctx sched _ Hrun) as [_ Hs]. rewrite Hwait in Hs.
  destruct Hs as [Hsv Hsr].
  repeat split; try assumption.
  apply Stop_not_running. exact Hsr.
Qed.

End LifecycleProperties.

Lemma Stop_awaits_a_watchdog_loop_Start_never_started_witness :
  built noInterventionEnv (withStore 10) = Some unattendedExecutor
  /\ ~ In GoWatchdogLoop
         (goroutines (traceOf (Start (S := unit) (fixedInstances None (0, None) (0, None))
                                 (calmEnv (inl someResult)) unattendedExecutor CtxAmbient
                                 (World.init tt None)))).
Proof.
  pose proof (Stop_awaits_a_watchdog_loop_Start_never_started (S := unit)
                fixedAgentEvents (fixedEventCleanup 0 0 0 0) fixedIssues (fixedReadyWork [])
                (fixedInstances None (0, None) (0, None)) (fixedExecutions None)
                (calmEnv (inl someResult)) unattendedExecutor CtxAmbient
                eq_refl eq_refl eq_refl) as [H _].
  split; [reflexivity | apply H].
Defined.

Lemma Stop_cut_short_leaves_the_executor_running_witness :
  let r := Stop (S := unit) (fixedInstances None (0, None) (0, None)) (someExecutor 10)
             CtxAmbient [OnDoneCh; OnStopCtxDone "context deadline exceeded"]
             (World.started tt None) in
  valueOf r = Returned (Some "context deadline exceeded")
  /\ valueOf (IsRunning (worldOf r)) = true.
Proof.
  pose proof (Stop_cut_short_leaves_the_executor_running (S := unit)
                (fixedInstances None (0, None) (0, None)) (calmEnv (inl someResult))
                (someExecutor 10) CtxAmbient
                [OnDoneCh; OnStopCtxDone "context deadline exceeded"]
                "context deadline exceeded" (World.started tt None) eq_refl eq_refl) as H.
  cbv zeta in H. destruct H as (H1 & _ & _ & H4 & _).
  split; [exact H1 | exact H4].
Defined.

Lemma Start_then_Stop_round_trip_witness :
  let started := Start (S := unit) (fixedInstances None (0, None) (0, None))
                   (calmEnv (inl someResult)) (someExecutor 10) CtxAmbient
                   (World.init tt None) in
  let stopped := Stop (fixedInstances None (0, None) (0, None)) (someExecutor 10) CtxAmbient
                   [OnCleanupDoneCh; OnDoneCh; OnEventCleanupDoneCh] (worldOf started) in
  valueOf (IsRunning (worldOf started)) = true
  /\ valueOf (IsRunning (worldOf stopped)) = false.
Proof.
  pose proof (Start_then_Stop_round_trip (S := unit)
                (fixedInstances None (0, None) (0, None)) (calmEnv (inl someResult))
                (someExecutor 10) CtxAmbient
                [OnCleanupDoneCh; OnDoneCh; OnEventCleanupDoneCh] []
                (World.init tt None) tt eq_refl eq_refl eq_refl) as H.
  cbv zeta in H. destruct H as (_ & H2 & _ & H4 & _).
  split; [exact H2 | exact H4].
Defined.

(** ** The cleanup loops *)

Section CleanupLoopProperties.

Context {S : Type}.
Variable agentEvents : AgentEventStore S.
Variable eventCleanup : EventCleanupStore S.
Variable instances : InstanceStore S.
Variable env : Collaborators S.

(** X13. The cleanup work of a tick fails only when [CleanupStaleInstances]
    fails: it then returns that error having done nothing else. Otherwise it
    sweeps the stale failed sandboxes if there is a sandbox manager and a
    positive retention count, always goes on to delete the old stopped
    instances, and returns nil whatever these two answer. *)
Theorem cleanupWork_fails_only_on_stale_instances
  (e : Executor.t) (ctx : Context) (w : World.t S) :
  let r := cleanupWork instances env e ctx w in
  let secs := int_of_float64 (time.Seconds (Executor.staleThreshold e)) in
  let age := int_of_float64 (time.Seconds (Executor.instanceCleanupAge e)) in
  let retention := Config.SandboxRetentionCount (Executor.config e) in
  match snd (fst (CleanupStaleInstances instances (ctxDone ctx w) secs (World.store w))) with
  | Some m =>
      valueOf r = Some m
      /\ callsOf (traceOf r) = [CallCleanupStaleInstances secs]
      /\ sandboxSweeps (traceOf r) = []
  | None =>
      valueOf r = None
      /\ callsOf (traceOf r) =
           [CallCleanupStaleInstances secs;
            CallDeleteOldStoppedInstances age (Executor.instanceCleanupKeep e)]
      /\ sandboxSweeps (traceOf r) =
           (if Executor.sandboxMgr e && (retention >? 0) then [retention] else [])
  end.
Proof.
  cbv zeta. focus_on (cleanupWork instances env e ctx w).
  unfold cleanupWork. unfold_go.
  destruct (CleanupStaleInstances instances (ctxDone ctx w) _ (World.store w))
    as [[cleaned [m|]] s1]; cbn [fst snd]; unfold_go.
  - unfold holds. repeat split.
  - destruct (Executor.sandboxMgr e && (Config.SandboxRetentionCount (Executor.config e) >? 0));
      run; unfold holds; unfold_go; repeat split.
Qed.

Lemma cleanupLoop_value (e : Executor.t) (ctx : Context) (sched : list CleanupSelect)
  (w : World.t S) :
  valueOf (cleanupLoop instances env e ctx sched w) = existsb cleanupStops sched.
Proof.
  revert w. induction sched as [|[| |stopReady stopFirst] rest IH]; intros w;
    cbn [cleanupLoop existsb cleanupStops]; try reflexivity.
  destruct stopReady; [reflexivity|]. rewrite valueOf_bind.
  destruct stopFirst; [reflexivity|]. rewrite valueOf_bind. cbn [orb]. apply IH.
Qed.

Lemma eventCleanupTicks_value (e : Executor.t) (ctx : Context) (cfg : EventRetentionConfig.t)
  (sched : list EventCleanupSelect) (w : World.t S) :
  valueOf (eventCleanupTicks agentEvents eventCleanup env e ctx cfg sched w)
  = existsb eventCleanupStops sched.
Proof.
  revert w. induction sched as [|[| |stopReady] rest IH]; intros w;
    cbn [eventCleanupTicks existsb eventCleanupStops]; try reflexivity.
  destruct stopReady; [reflexivity|]. rewrite !valueOf_bind. cbn [orb]. apply IH.
Qed.

Lemma runEventCleanup_first_call (e : Executor.t) (ctx : Context)
  (cfg : EventRetentionConfig.t) (w : World.t S) :
  head (callsOf (traceOf (runEventCleanup agentEvents eventCleanup env e ctx cfg w)))
  = Some (CallCleanupEventsByAge (EventRetentionConfig.RetentionDays cfg)
            (EventRetentionConfig.RetentionCriticalDays cfg)
            (EventRetentionConfig.CleanupBatchSize cfg)).
Proof.
  unfold runEventCleanup. rewrite traceOf_bind. cbn [traceOf now snd app].
  rewrite traceOf_bind, callsOf_app. unfold storeVal at 1. unfold traceOf at 1.
  destruct (CleanupEventsByAge eventCleanup _ _ _ _ _) as [r s1]. reflexivity.
Qed.

(** X14. [eventCleanupLoop] uses the retention configuration of the
    executor's configuration, or the default one when there is none. With a
    configuration that fails validation it returns at once, having printed
    one line on the standard error and made no store call; with cleanup
    disabled it returns at once too, with no store call. Otherwise it runs a
    first cleanup cycle before it waits for any tick, and then returns
    exactly when its [select] takes a case that stops it, however the cycles
    end. *)
Theorem eventCleanupLoop_runs_only_when_valid_and_enabled
  (e : Executor.t) (ctx : Context) (sched : list EventCleanupSelect) (w : World.t S) :
  let cfg := retentionConfigOf env e in
  (retentionCfg_Validate env cfg = None ->
   EventRetentionConfig.CleanupEnabled cfg = true ->
   0 < wrap64 (EventRetentionConfig.CleanupIntervalHours cfg * time.Hour)) ->
  let r := eventCleanupLoop agentEvents eventCleanup env e ctx sched w in
  match retentionCfg_Validate env cfg with
  | Some m =>
      valueOf r = true /\ callsOf (traceOf r) = []
      /\ stderrOf (traceOf r)
         = ["Event cleanup: Invalid configuration: " +:+ m +:+ " (cleanup disabled)"]
  | None =>
      if EventRetentionConfig.CleanupEnabled cfg
      then head (callsOf (traceOf r))
           = Some (CallCleanupEventsByAge (EventRetentionConfig.RetentionDays cfg)
                     (EventRetentionConfig.RetentionCriticalDays cfg)
                     (EventRetentionConfig.CleanupBatchSize cfg))
           /\ valueOf r = existsb eventCleanupStops sched
      else valueOf r = true /\ callsOf (traceOf r) = []
  end.
Proof.
  intros cfg _ r. subst r. unfold eventCleanupLoop. fold (retentionConfigOf env e). fold cfg.
  cbv zeta. rewrite traceOf_bind, valueOf_bind. cbn [traceOf valueOf worldOf extPure emit fst snd].
  destruct (retentionCfg_Validate env cfg) as [m|].
  - repeat split.
  - destruct (EventRetentionConfig.CleanupEnabled cfg); cbn [negb]; [|repeat split].
    rewrite !traceOf_bind, !valueOf_bind.
    cbn [traceOf worldOf valueOf print emit fst snd app].
    split; [|apply eventCleanupTicks_value].
    change (callsOf (?a :: ?b :: ?t)) with (callsOf t). rewrite callsOf_app.
    pose proof (runEventCleanup_first_call e ctx cfg w) as Hf.
    destruct (callsOf (traceOf (runEventCleanup agentEvents eventCleanup env e ctx cfg w)));
      [discriminate Hf|exact Hf].
Qed.

End CleanupLoopProperties.

(** X15. [cleanupLoop], given a positive interval for its ticker, returns
    exactly when its [select] takes the context's or the stop case, or finds
    the stop channel closed on a tick; a failure of the cleanup work never
    ends it. *)
Theorem cleanupLoop_returns_only_when_stopped
  (S : Type) (instances : InstanceStore S) (env : Collaborators S)
  (e : Executor.t) (ctx : Context) (sched : list CleanupSelect) (w : World.t S) :
  0 < Executor.cleanupInterval e ->
  valueOf (cleanupLoop instances env e ctx sched w) = existsb cleanupStops sched.
Proof. intros _. apply cleanupLoop_value. Qed.

Lemma cleanupLoop_returns_only_when_stopped_witness :
  valueOf (cleanupLoop (S := unit) (fixedInstances None (0, Some "disk I/O error") (0, None))
             (calmEnv (inl someResult)) (someExecutor 10) CtxAmbient
             [COnTick false false; COnTick false false] (World.started tt None))
  = false.
Proof.
  exact (cleanupLoop_returns_only_when_stopped unit
           (fixedInstances None (0, Some "disk I/O error") (0, None))
           (calmEnv (inl someResult)) (someExecutor 10) CtxAmbient
           [COnTick false false; COnTick false false] (World.started tt None) eq_refl).
Defined.

Lemma eventCleanupLoop_runs_only_when_valid_and_enabled_witness :
  head (callsOf (traceOf (eventCleanupLoop (S := unit) fixedAgentEvents
                            (fixedEventCleanup 10 2 0 488) (calmEnv (inl someResult))
                            (someExecutor 10) CtxAmbient [] (World.started tt None))))
  = Some (CallCleanupEventsByAge 30 180 1000).
Proof.
  exact (proj1 (eventCleanupLoop_runs_only_when_valid_and_enabled (S := unit)
                  fixedAgentEvents (fixedEventCleanup 10 2 0 488) (calmEnv (inl someResult))
                  (someExecutor 10) CtxAmbient [] (World.started tt None)
                  (fun _ _ => eq_refl))).
Defined.

(** ** Reading the agent events back *)

Lemma nullString_nullIfEmpty (s : string) : nullString (nullIfEmpty s) = s.
Proof. unfold nullIfEmpty. destruct (decide (s = "")) as [->|]; reflexivity. Qed.

Lemma nullIfEmpty_not_empty (s : string) : nullIfEmpty s <> Some "".
Proof. unfold nullIfEmpty. destruct (decide (s = "")); congruence. Qed.

Lemma tableOf_snoc (rowid : nat -> Z) (rows : list AgentEventRow.t) (row : AgentEventRow.t) :
  imap (fun i r => (rowid i, r)) (rows ++ [row])
  = imap (fun i r => (rowid i, r)) rows ++ [(rowid (length rows), row)].
Proof. rewrite imap_app. cbn. now rewrite Nat.add_0_r. Qed.

Global Instance earlierFirst_total : Total earlierFirst.
Proof. intros a b. unfold earlierFirst. lia. Qed.

Global Instance earlierFirst_trans : Transitive earlierFirst.
Proof. intros a b c. unfold earlierFirst. lia. Qed.

Global Instance laterFirst_total : Total laterFirst.
Proof. intros a b. unfold laterFirst. lia. Qed.

Global Instance laterFirst_trans : Transitive laterFirst.
Proof. intros a b c. unfold laterFirst. lia. Qed.

Lemma StronglySorted_take {A} (R : relation A) (n : nat) (l : list A) :
  StronglySorted R l -> StronglySorted R (take n l).
Proof.
  intros H. revert n. induction H as [|x l Hl IH Hx]; intros [|n]; cbn; try constructor.
  - apply IH.
  - now apply Forall_take.
Qed.

Lemma StronglySorted_sqlLimit {A} (R : relation A) (n : Z) (l : list A) :
  StronglySorted R l -> StronglySorted R (sqlLimit n l).
Proof. unfold sqlLimit. destruct (n <? 0); [auto|apply StronglySorted_take]. Qed.

(** The outcome of [StoreAgentEvent], in full. *)
Lemma StoreAgentEvent_outcome (cancelled : bool) (event : AgentEvent.t) (db : DB.t) :
  let accepted :=
    match AgentEvent.Data event with
    | Some m => match json_Marshal m with inl _ => true | inr _ => false end
    | None => true
    end
    && negb cancelled
    && fk_issue_ok (DB.issues db) (nullIfEmpty (AgentEvent.IssueID event)) in
  let dataJSON :=
    match AgentEvent.Data event with Some m => JSONOf m | None => EmptyText end in
  VCStorage_StoreAgentEvent cancelled event db =
    if accepted
    then (None, {| DB.issues := DB.issues db;
                   DB.vc_agent_events := DB.vc_agent_events db ++ [agentEventRow event dataJSON];
                   DB.vc_issue_execution_state := DB.vc_issue_execution_state db;
                   DB.vc_execution_history := DB.vc_execution_history db;
                   DB.comments := DB.comments db |})
    else (Some (errText (fst (VCStorage_StoreAgentEvent cancelled event db))), db).
Proof.
  cbv zeta. unfold VCStorage_StoreAgentEvent, json_Marshal, insertAgentEvent.
  destruct (AgentEvent.Data event) as [m|].
  - destruct (omap _ (entriesInOrder m)); [|reflexivity].
    destruct cancelled; [reflexivity|]. cbn [agentEventRow AgentEventRow.issue_id andb negb].
    destruct (fk_issue_ok _ _); reflexivity.
  - destruct cancelled; [reflexivity|]. cbn [agentEventRow AgentEventRow.issue_id andb negb].
    destruct (fk_issue_ok _ _); reflexivity.
Qed.

(** X16. [StoreAgentEvent] stores one row or nothing. When it returns nil,
    its context was live, the event names no issue or an issue that exists,
    exactly one row, the event's, was appended to [vc_agent_events], and no
    other table changed; when it returns an error the database is as it
    was. *)
Theorem StoreAgentEvent_stores_one_row_or_nothing
  (cancelled : bool) (event : AgentEvent.t) (db : DB.t) :
  let r := VCStorage_StoreAgentEvent cancelled event db in
  match fst r with
  | None =>
      cancelled = false
      /\ (AgentEvent.IssueID event = ""
          \/ is_Some (DB.issues db !! AgentEvent.IssueID event))
      /\ (exists dataJSON,
            DB.vc_agent_events (snd r)
            = DB.vc_agent_events db ++ [agentEventRow event dataJSON])
      /\ DB.issues (snd r) = DB.issues db
      /\ DB.vc_issue_execution_state (snd r) = DB.vc_issue_execution_state db
      /\ DB.vc_execution_history (snd r) = DB.vc_execution_history db
      /\ DB.comments (snd r) = DB.comments db
  | Some _ => snd r = db
  end.
Proof.
  cbv zeta. rewrite StoreAgentEvent_outcome.
  destruct (_ && negb cancelled && _) eqn:Hacc; cbn [fst snd]; [|reflexivity].
  apply andb_prop in Hacc as [Hacc Hfk]. apply andb_prop in Hacc as [_ Hc].
  repeat split; eauto.
  - now destruct cancelled.
  - unfold fk_issue_ok, nullIfEmpty in Hfk.
    destruct (decide (AgentEvent.IssueID event = "")) as [He|He]; [left; exact He|].
    right. now apply bool_decide_eq_true in Hfk.
Qed.

Section QueryProperties.

Variable rowid : nat -> Z.
Variable Status_String : Status -> string.
Variable AgentType_String : AgentType -> string.

Lemma sorted_scan (R : relation Z) (rows : list (Z * AgentEventRow.t)) :
  StronglySorted (fun a b => R (AgentEventRow.timestamp (snd a)) (AgentEventRow.timestamp (snd b)))
    rows ->
  StronglySorted (fun a b => R (AgentEvent.Timestamp a) (AgentEvent.Timestamp b))
    (map (scanAgentEvent Status_String AgentType_String) rows).
Proof.
  intros H. eapply StronglySorted_fmap; [|exact H]. intros a b Hab. exact Hab.
Qed.

(** X17. [GetAgentEventsByIssue] answers the events of the rows whose
    [issue_id] is the one asked for, each once, ordered by timestamp, the
    earliest first. With a cancelled context it answers an error and no
    event. *)
Theorem GetAgentEventsByIssue_answers_the_events_of_the_issue
  (issueID : string) (db : DB.t) :
  let r := fst (VCStorage_GetAgentEventsByIssue rowid Status_String AgentType_String false issueID db) in
  snd (VCStorage_GetAgentEventsByIssue rowid Status_String AgentType_String false issueID db) = None
  /\ Forall (fun e => AgentEvent.IssueID e = issueID) r
  /\ StronglySorted (fun a b => AgentEvent.Timestamp a <= AgentEvent.Timestamp b) r
  /\ r ≡ₚ map (scanAgentEvent Status_String AgentType_String)
            (filter (fun row => AgentEventRow.issue_id (snd row) = Some issueID) (tableOf rowid db))
  /\ VCStorage_GetAgentEventsByIssue rowid Status_String AgentType_String true issueID db
     = ([], Some "failed to query agent events: context canceled").
Proof.
  cbv zeta. unfold VCStorage_GetAgentEventsByIssue. cbn [fst snd].
  split; [reflexivity|]. split; [|split; [|split; [|reflexivity]]].
  - apply List.Forall_forall. intros ev Hin.
    apply in_map_iff in Hin as (row & <- & Hrow). apply list_elem_of_In in Hrow.
    rewrite merge_sort_Permutation in Hrow. apply list_elem_of_filter in Hrow as [Hid _].
    cbn. now rewrite Hid.
  - apply (sorted_scan Z.le). apply (StronglySorted_merge_sort earlierFirst).
  - apply fmap_Permutation, merge_sort_Permutation.
Qed.

Lemma selects_accepts (flt : EventFilter.t) (row : Z * AgentEventRow.t) :
  selects flt row -> accepts flt (scanAgentEvent Status_String AgentType_String row).
Proof.
  unfold selects, accepts. cbn. intros (Hi & Ht & Hs & Ha & Hb).
  repeat split; try assumption.
  destruct Hi as [Hi|Hi]; [left; exact Hi|right]. now rewrite Hi.
Qed.

Lemma length_sqlLimit {A} (n : Z) (l : list A) :
  length (sqlLimit n l) = if n <? 0 then length l else Nat.min (Z.to_nat n) (length l).
Proof. unfold sqlLimit. destruct (n <? 0); [reflexivity|apply length_take]. Qed.

(** X18. [GetAgentEvents] answers the events of the rows that meet every
    criterion of the filter (a field left at its zero value is no
    criterion), each once, the latest first: all of them when [Limit] is zero
    or less, and the first [Limit] of them when it is positive. Every event
    answered meets the filter. With a cancelled context it answers an error
    and no event. *)
Theorem GetAgentEvents_answers_the_filtered_events (flt : EventFilter.t) (db : DB.t) :
  let r := fst (VCStorage_GetAgentEvents rowid Status_String AgentType_String false flt db) in
  let n := length (filter (selects flt) (tableOf rowid db)) in
  snd (VCStorage_GetAgentEvents rowid Status_String AgentType_String false flt db) = None
  /\ (exists all,
        all ≡ₚ map (scanAgentEvent Status_String AgentType_String)
                 (filter (selects flt) (tableOf rowid db))
        /\ StronglySorted (fun a b => AgentEvent.Timestamp b <= AgentEvent.Timestamp a) all
        /\ r = if EventFilter.Limit flt >? 0
               then take (Z.to_nat (EventFilter.Limit flt)) all else all)
  /\ Forall (accepts flt) r
  /\ StronglySorted (fun a b => AgentEvent.Timestamp b <= AgentEvent.Timestamp a) r
  /\ length r = (if EventFilter.Limit flt >? 0
                 then Nat.min (Z.to_nat (EventFilter.Limit flt)) n else n)
  /\ VCStorage_GetAgentEvents rowid Status_String AgentType_String true flt db
     = ([], Some "failed to query agent events: context canceled").
Proof.
  cbv zeta. unfold VCStorage_GetAgentEvents. cbn [fst snd].
  split; [reflexivity|]. split; [|split; [|split; [|split; [|reflexivity]]]].
  - exists (map (scanAgentEvent Status_String AgentType_String)
              (merge_sort laterFirst (filter (selects flt) (tableOf rowid db)))).
    split; [apply fmap_Permutation, merge_sort_Permutation|]. split.
    + apply (sorted_scan (fun a b => b <= a)), (StronglySorted_merge_sort laterFirst).
    + destruct (Z.gtb_spec (EventFilter.Limit flt) 0) as [Hpos|Hle]; [|reflexivity].
      unfold sqlLimit. destruct (Z.ltb_spec (EventFilter.Limit flt) 0); [lia|].
      now rewrite <- fmap_take.
  - apply List.Forall_forall. intros ev Hin.
    apply in_map_iff in Hin as (row & <- & Hrow). apply list_elem_of_In in Hrow.
    apply selects_accepts.
    assert (Hin : row ∈ merge_sort laterFirst (filter (selects flt) (tableOf rowid db))).
    { destruct (EventFilter.Limit flt >? 0); [|exact Hrow].
      unfold sqlLimit in Hrow. destruct (EventFilter.Limit flt <? 0); [exact Hrow|].
      eapply elem_of_sublist; [exact Hrow|apply sublist_take]. }
    rewrite merge_sort_Permutation in Hin. now apply list_elem_of_filter in Hin.
  - apply (sorted_scan (fun a b => b <= a)).
    destruct (EventFilter.Limit flt >? 0); [apply StronglySorted_sqlLimit|];
      apply (StronglySorted_merge_sort laterFirst).
  - rewrite length_map.
    destruct (Z.gtb_spec (EventFilter.Limit flt) 0) as [Hpos|Hle].
    + rewrite length_sqlLimit. destruct (Z.ltb_spec (EventFilter.Limit flt) 0); [lia|].
      now rewrite merge_sort_Permutation.
    + now rewrite merge_sort_Permutation.
Qed.

Lemma filter_noFilter (rows : list (Z * AgentEventRow.t)) :
  filter (selects noFilter) rows = rows.
Proof.
  induction rows as [|row rows IH]; [reflexivity|].
  rewrite filter_cons_True; [now rewrite IH|].
  unfold selects, noFilter. cbn. tauto.
Qed.

(** X19. [GetRecentAgentEvents] answers the latest [limit] events of the
    whole table, the latest first: what [GetAgentEvents] answers for the
    empty filter, cut to [limit] events. A [limit] of zero answers no event
    (where a [Limit] of zero in a filter means no limit), and a negative one
    answers all of them. *)
Theorem GetRecentAgentEvents_answers_the_latest_events (limit : Z) (db : DB.t) :
  let all := fst (VCStorage_GetAgentEvents rowid Status_String AgentType_String false noFilter db) in
  VCStorage_GetRecentAgentEvents rowid Status_String AgentType_String false limit db
  = (if limit <? 0 then all else take (Z.to_nat limit) all, None)
  /\ length all = length (DB.vc_agent_events db)
  /\ StronglySorted (fun a b => AgentEvent.Timestamp b <= AgentEvent.Timestamp a)
       (fst (VCStorage_GetRecentAgentEvents rowid Status_String AgentType_String false limit db))
  /\ VCStorage_GetRecentAgentEvents rowid Status_String AgentType_String true limit db
     = ([], Some "failed to query recent agent events: context canceled").
Proof.
  cbv zeta. unfold VCStorage_GetRecentAgentEvents, VCStorage_GetAgentEvents.
  cbn [fst snd EventFilter.Limit noFilter]. rewrite filter_noFilter.
  change (0 >? 0) with false. cbv iota.
  split; [|split; [|split; [|reflexivity]]].
  - unfold sqlLimit. destruct (limit <? 0); [reflexivity|].
    now rewrite <- fmap_take.
  - rewrite length_map, merge_sort_Permutation. unfold tableOf. apply length_imap.
  - apply (sorted_scan (fun a b => b <= a)), StronglySorted_sqlLimit.
    apply (StronglySorted_merge_sort laterFirst).
Qed.

Lemma StoreAgentEvent_table (event : AgentEvent.t) (db db' : DB.t) :
  VCStorage_StoreAgentEvent false event db = (None, db') ->
  exists dataJSON,
    dataJSON = match AgentEvent.Data event with Some m => JSONOf m | None => EmptyText end
    /\ tableOf rowid db'
       = tableOf rowid db ++ [(rowid (length (DB.vc_agent_events db)),
                               agentEventRow event dataJSON)].
Proof.
  rewrite StoreAgentEvent_outcome. cbv zeta.
  destruct (_ && negb false && _); [|discriminate]. intros H. injection H as <-.
  eexists. split; [reflexivity|]. unfold tableOf. cbn [DB.vc_agent_events].
  apply tableOf_snoc.
Qed.

Lemma scan_stored (id : Z) (event : AgentEvent.t) :
  scanAgentEvent Status_String AgentType_String (id, agentEventRow event
              match AgentEvent.Data event with Some m => JSONOf m | None => EmptyText end)
  = readBack Status_String AgentType_String id event.
Proof.
  unfold scanAgentEvent, readBack, agentEventRow. cbn.
  rewrite !nullString_nullIfEmpty. destruct (AgentEvent.Data event); reflexivity.
Qed.

(** X20. An event stored without an issue is in no answer of
    [GetAgentEventsByIssue], whatever issue is asked for, the empty one
    included: storing it leaves every such answer as it was. It is read back
    by [GetAgentEvents] with the empty filter, under the id of the row it
    was stored in, whatever that id is. *)
Theorem events_without_issue_are_not_found_by_issue
  (event : AgentEvent.t) (db db' : DB.t) (issueID : string) :
  AgentEvent.IssueID event = "" ->
  VCStorage_StoreAgentEvent false event db = (None, db') ->
  VCStorage_GetAgentEventsByIssue rowid Status_String AgentType_String false issueID db'
  = VCStorage_GetAgentEventsByIssue rowid Status_String AgentType_String false issueID db
  /\ In (readBack Status_String AgentType_String
           (rowid (length (DB.vc_agent_events db))) event)
        (fst (VCStorage_GetAgentEvents rowid Status_String AgentType_String false noFilter db')).
Proof.
  intros Hid Hst. apply StoreAgentEvent_table in Hst as (json & -> & Ht).
  split.
  - unfold VCStorage_GetAgentEventsByIssue. rewrite Ht, filter_app.
    rewrite filter_cons_False, filter_nil, app_nil_r; [reflexivity|].
    cbn. rewrite Hid. discriminate.
  - unfold VCStorage_GetAgentEvents. cbn [fst EventFilter.Limit noFilter].
    change (0 >? 0) with false. cbv iota. rewrite filter_noFilter.
    apply in_map_iff. eexists. split; [apply scan_stored|].
    apply list_elem_of_In. rewrite merge_sort_Permutation, Ht.
    apply elem_of_app. right. apply list_elem_of_singleton. reflexivity.
Qed.

(** X21. An event stored for an issue is read back by
    [GetAgentEventsByIssue] for that issue, with every field as it was stored
    except two: its [ID] is the id of the row it was stored in, whatever
    that id is, not the identifier the event came with; and its data have
    gone through JSON, where numbers become [float64], typed strings plain
    strings, and strings and keys valid UTF-8. The events that were there
    before are still answered, and the answer has grown by one. *)
Theorem stored_event_is_read_back_for_its_issue (event : AgentEvent.t) (db db' : DB.t) :
  AgentEvent.IssueID event <> "" ->
  VCStorage_StoreAgentEvent false event db = (None, db') ->
  let before :=
    fst (VCStorage_GetAgentEventsByIssue rowid Status_String AgentType_String false
           (AgentEvent.IssueID event) db) in
  let after :=
    fst (VCStorage_GetAgentEventsByIssue rowid Status_String AgentType_String false
           (AgentEvent.IssueID event) db') in
  In (readBack Status_String AgentType_String
        (rowid (length (DB.vc_agent_events db))) event) after
  /\ (forall e, In e before -> In e after)
  /\ length after = Datatypes.S (length before).
Proof.
  intros Hid Hst. apply StoreAgentEvent_table in Hst as (json & -> & Ht). cbv zeta.
  unfold VCStorage_GetAgentEventsByIssue. cbn [fst]. rewrite Ht, filter_app.
  rewrite filter_cons_True, filter_nil
    by (cbn; unfold nullIfEmpty; destruct (decide _); [contradiction|reflexivity]).
  split; [|split].
  - apply in_map_iff. eexists. split; [apply scan_stored|].
    apply list_elem_of_In. rewrite merge_sort_Permutation.
    apply elem_of_app. right. apply list_elem_of_singleton. reflexivity.
  - intros e Hin. apply in_map_iff in Hin as (row & <- & Hrow). apply in_map.
    apply list_elem_of_In. apply list_elem_of_In in Hrow.
    rewrite merge_sort_Permutation in Hrow. rewrite merge_sort_Permutation.
    apply elem_of_app. now left.
  - rewrite !length_map, !merge_sort_Permutation, length_app. cbn. lia.
Qed.

End QueryProperties.

Lemma events_without_issue_are_not_found_by_issue_witness :
  fst (VCStorage_GetAgentEventsByIssue (fun i => 41 + 2 * Z.of_nat i) statusText agentTypeText
         false "" (snd (VCStorage_StoreAgentEvent false systemEvent oneOpenIssue)))
  = [].
Proof.
  exact (f_equal fst
           (proj1 (events_without_issue_are_not_found_by_issue
                     (fun i => 41 + 2 * Z.of_nat i) statusText agentTypeText
                     systemEvent oneOpenIssue
                     (snd (VCStorage_StoreAgentEvent false systemEvent oneOpenIssue))
                     "" eq_refl eq_refl))).
Defined.

Lemma stored_event_is_read_back_for_its_issue_witness :
  In (readBack statusText agentTypeText 41 (eventAt 30 "vc-7" "claimed"))
     (fst (VCStorage_GetAgentEventsByIssue (fun i => 41 + 2 * Z.of_nat i) statusText
             agentTypeText false "vc-7"
             (snd (VCStorage_StoreAgentEvent false (eventAt 30 "vc-7" "claimed") oneOpenIssue)))).
Proof.
  assert (Hne : AgentEvent.IssueID (eventAt 30 "vc-7" "claimed") <> "") by discriminate.
  exact (proj1 (stored_event_is_read_back_for_its_issue
                  (fun i => 41 + 2 * Z.of_nat i) statusText agentTypeText
                  (eventAt 30 "vc-7" "claimed") oneOpenIssue
                  (snd (VCStorage_StoreAgentEvent false (eventAt 30 "vc-7" "claimed")
                          oneOpenIssue))
                  Hne eq_refl)).
Defined.
(** ** Opening the storage *)

(** X22. [NewStorage] opens the path of the configuration it is given; when
    there is no configuration or its path is empty, the value of
    [VC_DB_PATH]; and when that is empty too, [.beads/vc.db]. It never opens
    the empty path, a nil configuration is treated as one with an empty
    path, and a configuration that was given comes back holding the path
    that was opened. *)
Theorem NewStorage_resolves_the_database_path
  (R : Type) (VC_DB_PATH : string) (open : string -> R) (cfg : option StorageConfig.t) :
  let given := match cfg with Some c => StorageConfig.Path c | None => "" end in
  let path :=
    if decide (given = "")
    then (if decide (VC_DB_PATH = "") then defaultDBPath else VC_DB_PATH)
    else given in
  storage_NewStorage VC_DB_PATH open cfg
  = (open path, match cfg with Some _ => Some {| StorageConfig.Path := path |} | None => None end)
  /\ path <> ""
  /\ fst (storage_NewStorage VC_DB_PATH open None)
     = fst (storage_NewStorage VC_DB_PATH open (Some {| StorageConfig.Path := "" |})).
Proof.
  cbv zeta. unfold storage_NewStorage, storage_DefaultConfig.
  destruct cfg as [[p]|]; cbn [StorageConfig.Path];
    destruct (decide (VC_DB_PATH = "")) as [Hv|Hv]; repeat (destruct (decide _));
    subst; repeat split; try congruence; try discriminate.
Qed.

(** ** The migration *)

Lemma hasColumn_addColumn (name name' : string) (t : TableInfo.t) :
  name <> name' -> hasColumn name (addColumn name' t) = hasColumn name t.
Proof.
  intros Hne. unfold hasColumn, addColumn. cbn. apply bool_decide_ext.
  rewrite elem_of_app, list_elem_of_singleton. tauto.
Qed.

Lemma hasColumn_createIndex (name index : string) (t : TableInfo.t) :
  hasColumn name (createIndexIfNotExists index t) = hasColumn name t.
Proof. unfold createIndexIfNotExists. now destruct (bool_decide _). Qed.

Lemma columns_createIndex (index : string) (t : TableInfo.t) :
  TableInfo.columns (createIndexIfNotExists index t) = TableInfo.columns t.
Proof. unfold createIndexIfNotExists. now destruct (bool_decide _). Qed.

Lemma missing_cons (name : string) (rest : list string) (t : TableInfo.t) :
  filter (fun name => name ∉ TableInfo.columns t) (name :: rest)
  = (if hasColumn name t then [] else [name])
    ++ filter (fun name => name ∉ TableInfo.columns t) rest.
Proof.
  unfold hasColumn. case_bool_decide as Hin.
  - rewrite filter_cons_False; [reflexivity|tauto].
  - rewrite filter_cons_True; [reflexivity|exact Hin].
Qed.

Lemma migrate_columns (t : TableInfo.t) :
  TableInfo.columns (snd (migrateAgentEventsTable false t))
  = TableInfo.columns t ++ missingColumns t.
Proof.
  unfold migrateAgentEventsTable, missingColumns. cbn [snd].
  rewrite !missing_cons, filter_nil.
  destruct (hasColumn "executor_id" t) eqn:He;
    repeat first [rewrite hasColumn_createIndex | rewrite hasColumn_addColumn by discriminate];
    destruct (hasColumn "agent_id" t) eqn:Ha;
    repeat first [rewrite hasColumn_createIndex | rewrite hasColumn_addColumn by discriminate];
    destruct (hasColumn "source_line" t) eqn:Hs;
    cbn [addColumn TableInfo.columns]; rewrite ?columns_createIndex;
    cbn [addColumn TableInfo.columns app]; rewrite ?app_nil_r, <- ?app_assoc; reflexivity.
Qed.

(** X23. With a live context [migrateAgentEventsTable] succeeds and adds to
    [vc_agent_events], after the columns it has, those of [executor_id],
    [agent_id] and [source_line] that are missing, in this order, and
    nothing else; afterwards the three are there, so that a second migration
    changes nothing. The table as the schema creates it is left as it is.
    With a cancelled context the migration fails at its first check and
    leaves the table alone. *)
Theorem migrateAgentEventsTable_adds_the_missing_columns (t : TableInfo.t) :
  let r := snd (migrateAgentEventsTable false t) in
  fst (migrateAgentEventsTable false t) = None
  /\ TableInfo.columns r = TableInfo.columns t ++ missingColumns t
  /\ hasColumn "executor_id" r && hasColumn "agent_id" r && hasColumn "source_line" r = true
  /\ migrateAgentEventsTable false r = (None, r)
  /\ migrateAgentEventsTable false schemaAgentEvents = (None, schemaAgentEvents)
  /\ migrateAgentEventsTable true t
     = (Some "failed to check for executor_id column: context canceled", t).
Proof.
  cbv zeta. split; [reflexivity|].
  pose proof (migrate_columns t) as Hcols.
  assert (Hall : forall name, name ∈ ["executor_id"; "agent_id"; "source_line"] ->
                 hasColumn name (snd (migrateAgentEventsTable false t)) = true).
  { intros name Hn. unfold hasColumn. apply bool_decide_eq_true_2. rewrite Hcols.
    apply elem_of_app.
    destruct (decide (name ∈ TableInfo.columns t)) as [Hin|Hin]; [left; exact Hin|right].
    unfold missingColumns. apply list_elem_of_filter. split; assumption. }
  split; [exact Hcols|]. split; [|split; [|split; reflexivity]].
  - rewrite !Hall by (repeat constructor). reflexivity.
  - set (r := snd (migrateAgentEventsTable false t)) in *.
    unfold migrateAgentEventsTable at 1.
    rewrite (Hall "executor_id") by (repeat constructor). cbv zeta.
    rewrite (Hall "agent_id") by (repeat constructor).
    rewrite (Hall "source_line") by (repeat constructor). reflexivity.
Qed.

(** ** The command line *)

Section CommandProperties.

Context {S : Type}.
Variable store : Cli.Store S.
Variable tick : string.

Lemma is_Some_empty (name : string) : is_Some ((∅ : gmap string Value) !! name) <-> False.
Proof. split; [apply lookup_empty_is_Some|tauto]. Qed.

Lemma updatesOf_lookup (flags : Cli.Flags) (name : string) :
  is_Some (Cli.updatesOf flags !! name)
  <-> In name ["status"; "priority"; "title"; "assignee"] /\ Cli.Changed flags name = true.
Proof.
  unfold Cli.updatesOf. cbv zeta.
  destruct (Cli.Changed flags "status") eqn:H1, (Cli.Changed flags "priority") eqn:H2,
    (Cli.Changed flags "title") eqn:H3, (Cli.Changed flags "assignee") eqn:H4;
    rewrite ?lookup_insert_is_Some, is_Some_empty; cbn [In];
    (split; [intros H; intuition (subst; auto) | intros [H Hc]; intuition (subst; congruence)]).
Qed.

(** X25. [vc update] calls the store only when one of the flags [status],
    [priority], [title] and [assignee] was given: without any of them it
    prints that no updates were specified and leaves the store alone.
    Otherwise it makes one [UpdateIssue] call for its argument, with a map
    whose keys are exactly the flags that were given, and leaves with status
    1 exactly when the store refuses. *)
Theorem updateCmd_updates_what_was_given
  (actor id : string) (flags : Cli.Flags) (s : S) :
  let r := Cli.updateCmd store tick actor id flags s in
  let given :=
    List.filter (Cli.Changed flags) ["status"; "priority"; "title"; "assignee"] in
  match given with
  | [] =>
      r = {| Cli.exit := None; Cli.state := s; Cli.calls := [];
             Cli.output := [Stdout "No updates specified"] |}
  | _ :: _ =>
      exists updates,
        Cli.calls r = [Cli.CallUpdateIssue id updates actor]
        /\ (forall name, is_Some (updates !! name) <-> In name given)
        /\ Cli.exit r
           = match fst (Cli.UpdateIssue store id updates actor s) with
             | Some _ => Some 1
             | None => None
             end
  end.
Proof.
  cbv zeta.
  assert (Hdom : forall name,
            is_Some (Cli.updatesOf flags !! name)
            <-> In name (List.filter (Cli.Changed flags)
                           ["status"; "priority"; "title"; "assignee"])).
  { intros name. rewrite updatesOf_lookup, filter_In. reflexivity. }
  unfold Cli.updateCmd. cbv zeta.
  destruct (List.filter (Cli.Changed flags) ["status"; "priority"; "title"; "assignee"])
    as [|first rest] eqn:Hgiven.
  - assert (He : Cli.updatesOf flags = ∅).
    { apply map_empty. intros name. apply eq_None_not_Some. rewrite Hdom. cbn. tauto. }
    rewrite He, map_size_empty. reflexivity.
  - destruct (decide (size (Cli.updatesOf flags) = 0%nat)) as [Hz|Hnz].
    + apply map_size_empty_inv in Hz. exfalso.
      assert (Hf : is_Some (Cli.updatesOf flags !! first)) by (apply Hdom; now left).
      rewrite Hz, lookup_empty in Hf. now apply is_Some_None in Hf.
    + exists (Cli.updatesOf flags).
      destruct (Cli.UpdateIssue store id (Cli.updatesOf flags) actor s) as [[m|] s1];
        cbn; repeat split; apply Hdom.
Qed.

Lemma closeEach_calls (actor reason : string) (ids : list string) (s : S) :
  let r := Cli.closeEach store tick actor reason ids s in
  snd (fst r) = map (fun id => Cli.CallCloseIssue id reason actor) ids
  /\ length (snd r) = length ids.
Proof.
  cbv zeta. revert s. induction ids as [|id rest IH]; intros s; cbn [Cli.closeEach].
  - split; reflexivity.
  - destruct (Cli.CloseIssue store id reason actor s) as [err s1].
    specialize (IH s1). destruct (Cli.closeEach store tick actor reason rest s1) as [[s2 c2] o2].
    cbn in *. destruct IH as [-> ->]. split; reflexivity.
Qed.

(** X26. [vc close] asks the store to close every issue it is given, in
    order and each once, with the reason of the [reason] flag, or "Closed"
    when that is empty; a refusal does not keep it from the issues that
    follow. It prints one line for each issue and never leaves through
    [os.Exit], even when every close was refused. *)
Theorem closeCmd_attempts_every_issue
  (actor : string) (ids : list string) (flags : Cli.Flags) (s : S) :
  let r := Cli.closeCmd store tick actor ids flags s in
  let reason :=
    if decide (Cli.GetString flags "reason" "" = "") then "Closed"
    else Cli.GetString flags "reason" "" in
  Cli.calls r = map (fun id => Cli.CallCloseIssue id reason actor) ids
  /\ Cli.exit r = None
  /\ length (Cli.output r) = length ids.
Proof.
  cbv zeta. unfold Cli.closeCmd. cbv zeta.
  match goal with
  | |- context [Cli.closeEach store tick actor ?reason ids s] =>
      destruct (closeEach_calls actor reason ids s) as [Hc Hl];
      destruct (Cli.closeEach store tick actor reason ids s) as [[s1 c1] o1]
  end.
  cbn in *. repeat split; assumption.
Qed.

Lemma addLabels_calls (actor issueID : string) (labels : list string) (s : S) :
  snd (fst (Cli.addLabels store actor issueID labels s))
  = map (fun label => Cli.CallAddLabel issueID label actor) labels.
Proof.
  revert s. induction labels as [|label rest IH]; intros s; cbn [Cli.addLabels].
  - reflexivity.
  - destruct (Cli.AddLabel store issueID label actor s) as [err s1].
    specialize (IH s1). destruct (Cli.addLabels store actor issueID rest s1) as [[s2 c2] o2].
    cbn in *. now rewrite IH.
Qed.

(** X27. [vc create] hands the store an open issue without an ID, with its
    first argument for title and with priority 2 unless the flag says
    otherwise. When the store refuses it, the command prints the error and
    leaves with status 1, and no label is added; otherwise it adds the
    labels of the flag, each once and in order, to the issue under the ID
    the store gave it, and returns normally whatever the store answers for
    the labels. *)
Theorem createCmd_labels_the_issue_it_created
  (actor title : string) (flags : Cli.Flags) (s : S) :
  let r := Cli.createCmd store tick actor title flags s in
  exists issue,
    head (Cli.calls r) = Some (Cli.CallCreateIssue issue actor)
    /\ VCIssue.ID issue = "" /\ VCIssue.Title issue = title /\ VCIssue.Status issue = "open"
    /\ VCIssue.Priority issue = Cli.GetInt flags "priority" 2
    /\ match fst (Cli.CreateIssue store issue actor s) with
       | (_, Some m) =>
           Cli.exit r = Some 1
           /\ Cli.calls r = [Cli.CallCreateIssue issue actor]
           /\ Cli.output r = [Stderr ("Error: " +:+ m)]
       | (created, None) =>
           Cli.exit r = None
           /\ tail (Cli.calls r)
              = map (fun label => Cli.CallAddLabel (VCIssue.ID created) label actor)
                  (Cli.GetStringSlice flags "labels" [])
       end.
Proof.
  cbv zeta. unfold Cli.createCmd. cbv zeta.
  match goal with
  | |- context [Cli.CreateIssue store ?issue actor s] =>
      exists issue; destruct (Cli.CreateIssue store issue actor s) as [[created [m|]] s1]
  end; cbn [fst snd].
  - repeat split.
  - match goal with
    | |- context [Cli.addLabels store actor ?id ?labels s1] =>
        pose proof (addLabels_calls actor id labels s1) as Hl;
        destruct (Cli.addLabels store actor id labels s1) as [[s2 c2] o2]
    end.
    cbn in *. repeat split. exact Hl.
Qed.

Lemma dispatch_actor (c : Cli.Command) (actor : string) (s : S) :
  Forall (fun call => Cli.actorOf call = Some actor)
    (Cli.calls (Cli.dispatch store tick c actor s)).
Proof.
  destruct c as [title flags|id flags|ids flags]; cbn [Cli.dispatch].
  - unfold Cli.createCmd. cbv zeta.
    match goal with
    | |- context [Cli.CreateIssue store ?issue actor s] =>
        destruct (Cli.CreateIssue store issue actor s) as [[created [m|]] s1]
    end; [repeat constructor|].
    match goal with
    | |- context [Cli.addLabels store actor ?id ?labels s1] =>
        pose proof (addLabels_calls actor id labels s1) as Hl;
        destruct (Cli.addLabels store actor id labels s1) as [[s2 c2] o2]
    end.
    cbn in *. subst c2. constructor; [reflexivity|].
    apply Forall_fmap, Forall_true. reflexivity.
  - unfold Cli.updateCmd. cbv zeta. destruct (decide _); [constructor|].
    destruct (Cli.UpdateIssue store id _ actor s) as [[m|] s1]; repeat constructor.
  - unfold Cli.closeCmd. cbv zeta.
    match goal with
    | |- context [Cli.closeEach store tick actor ?reason ids s] =>
        destruct (closeEach_calls actor reason ids s) as [Hc _];
        destruct (Cli.closeEach store tick actor reason ids s) as [[s1 c1] o1]
    end.
    cbn in *. subst c1. apply Forall_fmap, Forall_true. reflexivity.
Qed.

(** X28. A command run by [vc] never hands the store an empty actor: the
    actor is the one of the [actor] flag, or [USER], or "unknown". When the
    database cannot be found or opened the run prints one error line and
    leaves with status 1 without a call to the store. The store is closed
    once, as the last call, when the command returns, and is not closed when
    the command leaves through [os.Exit]. *)
Theorem run_names_an_actor_and_closes_the_store
  (env : Cli.Env) (dbPath actor : string) (c : Cli.Command) (s : S) :
  let r := Cli.run store env dbPath actor (Cli.dispatch store tick c) s in
  Forall (fun call => Cli.actorOf call <> Some "") (Cli.calls r)
  /\ match Cli.exit r with
     | None => last (Cli.calls r) = Some Cli.CallClose
     | Some code => code = 1 /\ ~ In Cli.CallClose (Cli.calls r)
     end
  /\ match Cli.PersistentPreRun env dbPath actor with
     | inr line =>
         r = {| Cli.exit := Some 1; Cli.state := s; Cli.calls := [];
                Cli.output := [Stderr line] |}
     | inl (_, resolved) => resolved <> ""
     end.
Proof.
  cbv zeta. unfold Cli.run.
  assert (Hres : forall p a, Cli.PersistentPreRun env dbPath actor = inl (p, a) -> a <> "").
  { unfold Cli.PersistentPreRun. intros p a.
    destruct (if decide (dbPath = "") then _ else _) as [found|line]; [|discriminate].
    destruct (Cli.NewVCStorage env found); [discriminate|].
    intros H. injection H as _ <-.
    destruct (decide (actor = "")); [|assumption].
    destruct (decide (Cli.USER env = "")); [discriminate|assumption]. }
  destruct (Cli.PersistentPreRun env dbPath actor) as [[p a]|line] eqn:Hpre.
  - specialize (Hres p a eq_refl).
    pose proof (dispatch_actor c a s) as Hact.
    assert (Hne : Forall (fun call => Cli.actorOf call <> Some "")
                    (Cli.calls (Cli.dispatch store tick c a s))).
    { eapply Forall_impl; [exact Hact|]. intros call Hc. rewrite Hc. congruence. }
    destruct (Cli.exit (Cli.dispatch store tick c a s)) as [code|] eqn:Hexit.
    + rewrite Hexit. split; [exact Hne|]. split; [|exact Hres]. split.
      * destruct c as [title flags|id flags|ids flags]; cbn [Cli.dispatch] in Hexit.
        -- unfold Cli.createCmd in Hexit. cbv zeta in Hexit.
           destruct (Cli.CreateIssue store _ a s) as [[created [m|]] s1];
             [cbn in Hexit; congruence|].
           destruct (Cli.addLabels store a _ _ s1) as [[s2 c2] o2]. discriminate Hexit.
        -- unfold Cli.updateCmd in Hexit. cbv zeta in Hexit.
           destruct (decide _); [discriminate Hexit|].
           destruct (Cli.UpdateIssue store id _ a s) as [[m|] s1]; cbn in Hexit; congruence.
        -- unfold Cli.closeCmd in Hexit. cbv zeta in Hexit.
           destruct (Cli.closeEach store tick a _ ids s) as [[s1 c1] o1]. discriminate Hexit.
      * intros Hin. rewrite List.Forall_forall in Hact. apply Hact in Hin. discriminate Hin.
    + destruct (Cli.Close store _) as [cerr s1]. cbn [Cli.exit Cli.calls].
      split; [|split; [apply last_snoc|exact Hres]].
      apply Forall_app. split; [exact Hne|]. repeat constructor. discriminate.
  - cbn. repeat split; [constructor|tauto].
Qed.

End CommandProperties.
